(** * Observability hub

    A shallow embedding of [src/execution/observability.py] and of the
    [SlackNotifier] and [AgentObserver] classes and the [observe] decorator
    of [src/execution/slack_notifier.py], with the properties the
    specification states about them and further properties of the code.

    Layout: Python values and text; binary64 formatting; the outcome monad
    (return, raise, block on a lock); the world the program acts on (clock,
    console, files, network); [SlackNotifier], [MetricsCollector],
    [EventLogger], [ObservabilityHub] and its context managers,
    [AgentObserver]; the vocabulary of the statements and the sample data;
    the theorems; the theorems run on the samples. *)

From stdpp Require Import base option list gmap strings pretty.
From Stdlib Require Import ZArith QArith Floats Lia.

Set Default Proof Using "Type".
Set Warnings "-register-all".
Close Scope Q_scope.

(** ** Python text

    A [str] is kept as its UTF-8 bytes. Python counts and slices code points:
    a byte [10xxxxxx] continues the code point begun before it. *)

Definition is_continuation (c : Ascii.ascii) : bool :=
  let n := Ascii.N_of_ascii c in (128 <=? n)%N && (n <? 192)%N.

(** [len(s)] *)
Fixpoint py_len (s : string) : nat :=
  match s with
  | EmptyString => 0
  | String c r => (if is_continuation c then 0 else 1) + py_len r
  end.

(** [s[:n]] *)
Fixpoint py_prefix (n : nat) (s : string) : string :=
  match s with
  | EmptyString => EmptyString
  | String c r =>
      if is_continuation c then String c (py_prefix n r)
      else match n with
           | O => EmptyString
           | S k => String c (py_prefix k r)
           end
  end.

(** [bool(s)] for an optional string: [None] and [""] are falsy. *)
Definition truthy_str (o : option string) : bool :=
  match o with
  | Some (String _ _) => true
  | _ => false
  end.

(** ** Python values

    The payloads the hub carries ([Dict[str, Any]]) are values of the JSON
    data model. An [int] is unbounded, a [float] is a binary64 double (a
    primitive float, with its rounding, infinities and NaN). A [dict] is
    its list of items in insertion order. *)

Inductive Value : Type :=
| VNone
| VBool (b : bool)
| VInt (z : Z)
| VFloat (x : float)
| VStr (s : string)
| VList (vs : list Value)
| VDict (kvs : list (string * Value)).

Abbreviation Dict := (list (string * Value)).

(** [d.get(k)] *)
Fixpoint dict_get {V} (k : string) (d : list (string * V)) : option V :=
  match d with
  | [] => None
  | (k', v) :: d' => if String.eqb k k' then Some v else dict_get k d'
  end.

(** [d[k] = v]: an existing key keeps its place, a new one goes last. *)
Fixpoint dict_set {V} (k : string) (v : V) (d : list (string * V)) : list (string * V) :=
  match d with
  | [] => [(k, v)]
  | (k', v') :: d' =>
      if String.eqb k k' then (k, v) :: d' else (k', v') :: dict_set k v d'
  end.

(** [d.update(other)] *)
Definition dict_update {V} (d other : list (string * V)) : list (string * V) :=
  fold_left (fun acc kv => dict_set kv.1 kv.2 acc) other d.

(** [isinstance(v, (int, float))]: [bool] is a subclass of [int]. *)
Definition is_int_or_float (v : Value) : bool :=
  match v with
  | VBool _ | VInt _ | VFloat _ => true
  | _ => false
  end.

(** ** binary64 and its fixed-point rendering

    Durations and percentages are printed with [format(x, ".Nf")], which
    rounds the exact binary value of the double half-to-even. The doubles
    are Rocq's primitive floats. *)

(** The double nearest to an integer, ties to even; an infinity when the
    integer is beyond the range of the doubles. *)
Definition int_to_double (z : Z) : spec_float :=
  binary_normalize prec emax z 0 false.

Definition Z2float (z : Z) : float :=
  if (z <? 0)%Z then PrimFloat.opp (PrimFloat.of_uint63 (Uint63.of_Z (- z)))
  else PrimFloat.of_uint63 (Uint63.of_Z z).

Definition round_half_even (num den : Z) : Z :=
  let q := (num / den)%Z in
  let r := (num mod den)%Z in
  if (2 * r <? den)%Z then q
  else if (den <? 2 * r)%Z then (q + 1)%Z
  else if Z.even q then q else (q + 1)%Z.

Fixpoint zeros (n : nat) : string :=
  match n with
  | O => ""
  | S k => "0" +:+ zeros k
  end.

Definition zfill (d : nat) (s : string) : string :=
  zeros (d - String.length s) +:+ s.

(** The decimal text of [n / 10^d] with [d] digits after the point. *)
Definition fixed_point (d : nat) (n : Z) : string :=
  let p := (10 ^ Z.of_nat d)%Z in
  pretty (n / p)%Z +:+
  match d with
  | O => ""
  | _ => "." +:+ zfill d (pretty (n mod p)%Z)
  end.

(** [f"{x:.{d}f}"] *)
Definition format_f (d : nat) (x : float) : string :=
  match Prim2SF x with
  | S754_nan => "nan"
  | S754_infinity s => if s then "-inf" else "inf"
  | S754_zero s => (if s then "-" else "") +:+ fixed_point d 0
  | S754_finite s m e =>
      (if s then "-" else "") +:+
      fixed_point d
        (if (0 <=? e)%Z then (Z.pos m * 2 ^ e * 10 ^ Z.of_nat d)%Z
         else round_half_even (Z.pos m * 10 ^ Z.of_nat d) (2 ^ (- e)))
  end.

(** [f"{x:.{d}%}"]: the double is multiplied by 100, then printed as above. *)
Definition format_pct (d : nat) (x : float) : string :=
  format_f d (x * 100)%float +:+ "%".

(** ** Time

    A [datetime] is its position on the naive local time line, in
    microseconds, together with the three renderings the program asks of it. *)

Record datetime : Type := mkDatetime {
  dt_us : Z;
  dt_ymd : string;   (* strftime('%Y-%m-%d') *)
  dt_hms : string;   (* strftime("%H:%M:%S") *)
  dt_iso : string    (* isoformat() *)
}.

(** [(b - a).total_seconds()]: the microsecond count divided by 10^6, as a
    double (exact conversion below 2^53 microseconds). *)
Definition total_seconds (b a : datetime) : float :=
  (Z2float (dt_us b - dt_us a) / 1000000)%float.

(** ** Enumerations *)

Inductive EventType : Type :=
| DIRECTIVE_STARTED | DIRECTIVE_COMPLETED | DIRECTIVE_FAILED | DIRECTIVE_UPDATED
| SCRIPT_STARTED | SCRIPT_COMPLETED | SCRIPT_FAILED
| TASK_PROGRESS | TASK_CHECKPOINT
| LEARNING_CAPTURED | ERROR_RECOVERED
| SYSTEM_HEALTH | METRIC_RECORDED.

Definition EventType_value (t : EventType) : string :=
  match t with
  | DIRECTIVE_STARTED => "directive_started"
  | DIRECTIVE_COMPLETED => "directive_completed"
  | DIRECTIVE_FAILED => "directive_failed"
  | DIRECTIVE_UPDATED => "directive_updated"
  | SCRIPT_STARTED => "script_started"
  | SCRIPT_COMPLETED => "script_completed"
  | SCRIPT_FAILED => "script_failed"
  | TASK_PROGRESS => "task_progress"
  | TASK_CHECKPOINT => "task_checkpoint"
  | LEARNING_CAPTURED => "learning_captured"
  | ERROR_RECOVERED => "error_recovered"
  | SYSTEM_HEALTH => "system_health"
  | METRIC_RECORDED => "metric_recorded"
  end.

#[global] Instance EventType_eq_dec : EqDecision EventType.
Proof. solve_decision. Defined.

Inductive NotificationLevel : Type := INFO | WARNING | ERROR | SUCCESS | DEBUG.

Definition NotificationLevel_value (l : NotificationLevel) : string :=
  match l with
  | INFO => "#36a64f"
  | WARNING => "#ffcc00"
  | ERROR => "#ff0000"
  | SUCCESS => "#2eb886"
  | DEBUG => "#808080"
  end.

Definition NotificationLevel_name (l : NotificationLevel) : string :=
  match l with
  | INFO => "INFO"
  | WARNING => "WARNING"
  | ERROR => "ERROR"
  | SUCCESS => "SUCCESS"
  | DEBUG => "DEBUG"
  end.

(** ** Outcomes

    A call returns, raises, or never comes back: the only way not to come
    back that the program has is to wait for a [threading.Lock] that the
    waiting thread itself holds. *)

Inductive Exn : Type :=
| AttributeError (cls attr : string)
| KeyError (key : string)
| TypeError (msg : string)
| JSONDecodeError (doc : string)
| OverflowError (msg : string).

Inductive Res (A : Type) : Type :=
| Ok (a : A)
| Raise (e : Exn)
| Hang.

Arguments Ok {A} a.
Arguments Raise {A} e.
Arguments Hang {A}.

(** A computation over a store [S]. *)
Definition M (S A : Type) : Type := S -> Res A * S.

Definition ret {S A} (a : A) : M S A := fun s => (Ok a, s).

Definition bind {S A B} (m : M S A) (k : A -> M S B) : M S B :=
  fun s =>
    match m s with
    | (Ok a, s') => k a s'
    | (Raise e, s') => (Raise e, s')
    | (Hang, s') => (Hang, s')
    end.

Definition raise {S A} (e : Exn) : M S A := fun s => (Raise e, s).

Definition get {S} : M S S := fun s => (Ok s, s).

Definition modify {S} (f : S -> S) : M S unit := fun s => (Ok tt, f s).

Declare Scope py_scope.
Delimit Scope py_scope with py.

Notation "'let*' x ':=' c 'in' k" := (bind c (fun x => k))
  (at level 10, x name, c at level 100, k at level 200) : py_scope.

Notation "c ';;' k" := (bind c (fun _ => k))
  (at level 100, k at level 200, right associativity) : py_scope.

Open Scope py_scope.

(** The outcome of a pure computation, in any store. *)
Definition lift {S A} (r : Res A) : M S A := fun s => (r, s).

(** [float(v)] for a value that passed [is_int_or_float] (no other value
    is passed to it): an [int] is rounded to the nearest double, and one
    that is too large for a double raises [OverflowError]. *)
Definition to_float (v : Value) : Res float :=
  match v with
  | VBool b => Ok (if b then 1%float else 0%float)
  | VInt z =>
      match int_to_double z with
      | S754_infinity _ => Raise (OverflowError "int too large to convert to float")
      | x => Ok (SF2Prim x)
      end
  | VFloat x => Ok x
  | _ => Raise (TypeError "float() argument must be a string or a real number")
  end.

(** [if b: body] *)
Definition when {S} (b : bool) (body : M S unit) : M S unit :=
  if b then body else ret tt.

(** [for x in xs: body(x)] *)
Fixpoint for_each {S A} (xs : list A) (body : A -> M S unit) : M S unit :=
  match xs with
  | [] => ret tt
  | x :: xs' => body x ;; for_each xs' body
  end.

(** [[f(x) for x in xs]] *)
Fixpoint map_each {S A B} (xs : list A) (f : A -> M S B) : M S (list B) :=
  match xs with
  | [] => ret []
  | x :: xs' => let* y := f x in let* ys := map_each xs' f in ret (y :: ys)
  end.

(** Run a computation on a component of the store. *)
Definition zoom {S T A} (proj : S -> T) (upd : T -> S -> S) (m : M T A) : M S A :=
  fun s => let '(r, t') := m (proj s) in (r, upd t' s).

(** ** The world

    What the program reads and writes outside its own objects. The clock is
    an oracle: each reading of [datetime.now()] or [time.time()] takes the
    next tick. A text file is its content; [urlopen] answers by an oracle
    indexed by the number of requests made before. Three histories record
    what was done, for the statements only: the [Event] objects constructed,
    the calls of [SlackNotifier.send], and the subscriber invocations. *)

Inductive HttpOutcome : Type :=
| Response (status : Z)
| URLError (reason : string)
| OtherError (msg : string).

Record Field : Type := mkField {
  f_title : string;
  f_value : string;
  f_short : bool
}.

Record Attachment : Type := mkAttachment {
  att_color : string;
  att_text : string;
  att_ts : datetime;
  att_footer : string;
  att_title : option string;
  att_fields : option (list Field)
}.

Record Payload : Type := mkPayload {
  pl_username : string;
  pl_icon_emoji : string;
  pl_attachments : list Attachment;
  pl_channel : option string
}.

Record Request : Type := mkRequest {
  req_url : string;
  req_body : Payload;
  req_timeout : Z
}.

Record Event : Type := mkEvent {
  event_type : EventType;
  source : string;
  message : string;
  data : Dict;
  level : NotificationLevel;
  timestamp : datetime;
  event_id : string   (* self.id *)
}.

Record SendCall : Type := mkSendCall {
  sc_message : string;
  sc_level : NotificationLevel;
  sc_title : option string;
  sc_fields : option (list (string * string));
  sc_context : option string
}.

Record World : Type := mkWorld {
  w_tick : nat;
  w_now : nat -> datetime;
  w_time_ms : nat -> Z;
  w_console : list string;
  w_files : gmap string string;
  w_urlopen : nat -> HttpOutcome;
  w_requests : list Request;
  w_events : list Event;
  w_sends : list SendCall;
  w_callbacks : list (nat * Event)
}.

Definition set_tick (n : nat) (w : World) : World :=
  mkWorld n (w_now w) (w_time_ms w) (w_console w) (w_files w) (w_urlopen w)
    (w_requests w) (w_events w) (w_sends w) (w_callbacks w).

Definition set_console (c : list string) (w : World) : World :=
  mkWorld (w_tick w) (w_now w) (w_time_ms w) c (w_files w) (w_urlopen w)
    (w_requests w) (w_events w) (w_sends w) (w_callbacks w).

Definition set_files (f : gmap string string) (w : World) : World :=
  mkWorld (w_tick w) (w_now w) (w_time_ms w) (w_console w) f (w_urlopen w)
    (w_requests w) (w_events w) (w_sends w) (w_callbacks w).

Definition set_requests (r : list Request) (w : World) : World :=
  mkWorld (w_tick w) (w_now w) (w_time_ms w) (w_console w) (w_files w)
    (w_urlopen w) r (w_events w) (w_sends w) (w_callbacks w).

Definition set_events (e : list Event) (w : World) : World :=
  mkWorld (w_tick w) (w_now w) (w_time_ms w) (w_console w) (w_files w)
    (w_urlopen w) (w_requests w) e (w_sends w) (w_callbacks w).

Definition set_sends (c : list SendCall) (w : World) : World :=
  mkWorld (w_tick w) (w_now w) (w_time_ms w) (w_console w) (w_files w)
    (w_urlopen w) (w_requests w) (w_events w) c (w_callbacks w).

Definition set_callbacks (c : list (nat * Event)) (w : World) : World :=
  mkWorld (w_tick w) (w_now w) (w_time_ms w) (w_console w) (w_files w)
    (w_urlopen w) (w_requests w) (w_events w) (w_sends w) c.

(** [datetime.now()] *)
Definition datetime_now : M World datetime :=
  fun w => (Ok (w_now w (w_tick w)), set_tick (S (w_tick w)) w).

(** [int(time.time() * 1000)] *)
Definition time_ms : M World Z :=
  fun w => (Ok (w_time_ms w (w_tick w)), set_tick (S (w_tick w)) w).

(** [print(line)] *)
Definition print (line : string) : M World unit :=
  modify (fun w => set_console (w_console w ++ [line]) w).

(** [urllib.request.urlopen(req, timeout=...)], seen from the caller: the
    request leaves, and the oracle says what comes back. *)
Definition urlopen (req : Request) : M World HttpOutcome :=
  fun w =>
    (Ok (w_urlopen w (length (w_requests w))),
     set_requests (w_requests w ++ [req]) w).

(** ** SlackNotifier (slack_notifier.py) *)

Record SlackNotifier : Type := mkSlackNotifier {
  webhook_url : option string;
  channel : option string;
  enabled : bool;
  default_username : string;
  default_icon : string
}.

Definition _is_configured (self : SlackNotifier) : bool :=
  truthy_str (webhook_url self) && enabled self.

Definition _build_payload (self : SlackNotifier) (message : string)
    (level : NotificationLevel) (title : option string)
    (fields : option (list (string * string))) (context : option string)
  : M World Payload :=
  let* now := datetime_now in
  let attachment :=
    mkAttachment (NotificationLevel_value level) message now
      (if truthy_str context then default "" context
       else "Agent Workflow Observability")
      (if truthy_str title then title else None)
      (match fields with
       | Some (kv :: kvs) =>
           Some (map (fun kv => mkField kv.1 kv.2 (bool_decide (py_len kv.2 < 40)))
                   (kv :: kvs))
       | _ => None
       end) in
  ret (mkPayload (default_username self) (default_icon self) [attachment]
         (if truthy_str (channel self) then channel self else None)).

(** The [try] of the source catches every [Exception]: both handlers print
    one line and return [False]. A failure before the request leaves (a
    malformed URL) is an [OtherError] of the oracle, so [w_requests] counts
    at least the requests that left. *)
Definition _send_payload (self : SlackNotifier) (payload : Payload) : M World bool :=
  let* r := urlopen (mkRequest (default "" (webhook_url self)) payload 10) in
  match r with
  | Response status => ret (bool_decide (status = 200%Z))
  | URLError e => print ("[SLACK] Failed to send notification: " +:+ e) ;; ret false
  | OtherError e => print ("[SLACK] Unexpected error: " +:+ e) ;; ret false
  end.

Definition send (self : SlackNotifier) (message : string)
    (level : NotificationLevel) (title : option string)
    (fields : option (list (string * string))) (context : option string)
  : M World bool :=
  modify (fun w => set_sends
            (w_sends w ++ [mkSendCall message level title fields context]) w) ;;
  if negb (_is_configured self) then
    print ("[SLACK] Not configured - would send: " +:+ message) ;;
    ret false
  else
    let* payload := _build_payload self message level title fields context in
    _send_payload self payload.

(** ** MetricsCollector (observability.py)

    [_lock] is a [threading.Lock]: it is not re-entrant, so a thread that
    enters [with self._lock] while holding it waits for ever. *)

Record MetricsCollector : Type := mkMetricsCollector {
  _metrics : gmap string (list float);
  _counters : gmap string Z;
  _lock : bool
}.

(** [MetricsCollector()] *)
Definition MetricsCollector_new : MetricsCollector :=
  mkMetricsCollector ∅ ∅ false.

Definition set_metrics (m : gmap string (list float)) (c : MetricsCollector) :=
  mkMetricsCollector m (_counters c) (_lock c).

Definition set_counters (k : gmap string Z) (c : MetricsCollector) :=
  mkMetricsCollector (_metrics c) k (_lock c).

Definition set_lock (b : bool) (c : MetricsCollector) :=
  mkMetricsCollector (_metrics c) (_counters c) b.

(** [with self._lock: body] *)
Definition with_lock {A} (body : M MetricsCollector A) : M MetricsCollector A :=
  fun c =>
    if _lock c then (Hang, c)
    else
      match body (set_lock true c) with
      | (Hang, c') => (Hang, c')
      | (r, c') => (r, set_lock false c')
      end.

Definition record (name : string) (value : float) : M MetricsCollector unit :=
  with_lock
    (modify (fun c =>
       let m := match _metrics c !! name with
                | None => <[name := []]> (_metrics c)
                | Some _ => _metrics c
                end in
       set_metrics (alter (fun l => l ++ [value]) name m) c)).

Definition increment (name : string) (amount : Z) : M MetricsCollector unit :=
  with_lock
    (modify (fun c =>
       set_counters
         (<[name := (default 0 (_counters c !! name) + amount)%Z]> (_counters c)) c)).

(** [sum(values)], [min(values)] and [max(values)] as the built-ins run on
    floats: additions from the left, starting from 0, each rounded to the
    nearest double; a scan that replaces the best item when [item < best]
    (for [min]) or [item > best] (for [max]), so that a comparison with
    NaN, which is false, keeps the best item. *)
Definition py_sum (values : list float) : float :=
  fold_left PrimFloat.add values 0%float.

Definition py_min (first : float) (others : list float) : float :=
  fold_left (fun best v => if (v <? best)%float then v else best) others first.

Definition py_max (first : float) (others : list float) : float :=
  fold_left (fun best v => if (best <? v)%float then v else best) others first.

(** [float(len(values))], the divisor of the average. *)
Definition float_of_len (n : nat) : float := SF2Prim (int_to_double (Z.of_nat n)).

Record Summary : Type := mkSummary {
  s_count : nat;
  s_sum : float;
  s_avg : float;
  s_min : float;
  s_max : float
}.

(** The result is [None] for the empty dict [{}]. *)
Definition get_summary (name : string) : M MetricsCollector (option Summary) :=
  with_lock
    (let* c := get in
     match default [] (_metrics c !! name) with
     | [] => ret None
     | v :: vs =>
         let values := v :: vs in
         ret (Some (mkSummary (length values) (py_sum values)
                      (py_sum values / float_of_len (length values))%float
                      (py_min v vs) (py_max v vs)))
     end).

Definition get_counter (name : string) : M MetricsCollector Z :=
  with_lock (let* c := get in ret (default 0%Z (_counters c !! name))).

Record Snapshot : Type := mkSnapshot {
  snap_metrics : gmap string (option Summary);
  snap_counters : gmap string Z
}.

(** The keys of a dict, as a loop over it visits them (Python visits them
    in insertion order; the order plays no part below). *)
Definition keys {V} (m : gmap string V) : list string := (map_to_list m).*1.

Definition get_all : M MetricsCollector Snapshot :=
  with_lock
    (let* c := get in
     let* items := map_each (keys (_metrics c))
                     (fun k => let* s := get_summary k in ret (k, s)) in
     let* c' := get in
     ret (mkSnapshot (list_to_map items) (_counters c'))).

Definition reset : M MetricsCollector unit :=
  with_lock (modify (fun c => set_counters ∅ (set_metrics ∅ c))).

(** ** Event (observability.py) *)

(** What an attribute of an [Event] object evaluates to. *)
Inductive Attr : Type :=
| AttrEventType (t : EventType)
| AttrStr (s : string)
| AttrDict (d : Dict)
| AttrLevel (l : NotificationLevel)
| AttrDatetime (t : datetime)
| AttrMethod (name : string).

(** [getattr(event, name)]: the instance attributes are those that
    [Event.__init__] assigns, the methods those that the class defines;
    any other name raises [AttributeError]. *)
Definition Event_getattr (event : Event) (name : string) : option Attr :=
  if String.eqb name "event_type" then Some (AttrEventType (event_type event))
  else if String.eqb name "source" then Some (AttrStr (source event))
  else if String.eqb name "message" then Some (AttrStr (message event))
  else if String.eqb name "data" then Some (AttrDict (data event))
  else if String.eqb name "level" then Some (AttrLevel (level event))
  else if String.eqb name "timestamp" then Some (AttrDatetime (timestamp event))
  else if String.eqb name "id" then Some (AttrStr (event_id event))
  else if String.eqb name "to_dict" then Some (AttrMethod "to_dict")
  else if String.eqb name "__repr__" then Some (AttrMethod "__repr__")
  else None.

(** [Event(event_type, source, message, data, level)] *)
Definition Event_init (event_type : EventType) (source message : string)
    (data : option Dict) (level : NotificationLevel) : M World Event :=
  let* now := datetime_now in
  let* ms := time_ms in
  let event :=
    mkEvent event_type source message (default [] data) level now
      (EventType_value event_type +:+ "_" +:+ pretty ms) in
  modify (fun w => set_events (w_events w ++ [event]) w) ;;
  ret event.

Definition to_dict (event : Event) : Value :=
  VDict [("id", VStr (event_id event));
         ("type", VStr (EventType_value (event_type event)));
         ("source", VStr (source event));
         ("message", VStr (message event));
         ("data", VDict (data event));
         ("level", VStr (NotificationLevel_name (level event)));
         ("timestamp", VStr (dt_iso (timestamp event)))].

(** ** Text files *)

Definition LF : Ascii.ascii := Ascii.ascii_of_nat 10.
Definition CR : Ascii.ascii := Ascii.ascii_of_nat 13.

(** [for line in f] on a file opened in text mode: a line ends at LF, at CR
    or at CR LF, each read as ["\n"], and keeps that terminator; a last
    line may have none. [cur] is the line being read. *)
Fixpoint readlines_from (cur : string) (content : string) : list string :=
  match content with
  | EmptyString =>
      match cur with
      | EmptyString => []
      | _ => [cur]
      end
  | String c rest =>
      if Ascii.eqb c LF then (cur +:+ String LF "") :: readlines_from "" rest
      else if Ascii.eqb c CR then
        match rest with
        | String c' rest' =>
            if Ascii.eqb c' LF then (cur +:+ String LF "") :: readlines_from "" rest'
            else (cur +:+ String LF "") :: readlines_from "" rest
        | EmptyString => [cur +:+ String LF ""]
        end
      else readlines_from (cur +:+ String c "") rest
  end.

Definition readlines (content : string) : list string :=
  readlines_from "" content.

(** [open(path, "a").write(text)] *)
Definition file_append (path text : string) : M World unit :=
  modify (fun w =>
    set_files (<[path := default "" (w_files w !! path) +:+ text]> (w_files w)) w).

(** [d[k]] on a parsed JSON document. *)
Definition getitem (d : Value) (k : string) : Res Value :=
  match d with
  | VDict kvs =>
      match dict_get k kvs with
      | Some v => Ok v
      | None => Raise (KeyError k)
      end
  | VList _ => Raise (TypeError "list indices must be integers or slices, not str")
  | VStr _ => Raise (TypeError "string indices must be integers, not 'str'")
  | _ => Raise (TypeError "object is not subscriptable")
  end.

(** [v != s] for a string [s]. *)
Definition ne_str (v : Value) (s : string) : bool :=
  match v with
  | VStr s' => negb (String.eqb s' s)
  | _ => true
  end.

(** ** The built-ins the program leans on

    [str] of a float or of a container, and the [json] codec, are Python's:
    they are parameters of everything below. *)

Section Observability.

Variable repr_other : Value -> string.
Variable json_dumps : Value -> string.
Variable json_loads : string -> option Value.

(** [str(v)] *)
Definition py_str (v : Value) : string :=
  match v with
  | VNone => "None"
  | VBool true => "True"
  | VBool false => "False"
  | VInt z => pretty z
  | VStr s => s
  | _ => repr_other v
  end.

(** ** EventLogger *)

Record EventLogger : Type := mkEventLogger {
  log_dir : string
}.

Definition log_file (self : EventLogger) (day : datetime) : string :=
  log_dir self +:+ "/events_" +:+ dt_ymd day +:+ ".jsonl".

Definition log (self : EventLogger) (event : Event) : M World unit :=
  let* now := datetime_now in
  file_append (log_file self now) (json_dumps (to_dict event) +:+ String LF "").

(** [cond and data[key] != want]: the subscript is evaluated only when
    [cond] holds. *)
Definition differs (cond : bool) (data : Value) (key want : string) : Res bool :=
  if cond then
    match getitem data key with
    | Ok v => Ok (ne_str v want)
    | Raise e => Raise e
    | Hang => Hang
    end
  else Ok false.

(** One turn of the loop over the lines of the file: the events kept so far
    are [acc]. An [EventType] member is always truthy. *)
Definition get_events_line (event_type : option EventType) (source : option string)
    (acc : list Value) (line : string) : Res (list Value) :=
  match json_loads line with
  | None => Raise (JSONDecodeError line)
  | Some data =>
      match differs (bool_decide (is_Some event_type)) data "type"
              (from_option EventType_value "" event_type) with
      | Raise e => Raise e
      | Hang => Hang
      | Ok true => Ok acc
      | Ok false =>
          match differs (truthy_str source) data "source" (default "" source) with
          | Raise e => Raise e
          | Hang => Hang
          | Ok true => Ok acc
          | Ok false => Ok (acc ++ [data])
          end
      end
  end.

Fixpoint get_events_loop (event_type : option EventType) (source : option string)
    (acc : list Value) (lines : list string) : Res (list Value) :=
  match lines with
  | [] => Ok acc
  | line :: rest =>
      match get_events_line event_type source acc line with
      | Ok acc' => get_events_loop event_type source acc' rest
      | Raise e => Raise e
      | Hang => Hang
      end
  end.

Definition get_events (self : EventLogger) (date : option datetime)
    (event_type : option EventType) (source : option string)
  : M World (list Value) :=
  let* target_date :=
    match date with
    | Some d => ret d
    | None => datetime_now
    end in
  let* w := get in
  match w_files w !! log_file self target_date with
  | None => ret []
  | Some content =>
      fun w' => (get_events_loop event_type source [] (readlines content), w')
  end.

(** ** ObservabilityHub *)

(** A subscriber is a callable; what [emit] sees of a call is whether it
    returned or raised an [Exception], and with which text. *)
Record Subscriber : Type := mkSubscriber {
  sub_id : nat;
  sub_call : Event -> option string
}.

Record Hub : Type := mkHub {
  slack : SlackNotifier;
  logger : EventLogger;
  metrics : MetricsCollector;
  subscribers : list Subscriber;
  console_enabled : bool;
  file_enabled : bool;
  slack_enabled : bool;
  _active_directives : gmap string datetime;
  _active_scripts : gmap string datetime
}.

Definition set_hub_metrics (m : MetricsCollector) (h : Hub) : Hub :=
  mkHub (slack h) (logger h) m (subscribers h) (console_enabled h)
    (file_enabled h) (slack_enabled h) (_active_directives h) (_active_scripts h).

Definition set_subscribers (l : list Subscriber) (h : Hub) : Hub :=
  mkHub (slack h) (logger h) (metrics h) l (console_enabled h)
    (file_enabled h) (slack_enabled h) (_active_directives h) (_active_scripts h).

Definition set_active_directives (m : gmap string datetime) (h : Hub) : Hub :=
  mkHub (slack h) (logger h) (metrics h) (subscribers h) (console_enabled h)
    (file_enabled h) (slack_enabled h) m (_active_scripts h).

Definition set_active_scripts (m : gmap string datetime) (h : Hub) : Hub :=
  mkHub (slack h) (logger h) (metrics h) (subscribers h) (console_enabled h)
    (file_enabled h) (slack_enabled h) (_active_directives h) m.

(** A method of the hub runs on the hub and the world. *)
Abbreviation HubM := (M (Hub * World)).

Definition in_world {A} (m : M World A) : HubM A :=
  zoom snd (fun w s => (s.1, w)) m.

Definition in_hub {A} (m : M Hub A) : HubM A :=
  zoom fst (fun h s => (h, s.2)) m.

Definition in_metrics {A} (m : M MetricsCollector A) : HubM A :=
  in_hub (zoom metrics set_hub_metrics m).

Definition subscribe (callback : Subscriber) : HubM unit :=
  in_hub (modify (fun h => set_subscribers (subscribers h ++ [callback]) h)).

Definition level_icon (l : NotificationLevel) : string :=
  match l with
  | INFO => "ℹ️"
  | WARNING => "⚠️"
  | ERROR => "❌"
  | SUCCESS => "✅"
  | DEBUG => "🔍"
  end.

Definition _log_to_console (event : Event) : M World unit :=
  print ("[" +:+ dt_hms (timestamp event) +:+ "] " +:+ level_icon (level event)
         +:+ " [" +:+ source event +:+ "] " +:+ message event).

Definition title_map (t : EventType) : string :=
  match t with
  | DIRECTIVE_STARTED => "📋 Directive Started"
  | DIRECTIVE_COMPLETED => "✅ Directive Completed"
  | DIRECTIVE_FAILED => "❌ Directive Failed"
  | DIRECTIVE_UPDATED => "📝 Directive Updated"
  | SCRIPT_STARTED => "🚀 Script Started"
  | SCRIPT_COMPLETED => "✅ Script Completed"
  | SCRIPT_FAILED => "❌ Script Failed"
  | TASK_PROGRESS => "📊 Progress Update"
  | TASK_CHECKPOINT => "🏁 Checkpoint"
  | LEARNING_CAPTURED => "🧠 Learning Captured"
  | ERROR_RECOVERED => "🔄 Error Recovered"
  | SYSTEM_HEALTH => "💚 System Health"
  | METRIC_RECORDED => "📈 Metrics"
  end.

(** The field list of the webhook message: [{"Source": event.source}]
    updated with every datum, stringified and cut to 100 characters. *)
Definition slack_fields (event : Event) : list (string * string) :=
  dict_update [("Source", source event)]
    (map (fun kv => (kv.1, py_prefix 100 (py_str kv.2))) (data event)).

(** The arguments of [self.slack.send(...)] are evaluated before the call:
    [event.message], [event.level], then [title_map.get(event.type, ...)],
    which reads the attribute [type] of the event. *)
Definition _notify_slack (event : Event) : HubM unit :=
  let fields := slack_fields event in
  let* s := get in
  match Event_getattr event "type" with
  | None => raise (AttributeError "Event" "type")
  | Some a =>
      let title :=
        match a with
        | AttrEventType t => title_map t
        | _ => "📌 Event"
        end in
      in_world (send (slack s.1) (message event) (level event) (Some title)
                  (Some fields) None) ;;
      ret tt
  end.

(** One turn of the loop over the subscribers: [try: callback(event)]
    [except Exception as e: print(...)]. *)
Definition notify_subscriber (event : Event) (callback : Subscriber) : M World unit :=
  modify (fun w => set_callbacks (w_callbacks w ++ [(sub_id callback, event)]) w) ;;
  match sub_call callback event with
  | None => ret tt
  | Some e => print ("[OBSERVABILITY] Subscriber error: " +:+ e)
  end.

Definition emit (event_type : EventType) (source message : string)
    (data : option Dict) (level : NotificationLevel) (notify_slack : bool)
  : HubM Event :=
  let* event := in_world (Event_init event_type source message data level) in
  let* s := get in
  when (console_enabled s.1) (in_world (_log_to_console event)) ;;
  when (file_enabled s.1) (in_world (log (logger s.1) event)) ;;
  when (notify_slack && slack_enabled s.1) (_notify_slack event) ;;
  in_world (for_each (subscribers s.1) (notify_subscriber event)) ;;
  ret event.

(** *** Convenience methods *)

(** [self._get_duration(start)]: a [datetime] is always truthy, so
    [not start] holds for [None] only. *)
Definition _get_duration (start : option datetime) : M World string :=
  match start with
  | None => ret "unknown"
  | Some t0 =>
      let* now := datetime_now in
      let seconds := total_seconds now t0 in
      if (seconds <? 60)%float then ret (format_f 2 seconds +:+ "s")
      else if (seconds <? 3600)%float then ret (format_f 1 (seconds / 60)%float +:+ "m")
      else ret (format_f 1 (seconds / 3600)%float +:+ "h")
  end.

(** [self._active_directives.pop(name, None)] *)
Definition pop_directive (name : string) : HubM (option datetime) :=
  let* s := get in
  in_hub (modify (fun h => set_active_directives (delete name (_active_directives h)) h)) ;;
  ret (_active_directives s.1 !! name).

(** [self._active_scripts.pop(name, None)] *)
Definition pop_script (name : string) : HubM (option datetime) :=
  let* s := get in
  in_hub (modify (fun h => set_active_scripts (delete name (_active_scripts h)) h)) ;;
  ret (_active_scripts s.1 !! name).

(** [bool(d)] for an optional dict. *)
Definition truthy_dict {V} (o : option (list (string * V))) : bool :=
  match o with
  | Some (_ :: _) => true
  | _ => false
  end.

Definition directive_started (name : string) (context : option Dict) : HubM unit :=
  let* now := in_world datetime_now in
  in_hub (modify (fun h => set_active_directives (<[name := now]> (_active_directives h)) h)) ;;
  emit DIRECTIVE_STARTED name ("Started directive: " +:+ name) context INFO true ;;
  ret tt.

Definition directive_completed (name : string) (result : option Dict) : HubM unit :=
  let* start := pop_directive name in
  let* duration := in_world (_get_duration start) in
  let data := [("duration", VStr duration)] in
  let data := if truthy_dict result then dict_update data (default [] result) else data in
  emit DIRECTIVE_COMPLETED name ("Completed directive: " +:+ name) (Some data) SUCCESS true ;;
  ret tt.

(** An exception object, as the hub reads it: [type(error).__name__] and
    [str(error)]. *)
Record PyError : Type := mkPyError {
  err_type : string;
  err_str : string
}.

Definition directive_failed (name : string) (error : PyError) : HubM unit :=
  let* start := pop_directive name in
  let* duration := in_world (_get_duration start) in
  emit DIRECTIVE_FAILED name
    ("Failed directive: " +:+ name +:+ " - " +:+ err_str error)
    (Some [("duration", VStr duration); ("error", VStr (err_str error));
           ("error_type", VStr (err_type error))])
    ERROR true ;;
  ret tt.

Definition script_started (name : string) (directive : option string) : HubM unit :=
  let* now := in_world datetime_now in
  in_hub (modify (fun h => set_active_scripts (<[name := now]> (_active_scripts h)) h)) ;;
  let data := if truthy_str directive then [("directive", VStr (default "" directive))] else [] in
  emit SCRIPT_STARTED name ("Started script: " +:+ name) (Some data) INFO true ;;
  ret tt.

(** The loop of [script_completed] over [metrics.items()]. *)
Definition record_metrics (name : string) (items : Dict) : HubM unit :=
  for_each items (fun kv =>
    when (is_int_or_float kv.2)
      (let* value := lift (to_float kv.2) in
       in_metrics (record (name +:+ "." +:+ kv.1) value))).

Definition script_completed (name : string) (metrics : option Dict) : HubM unit :=
  let* start := pop_script name in
  let* duration := in_world (_get_duration start) in
  let data := [("duration", VStr duration)] in
  let data := if truthy_dict metrics then dict_update data (default [] metrics) else data in
  when (truthy_dict metrics) (record_metrics name (default [] metrics)) ;;
  emit SCRIPT_COMPLETED name ("Completed script: " +:+ name) (Some data) SUCCESS true ;;
  ret tt.

Definition script_failed (name : string) (error : PyError) : HubM unit :=
  let* start := pop_script name in
  let* duration := in_world (_get_duration start) in
  in_metrics (increment "errors.total" 1) ;;
  in_metrics (increment ("errors." +:+ name) 1) ;;
  emit SCRIPT_FAILED name
    ("Script failed: " +:+ name +:+ " - " +:+ err_str error)
    (Some [("duration", VStr duration); ("error", VStr (err_str error))])
    ERROR true ;;
  ret tt.

Definition learning (source learning : string) (directive_updated : bool) : HubM unit :=
  emit LEARNING_CAPTURED source learning
    (Some [("directive_updated", VBool directive_updated)]) INFO true ;;
  ret tt.

Definition progress (source message : string) (percent : option float) : HubM unit :=
  let data :=
    match percent with
    | Some p => [("percent", VStr (format_pct 1 p))]
    | None => []
    end in
  emit TASK_PROGRESS source message (Some data) INFO false ;;
  ret tt.


(** *** Context managers (observability.py)

    [with observe_directive(name, context): body] under [@contextmanager]:
    the generator runs up to its [yield], the body of the [with] runs, and
    the generator is resumed, by [next] when the body returned and by
    [throw] when it raised. The [try] of the generator covers the [yield]
    and the call of [*_completed]; its handler reports the failure and
    re-raises. The hub is the one instance, [ObservabilityHub()]. *)

(** [type(e).__name__] *)
Definition exn_name (e : Exn) : string :=
  match e with
  | AttributeError _ _ => "AttributeError"
  | KeyError _ => "KeyError"
  | TypeError _ => "TypeError"
  | JSONDecodeError _ => "JSONDecodeError"
  | OverflowError _ => "OverflowError"
  end.

(** [str(e)], and [traceback.format_exc()] while [e] is being handled. *)
Variable exn_str : Exn -> string.
Variable format_exc : Exn -> string.

(** The exception object, as [directive_failed] and [script_failed] read it. *)
Definition as_error (e : Exn) : PyError := mkPyError (exn_name e) (exn_str e).

(** [try: body] [except Exception as e: handler(e)] *)
Definition try_except {S A} (body : M S A) (handler : Exn -> M S A) : M S A :=
  fun s =>
    match body s with
    | (Raise e, s') => handler e s'
    | r => r
    end.

Definition observe_directive (name : string) (context : option Dict)
    (body : HubM unit) : HubM unit :=
  directive_started name context ;;
  try_except
    (body ;; directive_completed name None)
    (fun e => directive_failed name (as_error e) ;; raise e).

Definition observe_script (name : string) (directive : option string)
    (body : HubM unit) : HubM unit :=
  script_started name directive ;;
  try_except
    (body ;; script_completed name None)
    (fun e => script_failed name (as_error e) ;; raise e).

(** ** AgentObserver (slack_notifier.py) *)

(** [s[n:]] *)
Fixpoint py_drop (n : nat) (s : string) : string :=
  match s with
  | EmptyString => EmptyString
  | String c r =>
      if is_continuation c then py_drop n r
      else match n with
           | O => s
           | S k => py_drop k r
           end
  end.

(** [s[-n:]] for [n > 0] *)
Definition py_suffix (n : nat) (s : string) : string :=
  py_drop (py_len s - n) s.

Record AgentObserver : Type := mkAgentObserver {
  script_name : string;
  ao_directive : option string;   (* self.directive *)
  notifier : SlackNotifier;
  start_time : option datetime;
  ao_metrics : Dict               (* self.metrics *)
}.

(** [AgentObserver(script_name, directive)]; [notifier] is what
    [SlackNotifier()] builds from the environment. *)
Definition AgentObserver_init (script_name : string) (directive : option string)
    (notifier : SlackNotifier) : AgentObserver :=
  mkAgentObserver script_name directive notifier None [].

Definition set_start_time (t : option datetime) (o : AgentObserver) : AgentObserver :=
  mkAgentObserver (script_name o) (ao_directive o) (notifier o) t (ao_metrics o).

Definition set_ao_metrics (m : Dict) (o : AgentObserver) : AgentObserver :=
  mkAgentObserver (script_name o) (ao_directive o) (notifier o) (start_time o) m.

(** A method of the observer runs on the observer and the world. *)
Abbreviation ObsM := (M (AgentObserver * World)).

Definition obs_world {A} (m : M World A) : ObsM A :=
  zoom snd (fun w s => (s.1, w)) m.

(** [if items: for k, v in items.items(): fields[k] = clip(str(v))] *)
Definition add_fields (clip : string -> string) (items : option Dict)
    (fields : list (string * string)) : list (string * string) :=
  if truthy_dict items
  then fold_left (fun acc kv => dict_set kv.1 (clip (py_str kv.2)) acc)
         (default [] items) fields
  else fields.

(** [if self.directive: fields["Directive"] = self.directive] *)
Definition add_directive (self : AgentObserver) (fields : list (string * string))
  : list (string * string) :=
  if truthy_str (ao_directive self)
  then dict_set "Directive" (default "" (ao_directive self)) fields
  else fields.

(** [self._get_duration()] of the observer *)
Definition AgentObserver_get_duration : ObsM string :=
  let* s := get in
  match start_time s.1 with
  | None => ret "Unknown"
  | Some t0 =>
      let* now := obs_world datetime_now in
      let seconds := total_seconds now t0 in
      if (seconds <? 60)%float then ret (format_f 2 seconds +:+ "s")
      else if (seconds <? 3600)%float then ret (format_f 1 (seconds / 60)%float +:+ "m")
      else ret (format_f 1 (seconds / 3600)%float +:+ "h")
  end.

(** [self.notifier.send(message, level=..., title=..., fields=fields)]; the
    result is dropped. *)
Definition notify_fields (message : string) (level : NotificationLevel)
    (title : string) (fields : list (string * string)) : ObsM unit :=
  let* s := get in
  obs_world (send (notifier s.1) message level (Some title) (Some fields) None) ;;
  ret tt.

Definition AgentObserver_script_started (context : option Dict) : ObsM unit :=
  let* now := obs_world datetime_now in
  modify (fun s => (set_start_time (Some now) s.1, s.2)) ;;
  let* s := get in
  let self := s.1 in
  let fields := [("Script", script_name self)] in
  let fields := add_directive self fields in
  let fields := add_fields (py_prefix 100) context fields in
  notify_fields ("Started execution of `" +:+ script_name self +:+ "`")
    INFO "🚀 Script Started" fields.

Definition AgentObserver_script_completed (result metrics : option Dict) : ObsM unit :=
  let* duration := AgentObserver_get_duration in
  let* s := get in
  let self := s.1 in
  let fields := [("Script", script_name self); ("Duration", duration)] in
  when (truthy_dict metrics)
    (modify (fun s => (set_ao_metrics
                         (dict_update (ao_metrics s.1) (default [] metrics)) s.1,
                       s.2))) ;;
  let fields := add_fields id metrics fields in
  let fields := add_fields (py_prefix 100) result fields in
  notify_fields ("Successfully completed `" +:+ script_name self +:+ "`")
    SUCCESS "✅ Script Completed" fields.

(** [stack] is what [traceback.format_exc()] returns at the call. *)
Definition AgentObserver_script_failed (error : PyError) (stack : string)
    (context : option Dict) : ObsM unit :=
  let* duration := AgentObserver_get_duration in
  let* s := get in
  let self := s.1 in
  let fields := [("Script", script_name self); ("Duration", duration);
                 ("Error Type", err_type error);
                 ("Error", py_prefix 200 (err_str error))] in
  let fields := add_directive self fields in
  let fields := add_fields (py_prefix 100) context fields in
  let message := "Failed execution of `" +:+ script_name self +:+ "`"
                 +:+ String LF ("```" +:+ py_suffix 500 stack +:+ "```") in
  notify_fields message ERROR "❌ Script Failed" fields.

Definition log_progress (message : string) (progress : option float)
    (details : option Dict) : ObsM unit :=
  let* s := get in
  let self := s.1 in
  let fields := [("Script", script_name self)] in
  let fields :=
    match progress with
    | Some p => dict_set "Progress" (format_pct 1 p) fields
    | None => fields
    end in
  let fields := add_fields (py_prefix 100) details fields in
  notify_fields message INFO "📊 Progress Update" fields.

Definition log_warning (message : string) (details : option Dict) : ObsM unit :=
  let* s := get in
  let self := s.1 in
  let fields := [("Script", script_name self)] in
  let fields := add_fields (py_prefix 100) details fields in
  notify_fields message WARNING "⚠️ Warning" fields.

Definition log_learning (learning : string) (directive_updated : bool) : ObsM unit :=
  let* s := get in
  let self := s.1 in
  let fields := [("Script", script_name self);
                 ("Directive Updated", if directive_updated then "Yes" else "No")] in
  let fields := add_directive self fields in
  notify_fields learning INFO "🧠 Learning Captured" fields.

(** The wrapper that [@observe(script_name, directive)] puts around [func]:
    [args] and [kwargs] are [str(args)] and [str(kwargs)], [type_name] gives
    [type(result).__name__]; the observer is local to the call. *)
Definition observe {A} (script_name : string) (directive : option string)
    (notifier : SlackNotifier) (type_name : A -> string) (args kwargs : string)
    (func : M World A) : M World A :=
  fun w =>
    let run : ObsM A :=
      AgentObserver_script_started
        (Some [("args", VStr (py_prefix 100 args));
               ("kwargs", VStr (py_prefix 100 kwargs))]) ;;
      try_except
        (let* result := obs_world func in
         AgentObserver_script_completed
           (Some [("return_type", VStr (type_name result))]) None ;;
         ret result)
        (fun e =>
           AgentObserver_script_failed (as_error e) (format_exc e) None ;;
           raise e) in
    let '(r, s) := run (AgentObserver_init script_name directive notifier, w) in
    (r, s.2).

(** * The vocabulary of the statements

    Definitions that the theorems below are stated with: they say what a
    run of the code above leaves behind. *)

(** The sum of a series as floating-point arithmetic gives it: the sum of
    the values before the last one, plus the last one, rounded. *)
Definition float_sum (vs : list float) : float :=
  foldr (fun v acc => (acc + v)%float) 0%float (rev vs).

(** The number that a double stands for, when it is one. *)
Definition exact_value (x : float) : option Q :=
  match Prim2SF x with
  | S754_zero _ => Some 0%Q
  | S754_finite s m e =>
      Some ((if s then -1 else 1) * inject_Z (Z.pos m) * Qpower 2 e)%Q
  | _ => None
  end.

(** The arithmetic sum of a series, as the specification writes it. *)
Definition Qsum (vs : list Q) : Q := foldr Qplus 0%Q vs.

(** [math.isnan] holds of no value of the series. *)
Definition numbers (vs : list float) : Prop :=
  ∀ v, v ∈ vs → PrimFloat.is_nan v = false.

(** The event that [emit] constructs in world [w]. *)
Definition emitted_event (event_type : EventType) (source message : string)
    (data : option Dict) (level : NotificationLevel) (w : World) : Event :=
  mkEvent event_type source message (default [] data) level
    (w_now w (w_tick w))
    (EventType_value event_type +:+ "_" +:+ pretty (w_time_ms w (S (w_tick w)))).

(** The world once the event is constructed and the console and file sinks
    have run. *)
Definition after_sinks (h : Hub) (event : Event) (w : World) : World :=
  let w1 := set_events (w_events w ++ [event]) (set_tick (S (S (w_tick w))) w) in
  let w2 := if console_enabled h then (_log_to_console event w1).2 else w1 in
  if file_enabled h then (log (logger h) event w2).2 else w2.

(** The lines that the subscriber loop prints: one per subscriber that
    raises, in order. *)
Definition subscriber_errors (event : Event) (subs : list Subscriber) : list string :=
  omap (fun cb => (fun e => "[OBSERVABILITY] Subscriber error: " +:+ e) <$> sub_call cb event)
    subs.

(** The world once every subscriber of [subs] has been called, in order. *)
Definition after_subscribers (event : Event) (subs : list Subscriber) (w : World) : World :=
  set_callbacks (w_callbacks w ++ map (fun cb => (sub_id cb, event)) subs)
    (set_console (w_console w ++ subscriber_errors event subs) w).

(** The text that [_get_duration] returns for a span of [seconds]. *)
Definition duration_text (seconds : float) : string :=
  if (seconds <? 60)%float then format_f 2 seconds +:+ "s"
  else if (seconds <? 3600)%float then format_f 1 (seconds / 60)%float +:+ "m"
  else format_f 1 (seconds / 3600)%float +:+ "h".

(** The world after [_get_duration]: the clock was read when there was a
    start time. *)
Definition after_duration (start : option datetime) (w : World) : World :=
  match start with
  | None => w
  | Some _ => set_tick (S (w_tick w)) w
  end.

(** The text that [_get_duration] returns in world [w]. *)
Definition duration_of (start : option datetime) (w : World) : string :=
  match start with
  | None => "unknown"
  | Some t0 => duration_text (total_seconds (w_now w (w_tick w)) t0)
  end.

(** [float(v)] returns: [v] is no [int] beyond the range of the doubles. *)
Definition converts (v : Value) : bool :=
  match to_float v with
  | Ok _ => true
  | _ => false
  end.

(** The items that the loop of [script_completed] gets through: those
    before the first numeric item that [float] rejects. *)
Fixpoint reached (items : Dict) : Dict :=
  match items with
  | [] => []
  | kv :: rest =>
      if is_int_or_float kv.2 && negb (converts kv.2) then []
      else kv :: reached rest
  end.

(** The loop gets through every item. *)
Definition all_convert (items : Dict) : bool :=
  forallb (fun kv => negb (is_int_or_float kv.2) || converts kv.2) items.

(** The values that the loop of [script_completed] records under
    ["{name}.{k}"]: the numeric items of key [k] that it reaches, in
    order. *)
Definition recorded_for (k : string) (items : Dict) : list float :=
  omap (fun kv => if String.eqb kv.1 k && is_int_or_float kv.2
                  then match to_float kv.2 with Ok x => Some x | _ => None end
                  else None) (reached items).

(** No line terminator occurs in [s]. *)
Fixpoint no_newline (s : string) : bool :=
  match s with
  | EmptyString => true
  | String c r => negb (Ascii.eqb c LF) && negb (Ascii.eqb c CR) && no_newline r
  end.

(** What [log] has appended to the day's file after the events [evs]. *)
Definition log_text (evs : list Event) : string :=
  foldr (fun e acc => json_dumps (to_dict e) +:+ String LF acc) "" evs.

(** The sum of a list of amounts. *)
Definition Zsum (amounts : list Z) : Z := foldr Z.add 0%Z amounts.

(** Whether [get_events] keeps the record of [e] under the filters [et]
    and [src]: a filter that is [None], and a source filter that is the
    empty string, keep everything. *)
Definition keeps (et : option EventType) (src : option string) (e : Event) : bool :=
  match et with
  | Some t => bool_decide (event_type e = t)
  | None => true
  end
  && (if truthy_str src then String.eqb (source e) (default "" src) else true).

(** The text that the observer's [_get_duration] returns in world [w]. *)
Definition observer_duration (o : AgentObserver) (w : World) : string :=
  match start_time o with
  | None => "Unknown"
  | Some t0 => duration_text (total_seconds (w_now w (w_tick w)) t0)
  end.

(** The fields of the latest call of [send]. *)
Definition sent_fields (w : World) : list (string * string) :=
  default [] (last (w_sends w) ≫= sc_fields).

(** ** Sample data

    Concrete inputs on which the theorems are run. *)

(** The hub that [ObservabilityHub()] builds when the environment sets none
    of the variables it reads: every sink enabled, no webhook URL. *)
Definition default_hub : Hub :=
  mkHub (mkSlackNotifier None None true "Agent Workflow" ":robot_face:")
    (mkEventLogger ".tmp/logs") MetricsCollector_new []
    true true true ∅ ∅.

Definition sample_time (us : Z) : datetime :=
  mkDatetime us "2026-01-15" "12:00:00" "2026-01-15T12:00:00".

(** A world at its beginning: the clock advances by a millisecond at each
    reading, nothing was printed, written or sent, and the webhook answers
    200. *)
Definition sample_world : World :=
  mkWorld 0 (fun n => sample_time (Z.of_nat n * 1000))
    (fun n => 1768478400000 + Z.of_nat n)%Z
    [] ∅ (fun _ => Response 200) [] [] [] [].

(** The same world with another clock: its first four readings fall at
    time 0 (what one [directive_started] on the default hub takes), the
    later ones 45 seconds after. *)
Definition sample_world_45 : World :=
  mkWorld 0 (fun n => sample_time (if (n <? 4)%nat then 0 else 45000000))
    (fun n => 1768478400000 + Z.of_nat n)%Z
    [] ∅ (fun _ => Response 200) [] [] [] [].

Definition sample_events : list Event :=
  [mkEvent SCRIPT_STARTED "etl" "Started script: etl" [] INFO
     (sample_time 0) "script_started_1768478400000";
   mkEvent TASK_PROGRESS "etl" "halfway" [("percent", VStr "50.0%")] INFO
     (sample_time 1000) "task_progress_1768478400001";
   mkEvent SCRIPT_STARTED "load" "Started script: load" [] INFO
     (sample_time 2000) "script_started_1768478400002"].

(** The doubles nearest to 0.1 and to 0.2. *)
Definition tenth : float := 0x1.999999999999ap-4%float.
Definition fifth : float := 0x1.999999999999ap-3%float.

(** Stand-ins for the built-ins, enough to run the samples: the text of an
    object, and a codec that writes a record as its id and reads the ids of
    the sample events back. *)
Definition sample_repr (v : Value) : string := "<object>".

Definition sample_dumps (v : Value) : string :=
  match v with
  | VDict (("id", VStr i) :: _) => i
  | _ => "null"
  end.

Definition sample_loads (line : string) : option Value :=
  to_dict <$>
    head (filter (fun e => event_id e +:+ String LF "" = line) sample_events).

(** The hub built when the environment sets SLACK_ENABLED to false. *)
Definition quiet_hub : Hub :=
  mkHub (mkSlackNotifier None None false "Agent Workflow" ":robot_face:")
    (mkEventLogger ".tmp/logs") MetricsCollector_new []
    true true false ∅ ∅.

(** A notifier with a webhook and a channel. *)
Definition sample_notifier : SlackNotifier :=
  mkSlackNotifier (Some "https://hooks.example/T000") (Some "#ops") true
    "Agent Workflow" ":robot_face:".

(** An observer of the script "etl" of the directive "nightly", not yet
    started. *)
Definition sample_observer : AgentObserver :=
  AgentObserver_init "etl" (Some "nightly") sample_notifier.

(** Stand-ins for the text and the traceback of an exception. *)
Definition sample_exn_str (e : Exn) : string :=
  match e with
  | AttributeError cls attr => cls +:+ " has no attribute " +:+ attr
  | KeyError key => key
  | TypeError msg => msg
  | JSONDecodeError doc => "Expecting value"
  | OverflowError msg => msg
  end.

Definition sample_format_exc (e : Exn) : string :=
  "Traceback (most recent call last):" +:+ String LF (exn_name e +:+ ": " +:+ sample_exn_str e).

(** A decoder that reads any line as a record with one key, "note". *)
Definition sample_loads_note (line : string) : option Value :=
  Some (VDict [("note", VStr line)]).

(** ** Proof steps *)

(** One step of a method body: the first [bind] runs the computation that
    lemma [run] describes. *)
Ltac hub_step run := unfold bind at 1; rewrite run.

(** Membership in a list that is written out. *)
Ltac in_list := repeat (apply elem_of_cons; first [by left | right]).

(** The cases of a comparison of two doubles: signs, exponents, mantissas. *)
Ltac sf_cases :=
  repeat match goal with
  | |- context [Z.compare ?x ?y] => destruct (Z.compare_spec x y)
  | |- context [Pos.compare_cont Eq ?x ?y] =>
      change (Pos.compare_cont Eq x y) with (Pos.compare x y);
      destruct (Pos.compare_spec x y)
  | |- context [if ?b then _ else _] => is_var b; destruct b
  end;
  simpl; intros; subst; try discriminate; try reflexivity; try lia.

(** * Properties *)

(** ** MetricsCollector *)

(** *** The order of the doubles

    [<] and [<=] on doubles that are not NaN form a total preorder: the
    comparison orders sign, exponent and mantissa. *)

Lemma SF_lt_le_trans a b c :
  SFltb a b = true → SFleb b c = true → SFleb a c = true.
Proof.
  unfold SFltb, SFleb.
  destruct a as [sa|sa| |sa ma ea], b as [sb|sb| |sb mb eb], c as [sc|sc| |sc mc ec];
    simpl; try discriminate; try reflexivity; sf_cases.
Qed.

Lemma SF_le_trans a b c :
  SFleb a b = true → SFleb b c = true → SFleb a c = true.
Proof.
  unfold SFleb.
  destruct a as [sa|sa| |sa ma ea], b as [sb|sb| |sb mb eb], c as [sc|sc| |sc mc ec];
    simpl; try discriminate; try reflexivity; sf_cases.
Qed.

Lemma SF_not_lt_le a b :
  a ≠ S754_nan → b ≠ S754_nan → SFltb a b = false → SFleb b a = true.
Proof.
  unfold SFltb, SFleb.
  destruct a as [sa|sa| |sa ma ea], b as [sb|sb| |sb mb eb];
    simpl; try congruence; sf_cases.
Qed.

Lemma SF_le_refl a : a ≠ S754_nan → SFleb a a = true.
Proof.
  unfold SFleb. destruct a as [sa|sa| |sa ma ea]; simpl; try congruence; sf_cases.
Qed.

Lemma not_nan x : PrimFloat.is_nan x = false → Prim2SF x ≠ S754_nan.
Proof.
  unfold PrimFloat.is_nan. rewrite eqb_spec. intros H E. rewrite E in H. discriminate H.
Qed.

Lemma float_le_refl x : PrimFloat.is_nan x = false → (x <=? x)%float = true.
Proof. intros H. rewrite leb_spec. by apply SF_le_refl, not_nan. Qed.

Lemma float_lt_le x y z :
  (x <? y)%float = true → (y <=? z)%float = true → (x <=? z)%float = true.
Proof. rewrite ltb_spec, !leb_spec. apply SF_lt_le_trans. Qed.

Lemma float_le_trans x y z :
  (x <=? y)%float = true → (y <=? z)%float = true → (x <=? z)%float = true.
Proof. rewrite !leb_spec. apply SF_le_trans. Qed.

Lemma float_not_lt_le x y :
  PrimFloat.is_nan x = false → PrimFloat.is_nan y = false →
  (x <? y)%float = false → (y <=? x)%float = true.
Proof.
  intros Hx Hy. rewrite ltb_spec, leb_spec. by apply SF_not_lt_le; apply not_nan.
Qed.

(** *** sum, min and max *)

Lemma py_sum_float_sum (vs : list float) : py_sum vs = float_sum vs.
Proof. unfold py_sum, float_sum. symmetry. apply fold_left_rev_right. Qed.

(** One more value at the end of the series is one more addition. *)
Lemma float_sum_snoc (vs : list float) (v : float) :
  float_sum (vs ++ [v]) = (float_sum vs + v)%float.
Proof. unfold float_sum. by rewrite rev_app_distr. Qed.

Lemma py_min_scan (vs : list float) (best : float) :
  let m := py_min best vs in
  (m = best ∨ m ∈ vs)
  ∧ (PrimFloat.is_nan best = false → numbers vs →
     (m <=? best)%float = true ∧ ∀ x, x ∈ vs → (m <=? x)%float = true).
Proof.
  revert best. induction vs as [|v vs IH]; intros best; simpl.
  - split; [by left|]. intros Hb _. split; [by apply float_le_refl|].
    intros x Hx. by apply elem_of_nil in Hx.
  - unfold py_min in *. simpl.
    set (best' := if (v <? best)%float then v else best).
    destruct (IH best') as (Hin & Hord).
    split.
    { rewrite elem_of_cons. destruct Hin as [->|Hin]; [|by right; right].
      subst best'. destruct (v <? best)%float; [by right; left|by left]. }
    intros Hb Hnum.
    assert (Hv : PrimFloat.is_nan v = false) by (apply Hnum, elem_of_cons; by left).
    assert (Hb' : PrimFloat.is_nan best' = false ∧ (best' <=? best)%float = true
                  ∧ (best' <=? v)%float = true).
    { subst best'. destruct (v <? best)%float eqn:E.
      - split; [done|]. split; [|by apply float_le_refl].
        eapply float_lt_le; [exact E|by apply float_le_refl].
      - split; [done|]. split; [by apply float_le_refl|by apply float_not_lt_le]. }
    destruct Hb' as (Hn' & Hle1 & Hle2).
    destruct Hord as (Hm & Hall); [done| |].
    { intros x Hx. apply Hnum, elem_of_cons. by right. }
    split; [by eapply float_le_trans|].
    intros x [->|Hx]%elem_of_cons; [by eapply float_le_trans|by apply Hall].
Qed.

Lemma py_max_scan (vs : list float) (best : float) :
  let m := py_max best vs in
  (m = best ∨ m ∈ vs)
  ∧ (PrimFloat.is_nan best = false → numbers vs →
     (best <=? m)%float = true ∧ ∀ x, x ∈ vs → (x <=? m)%float = true).
Proof.
  revert best. induction vs as [|v vs IH]; intros best; simpl.
  - split; [by left|]. intros Hb _. split; [by apply float_le_refl|].
    intros x Hx. by apply elem_of_nil in Hx.
  - unfold py_max in *. simpl.
    set (best' := if (best <? v)%float then v else best).
    destruct (IH best') as (Hin & Hord).
    split.
    { rewrite elem_of_cons. destruct Hin as [->|Hin]; [|by right; right].
      subst best'. destruct (best <? v)%float; [by right; left|by left]. }
    intros Hb Hnum.
    assert (Hv : PrimFloat.is_nan v = false) by (apply Hnum, elem_of_cons; by left).
    assert (Hb' : PrimFloat.is_nan best' = false ∧ (best <=? best')%float = true
                  ∧ (v <=? best')%float = true).
    { subst best'. destruct (best <? v)%float eqn:E.
      - split; [done|]. split; [|by apply float_le_refl].
        eapply float_lt_le; [exact E|by apply float_le_refl].
      - split; [done|]. split; [by apply float_le_refl|by apply float_not_lt_le]. }
    destruct Hb' as (Hn' & Hle1 & Hle2).
    destruct Hord as (Hm & Hall); [done| |].
    { intros x Hx. apply Hnum, elem_of_cons. by right. }
    split; [by eapply float_le_trans|].
    intros x [->|Hx]%elem_of_cons; [by eapply float_le_trans|by apply Hall].
Qed.

(** With the lock free, [record] appends to the series and frees the lock. *)
Lemma record_run name v c :
  _lock c = false →
  record name v c =
    (Ok tt, set_metrics (<[name := default [] (_metrics c !! name) ++ [v]]> (_metrics c)) c).
Proof.
  intros Hl. unfold record, with_lock, modify. rewrite Hl. simpl.
  destruct c as [m k l]; simpl in *; subst l. unfold set_lock, set_metrics; simpl.
  f_equal. f_equal.
  destruct (m !! name) as [l|] eqn:E; simpl.
  - apply map_eq; intros i. destruct (decide (name = i)) as [->|Hne].
    + rewrite lookup_alter_eq, lookup_insert_eq, E. done.
    + rewrite lookup_alter_ne, lookup_insert_ne by done. done.
  - apply map_eq; intros i. destruct (decide (name = i)) as [->|Hne].
    + rewrite lookup_alter_eq, !lookup_insert_eq. done.
    + rewrite lookup_alter_ne, !lookup_insert_ne by done. done.
Qed.

Lemma record_each_run name vs : ∀ c,
  _lock c = false →
  ∃ c', for_each vs (record name) c = (Ok tt, c')
    ∧ _lock c' = false
    ∧ _counters c' = _counters c
    ∧ default [] (_metrics c' !! name) = default [] (_metrics c !! name) ++ vs
    ∧ ∀ other, other ≠ name → _metrics c' !! other = _metrics c !! other.
Proof.
  induction vs as [|v vs IH]; intros c Hl; simpl.
  - exists c. rewrite app_nil_r. done.
  - unfold bind. rewrite record_run by done.
    set (c1 := set_metrics _ c).
    destruct (IH c1) as (c' & Hrun & Hl' & Hk & Hm & Hother); [done|].
    exists c'. rewrite Hrun. split; [done|]. split; [done|]. split; [done|].
    split.
    + rewrite Hm. subst c1. simpl. rewrite lookup_insert_eq. simpl.
      by rewrite <- app_assoc.
    + intros other Hne. rewrite Hother by done. subst c1. simpl.
      by rewrite lookup_insert_ne.
Qed.

Lemma get_summary_run name c :
  _lock c = false →
  get_summary name c =
    (Ok match default [] (_metrics c !! name) with
        | [] => None
        | v :: vs =>
            Some (mkSummary (length (v :: vs)) (py_sum (v :: vs))
                    (py_sum (v :: vs) / float_of_len (length (v :: vs)))%float
                    (py_min v vs) (py_max v vs))
        end, c).
Proof.
  intros Hl. unfold get_summary, with_lock. rewrite Hl.
  unfold bind, get, ret. simpl.
  destruct c as [m k l]; simpl in *; subst l.
  destruct (default [] (m !! name)); reflexivity.
Qed.

(** C5, as the code has it. After [record(name, v1)], ..., [record(name, vN)]
    (N ≥ 1) on a fresh collector, [get_summary(name)] returns a summary
    whose count is N, whose sum is the floating-point sum of the values,
    added from the left and rounded at each addition, whose average is that
    sum divided by N, in floating point, and whose minimum and maximum are
    recorded values; when no value is NaN they are the least and the
    greatest of the recorded values. *)
Theorem get_summary_after_records (name : string) (vs : list float) :
  vs ≠ [] →
  ∃ s c,
    (for_each vs (record name) ;; get_summary name) MetricsCollector_new
      = (Ok (Some s), c)
    ∧ s_count s = length vs
    ∧ s_sum s = float_sum vs
    ∧ s_avg s = (float_sum vs / float_of_len (length vs))%float
    ∧ s_min s ∈ vs
    ∧ s_max s ∈ vs
    ∧ (numbers vs →
       ∀ v, v ∈ vs → (s_min s <=? v)%float = true ∧ (v <=? s_max s)%float = true).
Proof.
  intros Hne.
  destruct (record_each_run name vs MetricsCollector_new eq_refl)
    as (c & Hrun & Hl & _ & Hm & _).
  unfold bind. rewrite Hrun, get_summary_run by done.
  rewrite Hm. simpl. rewrite lookup_empty. simpl.
  destruct vs as [|v vs]; [done|].
  eexists _, c. split; [reflexivity|]. simpl.
  split; [done|]. split; [apply (py_sum_float_sum (v :: vs))|].
  split; [by rewrite (py_sum_float_sum (v :: vs))|].
  destruct (py_min_scan vs v) as (Hin & Hord).
  destruct (py_max_scan vs v) as (Hin' & Hord').
  split; [rewrite elem_of_cons; destruct Hin as [->|?]; auto|].
  split; [rewrite elem_of_cons; destruct Hin' as [->|?]; auto|].
  intros Hnum.
  assert (Hv : PrimFloat.is_nan v = false) by (apply Hnum, elem_of_cons; by left).
  assert (Hvs : numbers vs).
  { intros x Hx. apply Hnum, elem_of_cons. by right. }
  destruct (Hord Hv Hvs) as (Hle & Hall).
  destruct (Hord' Hv Hvs) as (Hle' & Hall').
  intros x [->|Hx]%elem_of_cons; auto.
Qed.

(** With no metric recorded, [get_all] returns the counters. *)
Lemma get_all_without_metrics c :
  _lock c = false →
  _metrics c = ∅ →
  get_all c = (Ok (mkSnapshot ∅ (_counters c)), c).
Proof.
  intros Hl Hm. unfold get_all, with_lock. rewrite Hl.
  unfold bind, get, ret, keys. simpl. rewrite Hm, map_to_list_empty. simpl.
  destruct c as [m k l]; simpl in *; subst. reflexivity.
Qed.

(** C1, as the code runs: with one metric or more recorded, [get_all] takes
    the lock and then calls [get_summary], which waits for the same lock:
    the call never returns. *)
Theorem get_all_blocks c :
  _lock c = false →
  _metrics c ≠ ∅ →
  (get_all c).1 = Hang.
Proof.
  intros Hl Hm. unfold get_all, with_lock. rewrite Hl.
  destruct (keys (_metrics c)) as [|k ks] eqn:Ek.
  { unfold keys in Ek. apply fmap_nil_inv in Ek.
    by apply map_to_list_empty_iff in Ek. }
  unfold bind, get. simpl. rewrite Ek. simpl. reflexivity.
Qed.

(** ** SlackNotifier *)

Lemma not_configured self :
  webhook_url self = None ∨ webhook_url self = Some "" ∨ enabled self = false →
  _is_configured self = false.
Proof.
  unfold _is_configured. intros [H|[H|H]]; rewrite H; simpl; [done|done|].
  apply andb_false_r.
Qed.

(** A call of [send] that finds the notifier not configured prints its
    diagnostic and returns [False]; the network is not touched. *)
Lemma send_not_configured self message level title fields context w :
  _is_configured self = false →
  send self message level title fields context w =
    (Ok false,
     set_console (w_console w ++ ["[SLACK] Not configured - would send: " +:+ message])
       (set_sends (w_sends w ++ [mkSendCall message level title fields context]) w)).
Proof. intros H. unfold send. rewrite H. reflexivity. Qed.

(** A configured call makes exactly one request. *)
Lemma send_configured self message level title fields context w :
  _is_configured self = true →
  ∃ req,
    w_requests (send self message level title fields context w).2
      = w_requests w ++ [req]
    ∧ req_url req = default "" (webhook_url self)
    ∧ req_timeout req = 10%Z.
Proof.
  intros H. unfold send. rewrite H. simpl.
  unfold bind, modify, _build_payload, _send_payload, bind, datetime_now, urlopen, ret.
  simpl.
  match goal with |- context [w_urlopen w ?n] => destruct (w_urlopen w n) end;
    simpl; eexists; (split; [reflexivity|split; reflexivity]).
Qed.

(** C3. A call of [send] with no webhook endpoint configured, or with the
    notifier disabled, makes no network request, prints one console
    diagnostic and returns false; and every call of [send] makes at most one
    request. *)
Theorem send_unconfigured_or_once self message level title fields context w :
  let r := send self message level title fields context w in
  (webhook_url self = None ∨ webhook_url self = Some "" ∨ enabled self = false →
     r.1 = Ok false
     ∧ w_requests r.2 = w_requests w
     ∧ w_console r.2 =
         w_console w ++ ["[SLACK] Not configured - would send: " +:+ message])
  ∧ ∃ reqs, w_requests r.2 = w_requests w ++ reqs ∧ length reqs ≤ 1.
Proof.
  simpl. split.
  - intros H. apply not_configured in H. rewrite send_not_configured by done. done.
  - destruct (_is_configured self) eqn:E.
    + destruct (send_configured self message level title fields context w E)
        as (req & Hreq & _).
      exists [req]. split; [done|simpl; lia].
    + rewrite send_not_configured by done. exists []. simpl.
      split; [by rewrite app_nil_r|lia].
Qed.

(** ** ObservabilityHub.emit *)

Lemma subscribers_loop_run event subs : ∀ w,
  for_each subs (notify_subscriber event) w = (Ok tt, after_subscribers event subs w).
Proof.
  induction subs as [|cb subs IH]; intros w.
  - simpl. unfold ret, after_subscribers, subscriber_errors. simpl.
    rewrite !app_nil_r. by destruct w.
  - simpl. unfold bind at 1. unfold notify_subscriber at 1.
    unfold bind at 1. unfold modify at 1.
    unfold after_subscribers, subscriber_errors. simpl.
    destruct (sub_call cb event) as [e|]; simpl; rewrite IH;
      unfold after_subscribers, subscriber_errors; simpl;
      destruct w; simpl; rewrite <- ?app_assoc; simpl; try rewrite app_nil_r; reflexivity.
Qed.

Lemma emit_run event_type source message data level notify_slack h w :
  let event := emitted_event event_type source message data level w in
  emit event_type source message data level notify_slack (h, w) =
    if notify_slack && slack_enabled h
    then (Raise (AttributeError "Event" "type"), (h, after_sinks h event w))
    else (Ok event, (h, after_subscribers event (subscribers h) (after_sinks h event w))).
Proof.
  simpl. unfold emit, after_sinks.
  unfold bind at 1. unfold in_world at 1, zoom at 1. simpl.
  unfold Event_init, bind, datetime_now, time_ms, modify, ret, get, when, in_world, zoom.
  simpl.
  destruct (console_enabled h), (file_enabled h), (notify_slack && slack_enabled h);
    simpl; unfold bind, ret, raise; simpl;
    rewrite ?subscribers_loop_run; reflexivity.
Qed.

(** The console and file sinks leave the network and the histories of
    [send] and of the subscribers alone, and add the event to the history. *)
Lemma after_sinks_frame h event w :
  w_sends (after_sinks h event w) = w_sends w
  ∧ w_requests (after_sinks h event w) = w_requests w
  ∧ w_callbacks (after_sinks h event w) = w_callbacks w
  ∧ w_events (after_sinks h event w) = w_events w ++ [event].
Proof.
  unfold after_sinks. destruct (console_enabled h), (file_enabled h); done.
Qed.

Lemma after_subscribers_frame event subs w :
  w_sends (after_subscribers event subs w) = w_sends w
  ∧ w_requests (after_subscribers event subs w) = w_requests w
  ∧ w_files (after_subscribers event subs w) = w_files w
  ∧ w_events (after_subscribers event subs w) = w_events w.
Proof. done. Qed.

Lemma after_no_subscribers event w : after_subscribers event [] w = w.
Proof.
  unfold after_subscribers, subscriber_errors. simpl. rewrite !app_nil_r.
  by destruct w.
Qed.

(** [_notify_slack] reads [event.type]; an [Event] has no such attribute. *)
Lemma _notify_slack_raises event s :
  _notify_slack event s = (Raise (AttributeError "Event" "type"), s).
Proof. reflexivity. Qed.

(** C2, as the code runs: with [notify_slack] true and the slack sink
    enabled, [emit] raises [AttributeError] while it evaluates the title of
    the message; [SlackNotifier.send] is not called and no request leaves. *)
Theorem emit_to_slack_raises event_type source message data level h w :
  slack_enabled h = true →
  let r := emit event_type source message data level true (h, w) in
  r.1 = Raise (AttributeError "Event" "type")
  ∧ w_sends r.2.2 = w_sends w
  ∧ w_requests r.2.2 = w_requests w.
Proof.
  intros Hs. simpl. rewrite emit_run, Hs. simpl.
  destruct (after_sinks_frame h
    (emitted_event event_type source message data level w) w) as (? & ? & _).
  done.
Qed.

(** C4. [emit] with [notify_slack] false never calls [SlackNotifier.send]
    and makes no request, whatever the console, file and slack flags of the
    hub; so does [progress], which always passes [notify_slack=False]. *)
Theorem emit_without_notify_never_sends h w :
  (∀ event_type source message data level,
     let r := emit event_type source message data level false (h, w) in
     w_sends r.2.2 = w_sends w ∧ w_requests r.2.2 = w_requests w)
  ∧ (∀ source message percent,
     let r := progress source message percent (h, w) in
     w_sends r.2.2 = w_sends w ∧ w_requests r.2.2 = w_requests w).
Proof.
  assert (He : ∀ event_type source message data level,
     let r := emit event_type source message data level false (h, w) in
     w_sends r.2.2 = w_sends w ∧ w_requests r.2.2 = w_requests w).
  { intros et src msg dat lvl r. subst r. rewrite emit_run. simpl.
    destruct (after_sinks_frame h (emitted_event et src msg dat lvl w) w)
      as (? & ? & _).
    done. }
  split; [exact He|].
  intros source message percent. simpl. unfold progress, bind.
  specialize (He TASK_PROGRESS source message
    (Some match percent with
          | Some p => [("percent", VStr (format_pct 1 p))]
          | None => []
          end) INFO).
  simpl in He.
  destruct (emit _ _ _ _ _ false (h, w)) as [[ev|e|] s']; exact He.
Qed.

(** Spelled out for an [emit] whose slack step is skipped: it returns the
    event, every subscriber has been called with it, in order, and the
    console holds one more line per subscriber that raised. *)
Lemma emit_calls_every_subscriber event_type source message data level notify_slack h w :
  notify_slack && slack_enabled h = false →
  let event := emitted_event event_type source message data level w in
  let r := emit event_type source message data level notify_slack (h, w) in
  r.1 = Ok event
  ∧ w_callbacks r.2.2 = w_callbacks w ++ map (fun cb => (sub_id cb, event)) (subscribers h)
  ∧ w_console r.2.2 =
      w_console (after_sinks h event w) ++ subscriber_errors event (subscribers h).
Proof.
  intros Hb. simpl. rewrite emit_run, Hb. simpl.
  destruct (after_sinks_frame h
    (emitted_event event_type source message data level w) w) as (_ & _ & -> & _).
  done.
Qed.

(** C9, as the code runs. When [emit] skips the slack step ([notify_slack]
    false, or the slack sink disabled) the claim holds: the console and
    file sinks have run, every subscriber is called with the event once, in
    order, those that come after one that raised included; a subscriber
    that raises is caught and costs one console line with its text; and
    [emit] returns the event. When [emit] takes the slack step (the
    default) it raises there, at [event.type], before the loop over the
    subscribers: no subscriber is called, nothing is caught or logged,
    [send] is not called and no event is returned. *)
Theorem emit_subscribers_caught_or_not_reached
    event_type source message data level notify_slack h w :
  let event := emitted_event event_type source message data level w in
  let r := emit event_type source message data level notify_slack (h, w) in
  (notify_slack && slack_enabled h = false →
     r.1 = Ok event
     ∧ w_callbacks r.2.2
       = w_callbacks w ++ map (fun cb => (sub_id cb, event)) (subscribers h)
     ∧ w_console r.2.2
       = w_console (after_sinks h event w) ++ subscriber_errors event (subscribers h)
     ∧ (∀ before cb after text,
          subscribers h = before ++ cb :: after →
          sub_call cb event = Some text →
          "[OBSERVABILITY] Subscriber error: " +:+ text ∈ w_console r.2.2
          ∧ ∀ cb', cb' ∈ after → (sub_id cb', event) ∈ w_callbacks r.2.2)
     ∧ w_events r.2.2 = w_events w ++ [event]
     ∧ w_files r.2.2 = w_files (after_sinks h event w))
  ∧ (notify_slack && slack_enabled h = true →
     r.1 = Raise (AttributeError "Event" "type")
     ∧ w_callbacks r.2.2 = w_callbacks w
     ∧ w_sends r.2.2 = w_sends w
     ∧ w_console r.2.2 = w_console (after_sinks h event w)).
Proof.
  cbv zeta. rewrite emit_run. cbv zeta.
  set (event := emitted_event event_type source message data level w).
  destruct (after_sinks_frame h event w) as (Hsends & _ & Hcb & Hev).
  split; intros Hb; rewrite Hb; cbn [fst snd].
  - split; [done|]. unfold after_subscribers. simpl. rewrite Hcb, Hev.
    split; [done|]. split; [done|]. split; [|done].
    intros before cb after text Hsubs Hcall. rewrite Hsubs. split.
    + apply elem_of_app. right. apply list_elem_of_omap.
      exists cb. split; [apply elem_of_app; right; apply elem_of_cons; by left|].
      by rewrite Hcall.
    + intros cb' Hin. apply elem_of_app. right. apply list_elem_of_fmap.
      exists cb'. split; [done|].
      apply elem_of_app. right. apply elem_of_cons. by right.
  - by rewrite Hcb, Hsends.
Qed.

(** ** Durations *)

Lemma SFcompare_swap (a b : spec_float) :
  SFcompare b a = CompOpp <$> SFcompare a b.
Proof.
  destruct a as [sa|sa| |sa ma ea], b as [sb|sb| |sb mb eb]; simpl;
    try reflexivity; try (by destruct sa); try (by destruct sb);
    try (by destruct sa, sb).
  rewrite (Z.compare_antisym ea eb).
  pose proof (Pos.compare_cont_antisym ma mb Eq) as Hm. simpl in Hm.
  destruct sa, sb; simpl; try reflexivity;
    destruct (ea ?= eb)%Z; simpl; try reflexivity.
  all: rewrite <- Hm; by rewrite ?CompOpp_involutive.
Qed.

(** On doubles, [x <= y] excludes [y < x]. *)
Lemma leb_not_ltb (x y : float) :
  (x <=? y)%float = true → (y <? x)%float = false.
Proof.
  rewrite leb_spec, ltb_spec. unfold SFleb, SFltb.
  rewrite (SFcompare_swap (Prim2SF x) (Prim2SF y)).
  destruct (SFcompare (Prim2SF x) (Prim2SF y)) as [[]|]; simpl; congruence.
Qed.

(** A double that is at least 3600 is not below 60. *)
Lemma ge_3600_not_lt_60 (s : float) :
  (3600 <=? s)%float = true → (s <? 60)%float = false.
Proof.
  rewrite leb_spec, ltb_spec. unfold SFleb, SFltb.
  replace (Prim2SF 3600) with (S754_finite false 7916483719987200 (-41))
    by (vm_compute; reflexivity).
  replace (Prim2SF 60) with (S754_finite false 8444249301319680 (-47))
    by (vm_compute; reflexivity).
  destruct (Prim2SF s) as [sg|sg| |sg m e]; unfold SFcompare;
    try destruct sg; try congruence.
  destruct (Z.compare_spec (-41) e) as [<-|Hlt|Hgt]; try congruence.
  - intros _. reflexivity.
  - intros _. assert (He : (e ?= -47)%Z = Gt) by (apply Z.compare_gt_iff; lia).
    by rewrite He.
Qed.

Lemma _get_duration_run start w :
  _get_duration start w =
    match start with
    | None => (Ok "unknown", w)
    | Some t0 =>
        (Ok (duration_text (total_seconds (w_now w (w_tick w)) t0)),
         set_tick (S (w_tick w)) w)
    end.
Proof.
  destruct start as [t0|]; [|reflexivity].
  unfold _get_duration, duration_text, bind, datetime_now. simpl.
  destruct (_ <? 60)%float; [reflexivity|].
  destruct (_ <? 3600)%float; reflexivity.
Qed.

(** The three formats and their thresholds. *)
Lemma duration_text_cases (s : float) :
  ((s <? 60)%float = true → duration_text s = format_f 2 s +:+ "s")
  ∧ ((60 <=? s)%float = true → (s <? 3600)%float = true →
       duration_text s = format_f 1 (s / 60)%float +:+ "m")
  ∧ ((3600 <=? s)%float = true →
       duration_text s = format_f 1 (s / 3600)%float +:+ "h").
Proof.
  unfold duration_text. split; [|split].
  - by intros ->.
  - intros H1%leb_not_ltb H2. by rewrite H1, H2.
  - intros H. rewrite (ge_3600_not_lt_60 s H), (leb_not_ltb _ _ H). done.
Qed.

(** The text at and around the thresholds, and at a decimal tie: 0.015 s is
    the double just below 0.015, and 63 s / 60 the double just above 1.05. *)
Example duration_text_samples :
  duration_text (Z2float 45000000 / 1000000) = "45.00s"
  ∧ duration_text (Z2float 15000 / 1000000) = "0.01s"
  ∧ duration_text (Z2float 59999999 / 1000000) = "60.00s"
  ∧ duration_text (Z2float 60000000 / 1000000) = "1.0m"
  ∧ duration_text (Z2float 63000000 / 1000000) = "1.1m"
  ∧ duration_text (Z2float 125000000 / 1000000) = "2.1m"
  ∧ duration_text (Z2float 3599999999 / 1000000) = "60.0m"
  ∧ duration_text (Z2float 3600000000 / 1000000) = "1.0h"
  ∧ duration_text (Z2float 9000000000 / 1000000) = "2.5h".
Proof. by vm_compute. Qed.

(** ** The lifecycle methods *)

Lemma pop_directive_run name h w :
  pop_directive name (h, w) =
    (Ok (_active_directives h !! name),
     (set_active_directives (delete name (_active_directives h)) h, w)).
Proof. reflexivity. Qed.

Lemma pop_script_run name h w :
  pop_script name (h, w) =
    (Ok (_active_scripts h !! name),
     (set_active_scripts (delete name (_active_scripts h)) h, w)).
Proof. reflexivity. Qed.

Lemma in_world_get_duration start h w :
  in_world (_get_duration start) (h, w) =
    (Ok (duration_of start w), (h, after_duration start w)).
Proof.
  unfold in_world, zoom. simpl. rewrite _get_duration_run.
  by destruct start.
Qed.

(** [directive_completed], step by step: the entry is popped, the duration
    computed, and the rest is [emit]. *)
Lemma directive_completed_run name result h w :
  let start := _active_directives h !! name in
  let data := [("duration", VStr (duration_of start w))] in
  directive_completed name result (h, w) =
    (emit DIRECTIVE_COMPLETED name ("Completed directive: " +:+ name)
       (Some (if truthy_dict result then dict_update data (default [] result) else data))
       SUCCESS true ;; ret tt)
      (set_active_directives (delete name (_active_directives h)) h,
       after_duration start w).
Proof.
  simpl. unfold directive_completed.
  hub_step pop_directive_run. hub_step in_world_get_duration. reflexivity.
Qed.

Lemma directive_failed_run name error h w :
  let start := _active_directives h !! name in
  directive_failed name error (h, w) =
    (emit DIRECTIVE_FAILED name
       ("Failed directive: " +:+ name +:+ " - " +:+ err_str error)
       (Some [("duration", VStr (duration_of start w)); ("error", VStr (err_str error));
              ("error_type", VStr (err_type error))])
       ERROR true ;; ret tt)
      (set_active_directives (delete name (_active_directives h)) h,
       after_duration start w).
Proof.
  simpl. unfold directive_failed.
  hub_step pop_directive_run. hub_step in_world_get_duration. reflexivity.
Qed.

Lemma metric_name_inj name k k' :
  name +:+ "." +:+ k = name +:+ "." +:+ k' → k = k'.
Proof.
  intros H. apply String.app_inj in H. by apply (String.app_inj ".") in H.
Qed.

Lemma in_metrics_record_run n v h w :
  _lock (metrics h) = false →
  in_metrics (record n v) (h, w) =
    (Ok tt,
     (set_hub_metrics
        (set_metrics
           (<[n := default [] (_metrics (metrics h) !! n) ++ [v]]> (_metrics (metrics h)))
           (metrics h)) h, w)).
Proof.
  intros Hl. unfold in_metrics, in_hub, zoom. simpl. by rewrite record_run.
Qed.

(** [float] accepts a numeric value or raises [OverflowError]. *)
Lemma to_float_numeric v :
  is_int_or_float v = true →
  (∃ x, to_float v = Ok x ∧ converts v = true)
  ∨ (to_float v = Raise (OverflowError "int too large to convert to float")
     ∧ converts v = false).
Proof.
  unfold converts. destruct v as [|b|z|x|?|?|?]; simpl; try discriminate; intros _.
  - left. by eexists.
  - destruct (int_to_double z); [left; by eexists|by right|left; by eexists..].
  - left. by eexists.
Qed.

(** The loop of [script_completed]: it gets through the items up to the
    first number that [float] rejects, records those that are numbers, and
    leaves the counters and every other series alone. *)
Lemma record_metrics_run name items : ∀ h w,
  _lock (metrics h) = false →
  ∃ c, record_metrics name items (h, w)
       = ((if all_convert items then Ok tt
           else Raise (OverflowError "int too large to convert to float")),
          (set_hub_metrics c h, w))
    ∧ _lock c = false
    ∧ _counters c = _counters (metrics h)
    ∧ (∀ k, default [] (_metrics c !! (name +:+ "." +:+ k)) =
            default [] (_metrics (metrics h) !! (name +:+ "." +:+ k))
              ++ recorded_for k items)
    ∧ ∀ n, (∀ k v, (k, v) ∈ items → is_int_or_float v = true →
              n ≠ name +:+ "." +:+ k) →
           _metrics c !! n = _metrics (metrics h) !! n.
Proof.
  induction items as [|[k0 v0] items IH]; intros h w Hl.
  - exists (metrics h). simpl. unfold ret. split; [by destruct h|].
    split; [done|]. split; [done|]. split; [|done]. intros k. by rewrite app_nil_r.
  - unfold record_metrics in *. simpl for_each. unfold bind at 1.
    unfold all_convert, recorded_for. simpl.
    destruct (is_int_or_float v0) eqn:Ev; simpl.
    + destruct (to_float_numeric v0 Ev) as [(x & Hx & Hc)|[Hx Hc]]; rewrite Hc; simpl.
      * unfold bind at 1, lift at 1. rewrite Hx.
        rewrite in_metrics_record_run by done.
        set (c1 := set_metrics _ (metrics h)).
        destruct (IH (set_hub_metrics c1 h) w) as (c & Hrun & Hlc & Hk & Hm & Ho); [done|].
        exists c. rewrite Hrun. split; [done|]. split; [done|]. split; [done|].
        split.
        -- intros k. rewrite Hm. simpl. unfold recorded_for. rewrite ?Ev, ?Hx.
           destruct (String.eqb_spec k0 k) as [->|Hne]; simpl.
           ++ rewrite lookup_insert_eq. simpl. by rewrite <- app_assoc.
           ++ rewrite lookup_insert_ne; [done|].
              intros Heq. by apply metric_name_inj in Heq.
        -- intros n Hn. rewrite Ho.
           ++ simpl. rewrite lookup_insert_ne; [done|].
              intros Heq. apply (Hn k0 v0); [apply elem_of_cons; by left|done|done].
           ++ intros k v Hin. apply Hn. apply elem_of_cons. by right.
      * unfold bind at 1, lift at 1. rewrite Hx.
        exists (metrics h). split; [by destruct h|].
        split; [done|]. split; [done|]. split; [|done].
        intros k. by rewrite app_nil_r.
    + destruct (IH h w Hl) as (c & Hrun & Hlc & Hk & Hm & Ho).
      exists c. split; [done|]. split; [done|]. split; [done|]. split.
      * intros k. rewrite Hm. unfold recorded_for. by rewrite Ev, andb_false_r.
      * intros n Hn. apply Ho. intros k v Hin. apply Hn. apply elem_of_cons. by right.
Qed.

Lemma set_hub_metrics_same h : set_hub_metrics (metrics h) h = h.
Proof. by destruct h. Qed.

(** [script_completed]: the entry is popped and the numbers recorded, then
    the event is emitted, unless [float] rejected a number. *)
Lemma script_completed_run name ms h w :
  _lock (metrics h) = false →
  let start := _active_scripts h !! name in
  let data := [("duration", VStr (duration_of start w))] in
  ∃ c,
    script_completed name ms (h, w) =
      (if all_convert (default [] ms)
       then emit SCRIPT_COMPLETED name ("Completed script: " +:+ name)
              (Some (if truthy_dict ms then dict_update data (default [] ms) else data))
              SUCCESS true ;; ret tt
       else raise (OverflowError "int too large to convert to float"))
        (set_hub_metrics c (set_active_scripts (delete name (_active_scripts h)) h),
         after_duration start w)
    ∧ _lock c = false
    ∧ _counters c = _counters (metrics h)
    ∧ (∀ k, default [] (_metrics c !! (name +:+ "." +:+ k)) =
            default [] (_metrics (metrics h) !! (name +:+ "." +:+ k))
              ++ recorded_for k (default [] ms))
    ∧ ∀ n, (∀ k v, (k, v) ∈ default [] ms → is_int_or_float v = true →
              n ≠ name +:+ "." +:+ k) →
           _metrics c !! n = _metrics (metrics h) !! n.
Proof.
  intros Hl. simpl. unfold script_completed.
  hub_step pop_script_run. hub_step in_world_get_duration.
  unfold bind at 1.
  destruct (truthy_dict ms) eqn:Et; simpl.
  - set (h1 := set_active_scripts _ h).
    destruct (record_metrics_run name (default [] ms) h1
                (after_duration (_active_scripts h !! name) w))
      as (c & Hrun & Hlc & Hk & Hm & Ho); [done|].
    rewrite Hrun. exists c. split; [by destruct (all_convert (default [] ms))|done].
  - assert (Hnil : default [] ms = []) by (by destruct ms as [[|? ?]|]).
    rewrite Hnil. exists (metrics h). unfold ret at 1.
    split; [by destruct h|]. split; [done|]. split; [done|]. split; [|done].
    intros k. by rewrite app_nil_r.
Qed.

Lemma in_metrics_increment_run n a h w :
  _lock (metrics h) = false →
  in_metrics (increment n a) (h, w) =
    (Ok tt,
     (set_hub_metrics
        (set_counters
           (<[n := (default 0 (_counters (metrics h) !! n) + a)%Z]> (_counters (metrics h)))
           (metrics h)) h, w)).
Proof.
  intros Hl. destruct h as [? ? [m k l] ? ? ? ? ? ?]. simpl in Hl. subst l.
  reflexivity.
Qed.

Lemma script_failed_run name error h w :
  _lock (metrics h) = false →
  let start := _active_scripts h !! name in
  ∃ h',
    script_failed name error (h, w) =
      (emit SCRIPT_FAILED name
         ("Script failed: " +:+ name +:+ " - " +:+ err_str error)
         (Some [("duration", VStr (duration_of start w)); ("error", VStr (err_str error))])
         ERROR true ;; ret tt)
        (h', after_duration start w)
    ∧ slack_enabled h' = slack_enabled h.
Proof.
  intros Hl. simpl. unfold script_failed.
  hub_step pop_script_run. hub_step in_world_get_duration.
  unfold bind at 1. rewrite in_metrics_increment_run by done.
  unfold bind at 1. rewrite in_metrics_increment_run by done.
  eexists. split; [reflexivity|done].
Qed.

(** When the slack step of [emit] raises, so does the method around it. *)
Lemma emit_then_raises event_type source message data level h w :
  slack_enabled h = true →
  ((emit event_type source message data level true ;; ret tt) (h, w)).1
    = Raise (AttributeError "Event" "type").
Proof.
  intros Hs. unfold bind. rewrite emit_run, Hs. reflexivity.
Qed.

(** C7, as the code runs: on a hub whose slack sink is enabled (the
    default), completing or failing a unit of work that was never started
    raises [AttributeError]: the duration is "unknown" and the event is
    built, but [emit] fails in its slack step. ([script_completed] gets
    there when [float] accepts the numbers among its metrics; otherwise it
    has raised [OverflowError] before.) *)
Theorem completed_without_start_raises name result ms error h w :
  slack_enabled h = true →
  _lock (metrics h) = false →
  _active_directives h !! name = None →
  _active_scripts h !! name = None →
  (directive_completed name result (h, w)).1 = Raise (AttributeError "Event" "type")
  ∧ (directive_failed name error (h, w)).1 = Raise (AttributeError "Event" "type")
  ∧ (all_convert (default [] ms) = true →
     (script_completed name ms (h, w)).1 = Raise (AttributeError "Event" "type"))
  ∧ (script_failed name error (h, w)).1 = Raise (AttributeError "Event" "type").
Proof.
  intros Hs Hl _ _. split; [|split; [|split]].
  - rewrite directive_completed_run. by apply emit_then_raises.
  - rewrite directive_failed_run. by apply emit_then_raises.
  - intros Hc. destruct (script_completed_run name ms h w Hl) as (c & -> & _).
    rewrite Hc. by apply emit_then_raises.
  - destruct (script_failed_run name error h w Hl) as (h' & -> & Hs').
    apply emit_then_raises. by rewrite Hs'.
Qed.

(** The hub that [emit] leaves is the hub it found. *)
Lemma emit_then_hub event_type source message data level notify_slack h w :
  ((emit event_type source message data level notify_slack ;; ret tt) (h, w)).2.1 = h.
Proof.
  unfold bind. rewrite emit_run. simpl.
  by destruct (notify_slack && slack_enabled h).
Qed.

(** Whether it returns or raises, [emit] has built its event. *)
Lemma emit_then_events event_type source message data level notify_slack h w :
  w_events
    ((emit event_type source message data level notify_slack ;; ret tt) (h, w)).2.2
  = w_events w ++ [emitted_event event_type source message data level w].
Proof.
  unfold bind. rewrite emit_run. simpl.
  match goal with |- context [after_sinks ?a ?b ?c] =>
    destruct (after_sinks_frame a b c) as (_ & _ & _ & He) end.
  destruct (notify_slack && slack_enabled h); simpl; by rewrite He.
Qed.

(** What C7 describes does hold on a hub whose slack sink is disabled:
    each of the four methods returns, and the event it emits carries the
    duration "unknown". *)
Lemma completed_without_start_when_slack_off name error h w :
  slack_enabled h = false →
  _lock (metrics h) = false →
  _active_directives h !! name = None →
  _active_scripts h !! name = None →
  ∀ m, m ∈ [directive_completed name None; directive_failed name error;
            script_completed name None; script_failed name error] →
    ∃ event,
      (m (h, w)).1 = Ok tt
      ∧ w_events (m (h, w)).2.2 = w_events w ++ [event]
      ∧ dict_get "duration" (data event) = Some (VStr "unknown").
Proof.
  intros Hs Hl Hd Hsc m Hm.
  assert (Hok : ∀ et src msg dat lvl h', slack_enabled h' = false →
    ((emit et src msg dat lvl true ;; ret tt) (h', w)).1 = Ok tt).
  { intros et src msg dat lvl h' Hs'. unfold bind. rewrite emit_run. simpl.
    by rewrite Hs'. }
  repeat (apply elem_of_cons in Hm as [->|Hm]); [| | | |by apply elem_of_nil in Hm].
  - rewrite directive_completed_run, Hd. simpl.
    eexists. split; [by apply Hok|]. split; [by rewrite emit_then_events|done].
  - rewrite directive_failed_run, Hd. simpl.
    eexists. split; [by apply Hok|]. split; [by rewrite emit_then_events|done].
  - destruct (script_completed_run name None h w Hl) as (c & -> & _).
    rewrite Hsc. simpl.
    eexists. split; [by apply Hok|]. split; [by rewrite emit_then_events|done].
  - destruct (script_failed_run name error h w Hl) as (h' & -> & Hs').
    rewrite Hsc. simpl.
    eexists. split; [apply Hok; by rewrite Hs'|].
    split; [by rewrite emit_then_events|done].
Qed.

Lemma after_duration_events start w :
  w_events (after_duration start w) = w_events w.
Proof. by destruct start. Qed.

Lemma dict_get_set_ne {V} k k' (v : V) d :
  k ≠ k' → dict_get k (dict_set k' v d) = dict_get k d.
Proof.
  intros Hne. induction d as [|[k0 v0] d IH]; simpl.
  - by destruct (String.eqb_spec k k').
  - destruct (String.eqb_spec k' k0) as [->|Hne0]; simpl.
    + by destruct (String.eqb_spec k k0).
    + by rewrite IH.
Qed.

(** [d.update(other)] leaves the keys that [other] lacks as they were. *)
Lemma dict_get_update_other {V} k (other : list (string * V)) : ∀ d,
  dict_get k other = None → dict_get k (dict_update d other) = dict_get k d.
Proof.
  unfold dict_update.
  induction other as [|[k0 v0] other IH]; intros d Hk; [done|].
  simpl in *. destruct (String.eqb_spec k k0) as [->|Hne]; [done|].
  rewrite IH by done. by apply dict_get_set_ne.
Qed.

(** [directive_started] and [script_started] write the entry that the
    completion later pops, whether or not their [emit] then raises. *)
Lemma started_marks name context directive h w :
  _active_directives (directive_started name context (h, w)).2.1 !! name
    = Some (w_now w (w_tick w))
  ∧ _active_scripts (script_started name directive (h, w)).2.1 !! name
    = Some (w_now w (w_tick w)).
Proof.
  unfold directive_started, script_started. split.
  - unfold bind at 1. unfold in_world at 1, zoom at 1, datetime_now at 1. simpl.
    unfold bind at 1. unfold in_hub at 1, zoom at 1, modify at 1. simpl.
    rewrite emit_then_hub. simpl. apply lookup_insert_eq.
  - unfold bind at 1. unfold in_world at 1, zoom at 1, datetime_now at 1. simpl.
    unfold bind at 1. unfold in_hub at 1, zoom at 1, modify at 1. simpl.
    rewrite emit_then_hub. simpl. apply lookup_insert_eq.
Qed.

(** C6, as the code has it. When a directive or a script that was started
    at [start] is completed, the event built for it carries the duration
    text of the elapsed span [s] (in seconds): two decimals and "s" when
    s < 60, the minutes with one decimal and "m" when 60 ≤ s < 3600, the
    hours with one decimal and "h" when s ≥ 3600. A span of 45 seconds
    gives "45.00s", one of 125 seconds "2.1m". This holds when the result
    or the metrics passed along have no "duration" key of their own, which
    would replace the text, and, for a script, when [float] accepts the
    numbers among the metrics, which are recorded before the event is
    built. *)
Theorem completed_duration_text name start h w :
  let s := total_seconds (w_now w (w_tick w)) start in
  let d := duration_text s in
  ((s <? 60)%float = true → d = format_f 2 s +:+ "s")
  ∧ ((60 <=? s)%float = true → (s <? 3600)%float = true →
       d = format_f 1 (s / 60)%float +:+ "m")
  ∧ ((3600 <=? s)%float = true → d = format_f 1 (s / 3600)%float +:+ "h")
  ∧ (dt_us (w_now w (w_tick w)) - dt_us start = 45000000 → d = "45.00s")%Z
  ∧ (dt_us (w_now w (w_tick w)) - dt_us start = 125000000 → d = "2.1m")%Z
  ∧ (∀ result,
       _active_directives h !! name = Some start →
       dict_get "duration" (default [] result) = None →
       ∃ event,
         w_events (directive_completed name result (h, w)).2.2 = w_events w ++ [event]
         ∧ event_type event = DIRECTIVE_COMPLETED
         ∧ dict_get "duration" (data event) = Some (VStr d))
  ∧ (∀ ms,
       _active_scripts h !! name = Some start →
       _lock (metrics h) = false →
       dict_get "duration" (default [] ms) = None →
       all_convert (default [] ms) = true →
       ∃ event,
         w_events (script_completed name ms (h, w)).2.2 = w_events w ++ [event]
         ∧ event_type event = SCRIPT_COMPLETED
         ∧ dict_get "duration" (data event) = Some (VStr d)).
Proof.
  simpl.
  destruct (duration_text_cases (total_seconds (w_now w (w_tick w)) start))
    as (H1 & H2 & H3).
  split; [exact H1|]. split; [exact H2|]. split; [exact H3|].
  split; [|split].
  - intros E. unfold total_seconds. rewrite E. by vm_compute.
  - intros E. unfold total_seconds. rewrite E. by vm_compute.
  - split.
    + intros result Hs Hr. rewrite directive_completed_run, Hs.
      eexists. split; [by rewrite emit_then_events|]. split; [done|].
      simpl. destruct (truthy_dict result); [|done].
      by rewrite dict_get_update_other.
    + intros ms Hs Hl Hr Hc.
      destruct (script_completed_run name ms h w Hl) as (c & -> & _).
      rewrite Hs, Hc.
      eexists. split; [by rewrite emit_then_events|]. split; [done|].
      simpl. destruct (truthy_dict ms); [|done].
      by rewrite dict_get_update_other.
Qed.

Lemma recorded_for_absent k (items : Dict) :
  k ∉ items.*1 → recorded_for k items = [].
Proof.
  unfold recorded_for.
  induction items as [|[k0 v0] items IH]; [done|].
  simpl. intros Hn. apply not_elem_of_cons in Hn as [Hne Hn].
  destruct (is_int_or_float v0 && negb (converts v0)); [done|]. simpl.
  destruct (String.eqb_spec k0 k) as [->|_]; [done|]. simpl. by apply IH.
Qed.

(** In the items of a dict, a key comes once: a numeric item that the loop
    reaches is the only value recorded under its key. *)
Lemma recorded_for_at k v x (before after : Dict) :
  NoDup (before ++ (k, v) :: after).*1 →
  all_convert before = true →
  is_int_or_float v = true →
  to_float v = Ok x →
  recorded_for k (before ++ (k, v) :: after) = [x].
Proof.
  intros Hnd Hall Hv Hx. unfold recorded_for.
  induction before as [|[k0 v0] before IH]; simpl in *.
  - apply NoDup_cons in Hnd as [Hk _].
    unfold converts. rewrite Hv, Hx. simpl.
    rewrite String.eqb_refl, Hv, Hx. simpl. f_equal.
    by apply (recorded_for_absent k after).
  - apply NoDup_cons in Hnd as [Hk0 Hnd].
    apply andb_true_iff in Hall as [H0 Hall].
    assert (Hgo : is_int_or_float v0 && negb (converts v0) = false).
    { destruct (is_int_or_float v0), (converts v0); done. }
    rewrite Hgo. simpl.
    assert (Hne : k0 ≠ k).
    { intros ->. apply Hk0. rewrite fmap_app. apply elem_of_app. right.
      simpl. apply elem_of_cons. by left. }
    destruct (String.eqb_spec k0 k) as [?|_]; [done|]. simpl. by apply IH.
Qed.

Lemma all_convert_app (l1 l2 : Dict) :
  all_convert (l1 ++ l2) = all_convert l1 && all_convert l2.
Proof. unfold all_convert. apply forallb_app. Qed.

(** The hub that [script_completed] leaves, whether it returned or raised. *)
Lemma script_completed_hub name ms h w :
  _lock (metrics h) = false →
  ∃ c,
    (script_completed name ms (h, w)).2.1
    = set_hub_metrics c (set_active_scripts (delete name (_active_scripts h)) h)
    ∧ _counters c = _counters (metrics h)
    ∧ (∀ k, default [] (_metrics c !! (name +:+ "." +:+ k)) =
            default [] (_metrics (metrics h) !! (name +:+ "." +:+ k))
              ++ recorded_for k (default [] ms))
    ∧ ∀ n, (∀ k v, (k, v) ∈ default [] ms → is_int_or_float v = true →
              n ≠ name +:+ "." +:+ k) →
           _metrics c !! n = _metrics (metrics h) !! n.
Proof.
  intros Hl.
  destruct (script_completed_run name ms h w Hl) as (c & -> & _ & Hk & Hm & Ho).
  exists c. split; [|done].
  destruct (all_convert (default [] ms)); [by rewrite emit_then_hub|done].
Qed.

(** When [float] rejects a number, [script_completed] raises before it
    builds its event. *)
Lemma script_completed_rejects name ms h w :
  _lock (metrics h) = false →
  all_convert (default [] ms) = false →
  (script_completed name ms (h, w)).1
  = Raise (OverflowError "int too large to convert to float")
  ∧ w_events (script_completed name ms (h, w)).2.2 = w_events w.
Proof.
  intros Hl Hc. destruct (script_completed_run name ms h w Hl) as (c & -> & _).
  rewrite Hc. split; [done|]. unfold raise. cbn [fst snd].
  apply after_duration_events.
Qed.

(** C10, as the code has it. [script_completed(name, metrics)] takes a
    boolean entry of [metrics] for a number: under "{name}.{key}" it
    records 1.0 for [True] and 0.0 for [False], provided [float] accepts
    the numbers among the entries that come before it; what comes after it
    plays no part. *)
Theorem script_completed_records_booleans name (before after : Dict) k b h w :
  _lock (metrics h) = false →
  NoDup (before ++ (k, VBool b) :: after).*1 →
  all_convert before = true →
  is_int_or_float (VBool b) = true
  ∧ _metrics (metrics (script_completed name (Some (before ++ (k, VBool b) :: after))
                         (h, w)).2.1)
      !! (name +:+ "." +:+ k)
    = Some (default [] (_metrics (metrics h) !! (name +:+ "." +:+ k))
              ++ [if b then 1%float else 0%float]).
Proof.
  intros Hl Hnd Hall. split; [done|].
  destruct (script_completed_hub name (Some (before ++ (k, VBool b) :: after)) h w Hl)
    as (c & -> & _ & Hm & _).
  simpl. specialize (Hm k). simpl in Hm.
  rewrite (recorded_for_at k (VBool b) (if b then 1%float else 0%float)
             before after Hnd Hall eq_refl eq_refl) in Hm.
  destruct (_metrics c !! (name +:+ "." +:+ k)) as [l|] eqn:E; simpl in Hm.
  - by rewrite Hm.
  - by apply app_cons_not_nil in Hm.
Qed.

(** ** EventLogger *)

Lemma str_app_assoc (a b c : string) : (a +:+ b) +:+ c = a +:+ (b +:+ c).
Proof.
  induction a as [|x a IH]; [done|].
  change (String x ((a +:+ b) +:+ c) = String x (a +:+ (b +:+ c))). by rewrite IH.
Qed.

Lemma EventType_value_inj t t' : EventType_value t = EventType_value t' → t = t'.
Proof. destruct t, t'; simpl; intros H; try reflexivity; discriminate H. Qed.

(** A text without terminator, then LF, is read as one line. *)
Lemma readlines_from_line (l : string) : ∀ cur rest,
  no_newline l = true →
  readlines_from cur (l +:+ String LF rest)
    = (cur +:+ l +:+ String LF "") :: readlines_from "" rest.
Proof.
  induction l as [|c l IH]; intros cur rest Hl.
  - change (readlines_from cur (String LF rest)
            = (cur +:+ String LF "") :: readlines_from "" rest).
    reflexivity.
  - change (readlines_from cur (String c (l +:+ String LF rest))
            = (cur +:+ String c (l +:+ String LF "")) :: readlines_from "" rest).
    simpl. simpl in Hl. apply andb_prop in Hl as [Hc Hl]. apply andb_prop in Hc as [H1 H2].
    apply negb_true_iff in H1, H2. rewrite H1, H2.
    rewrite IH by done. by rewrite str_app_assoc.
Qed.

Lemma readlines_log_text (evs : list Event) :
  (∀ e, e ∈ evs → no_newline (json_dumps (to_dict e)) = true) →
  readlines (log_text evs)
    = (fun e => json_dumps (to_dict e) +:+ String LF "") <$> evs.
Proof.
  unfold readlines. induction evs as [|e evs IH]; intros Hall; [done|].
  change (log_text (e :: evs))
    with (json_dumps (to_dict e) +:+ String LF (log_text evs)).
  rewrite readlines_from_line by (apply Hall; apply elem_of_cons; by left).
  rewrite fmap_cons. f_equal. apply IH. intros e' He'. apply Hall. apply elem_of_cons. by right.
Qed.

Lemma log_file_day self a b : dt_ymd a = dt_ymd b → log_file self a = log_file self b.
Proof. unfold log_file. by intros ->. Qed.

(** Logging the events of one day appends their lines to that day's file. *)
Lemma log_each_run self day (evs : list Event) : ∀ w,
  (∀ i, i < length evs → dt_ymd (w_now w (w_tick w + i)) = dt_ymd day) →
  w_files (for_each evs (log self) w).2 !! log_file self day =
    match evs with
    | [] => w_files w !! log_file self day
    | _ => Some (default "" (w_files w !! log_file self day) +:+ log_text evs)
    end.
Proof.
  induction evs as [|e evs IH]; intros w Hday; [done|].
  simpl. unfold bind at 1. unfold log at 1. unfold bind at 1, datetime_now at 1.
  unfold file_append, modify. simpl.
  assert (Hp : log_file self (w_now w (w_tick w)) = log_file self day).
  { apply log_file_day. specialize (Hday 0). rewrite Nat.add_0_r in Hday.
    apply Hday. simpl. lia. }
  rewrite Hp.
  match goal with |- context [for_each evs (log self) ?w1] => set (w' := w1) end.
  specialize (IH w'). rewrite IH.
  - subst w'. simpl. rewrite lookup_insert_eq. simpl.
    destruct evs as [|e' evs'].
    + reflexivity.
    + f_equal. rewrite !str_app_assoc. reflexivity.
  - intros i Hi. subst w'. simpl.
    replace (S (w_tick w + i)) with (w_tick w + S i) by lia.
    apply Hday. simpl. lia.
Qed.

(** The loop of [get_events], on the lines that [log] wrote, with a filter
    on the type and none on the source. *)
Lemma get_events_loop_logged t (evs : list Event) : ∀ acc,
  (∀ e, e ∈ evs →
     json_loads (json_dumps (to_dict e) +:+ String LF "") = Some (to_dict e)) →
  get_events_loop (Some t) None acc
    ((fun e => json_dumps (to_dict e) +:+ String LF "") <$> evs)
  = Ok (acc ++ (to_dict <$> filter (fun e => event_type e = t) evs)).
Proof.
  induction evs as [|e evs IH]; intros acc Hall; simpl.
  - by rewrite app_nil_r.
  - unfold get_events_line at 1.
    rewrite (Hall e) by (apply elem_of_cons; by left).
    assert (IH' := fun acc => IH acc (fun e' He' => Hall e' (proj2 (elem_of_cons _ _ _) (or_intror He')))).
    unfold differs, getitem, to_dict at 1. simpl.
    rewrite filter_cons.
    destruct (decide (event_type e = t)) as [->|Hne].
    + rewrite String.eqb_refl. simpl. rewrite IH'. simpl.
      by rewrite <- app_assoc.
    + destruct (String.eqb_spec (EventType_value (event_type e)) (EventType_value t))
        as [Heq|_].
      * by apply EventType_value_inj in Heq.
      * simpl. apply IH'.
Qed.

(** What [get_events] returns is read off the file of the target day. *)
Lemma get_events_result self date et src w :
  (get_events self date et src w).1 =
    match w_files w !! log_file self (default (w_now w (w_tick w)) date) with
    | None => Ok []
    | Some content => get_events_loop et src [] (readlines content)
    end.
Proof.
  unfold get_events. destruct date as [d|];
    unfold bind, ret, datetime_now, get; simpl;
    match goal with |- context [w_files w !! ?p] => destruct (w_files w !! p) end;
    reflexivity.
Qed.

(** C8. [get_events] for a day with no log file returns the empty list;
    and after the events [evs] were logged on a day whose file did not
    exist, [get_events] for that day (given, or read off the clock) with a
    filter on the type returns the records of the events of that type, in
    the order they were logged. The [json] codec is assumed to write each
    of these records on one line and to read it back. *)
Theorem get_events_missing_or_filtered self :
  (∀ date et src w,
     w_files w !! log_file self (default (w_now w (w_tick w)) date) = None →
     (get_events self date et src w).1 = Ok [])
  ∧ (∀ evs day date t w,
     (∀ e, e ∈ evs →
        no_newline (json_dumps (to_dict e)) = true
        ∧ json_loads (json_dumps (to_dict e) +:+ String LF "") = Some (to_dict e)) →
     (∀ i, i < length evs → dt_ymd (w_now w (w_tick w + i)) = dt_ymd day) →
     w_files w !! log_file self day = None →
     let w' := (for_each evs (log self) w).2 in
     dt_ymd (default (w_now w' (w_tick w')) date) = dt_ymd day →
     (get_events self date (Some t) None w').1
       = Ok (to_dict <$> filter (fun e => event_type e = t) evs)).
Proof.
  split.
  - intros date et src w Hnone. by rewrite get_events_result, Hnone.
  - intros evs day date t w Hcodec Hday Hnone w' Hdate.
    rewrite get_events_result, (log_file_day self _ day Hdate).
    subst w'. rewrite (log_each_run self day evs w Hday), Hnone.
    destruct evs as [|e evs]; [done|].
    change (default "" None +:+ log_text (e :: evs)) with (log_text (e :: evs)).
    rewrite readlines_log_text by (intros e' He'; by apply Hcodec).
    rewrite get_events_loop_logged by (intros e' He'; by apply Hcodec).
    done.
Qed.

(** ** More on MetricsCollector *)

Lemma increment_run name amount c :
  _lock c = false →
  increment name amount c =
    (Ok tt,
     set_counters
       (<[name := (default 0 (_counters c !! name) + amount)%Z]> (_counters c)) c).
Proof.
  intros Hl. destruct c as [m k l]. simpl in Hl. subst l. reflexivity.
Qed.

Lemma get_counter_run name c :
  _lock c = false →
  get_counter name c = (Ok (default 0%Z (_counters c !! name)), c).
Proof.
  intros Hl. destruct c as [m k l]. simpl in Hl. subst l. reflexivity.
Qed.

Lemma increment_each_run name amounts : ∀ c,
  _lock c = false →
  ∃ c', for_each amounts (increment name) c = (Ok tt, c')
    ∧ _lock c' = false
    ∧ _metrics c' = _metrics c
    ∧ default 0%Z (_counters c' !! name)
        = (default 0 (_counters c !! name) + Zsum amounts)%Z
    ∧ ∀ other, other ≠ name → _counters c' !! other = _counters c !! other.
Proof.
  induction amounts as [|a amounts IH]; intros c Hl; simpl.
  - exists c. rewrite Z.add_0_r. done.
  - unfold bind. rewrite increment_run by done.
    set (c1 := set_counters _ c).
    destruct (IH c1) as (c' & Hrun & Hl' & Hm & Hk & Hother); [done|].
    exists c'. rewrite Hrun. split; [done|]. split; [done|]. split; [done|].
    split.
    + rewrite Hk. subst c1. simpl. rewrite lookup_insert_eq. simpl. lia.
    + intros other Hne. rewrite Hother by done. subst c1. simpl.
      by rewrite lookup_insert_ne.
Qed.

(** X1. A counter holds the sum of the amounts added to it, negative ones
    included, on top of what it held; a counter never incremented reads 0;
    the other counters and the metrics are left alone. *)
Theorem counter_after_increments name (amounts : list Z) c :
  _lock c = false →
  ∃ c', for_each amounts (increment name) c = (Ok tt, c')
    ∧ (get_counter name c').1
        = Ok (default 0 (_counters c !! name) + Zsum amounts)%Z
    ∧ (∀ other, other ≠ name → (get_counter other c').1 = (get_counter other c).1)
    ∧ (∀ n, (get_summary n c').1 = (get_summary n c).1)
    ∧ ∀ n, (get_counter n MetricsCollector_new).1 = Ok 0%Z.
Proof.
  intros Hl.
  destruct (increment_each_run name amounts c Hl) as (c' & Hrun & Hl' & Hm & Hk & Ho).
  exists c'. split; [done|]. split; [by rewrite get_counter_run, Hk|].
  split; [|split].
  - intros other Hne. rewrite !get_counter_run by done. simpl. by rewrite Ho.
  - intros n. rewrite !get_summary_run by done. simpl. by rewrite Hm.
  - intros n. reflexivity.
Qed.

(** X2. [reset] forgets: whatever was recorded and counted before it, the
    collector then behaves as a new one in every later call; in
    particular [get_all] returns after it, with nothing in it. *)
Theorem reset_makes_new {A} name (vs : list float) counter (amounts : list Z)
    (later : M MetricsCollector A) c :
  _lock c = false →
  (for_each vs (record name) ;; for_each amounts (increment counter) ;; reset ;; later) c
  = later MetricsCollector_new
  ∧ ((reset ;; get_all) c).1 = Ok (mkSnapshot ∅ ∅).
Proof.
  intros Hl.
  assert (Hr : ∀ c0, _lock c0 = false → reset c0 = (Ok tt, MetricsCollector_new)).
  { intros [m k l] Hl0. simpl in Hl0. subst l. reflexivity. }
  split.
  - destruct (record_each_run name vs c Hl) as (c1 & Hrun1 & Hl1 & _).
    destruct (increment_each_run counter amounts c1 Hl1) as (c2 & Hrun2 & Hl2 & _).
    unfold bind. by rewrite Hrun1, Hrun2, Hr.
  - unfold bind. rewrite Hr by done. by rewrite get_all_without_metrics.
Qed.

(** X3. Recording under one name changes neither the summary of another name
    nor any counter. *)
Theorem record_leaves_others name v c :
  _lock c = false →
  (∀ other, other ≠ name →
     ((record name v ;; get_summary other) c).1 = (get_summary other c).1)
  ∧ (∀ n, ((record name v ;; get_counter n) c).1 = (get_counter n c).1).
Proof.
  intros Hl. unfold bind. rewrite record_run by done. split.
  - intros other Hne. rewrite !get_summary_run by done. simpl.
    by rewrite lookup_insert_ne.
  - intros n. by rewrite !get_counter_run.
Qed.

(** ** More on EventLogger *)

Lemma get_events_loop_app et src (l1 l2 : list string) : ∀ acc,
  get_events_loop et src acc (l1 ++ l2) =
    match get_events_loop et src acc l1 with
    | Ok acc' => get_events_loop et src acc' l2
    | Raise e => Raise e
    | Hang => Hang
    end.
Proof.
  induction l1 as [|l l1 IH]; intros acc; simpl; [done|].
  destruct (get_events_line et src acc l); [apply IH|done|done].
Qed.

(** One turn of the loop on a line that [log] wrote. *)
Lemma get_events_line_logged et src acc (e : Event) :
  json_loads (json_dumps (to_dict e) +:+ String LF "") = Some (to_dict e) →
  get_events_line et src acc (json_dumps (to_dict e) +:+ String LF "")
    = Ok (if keeps et src e then acc ++ [to_dict e] else acc).
Proof.
  intros Hcodec. unfold get_events_line, keeps. rewrite Hcodec.
  destruct et as [t|]; simpl.
  - destruct (decide (event_type e = t)) as [->|Hne].
    + rewrite String.eqb_refl, bool_decide_eq_true_2 by done. simpl.
      destruct (truthy_str src); simpl; [|done].
      by destruct (source e =? default "" src)%string.
    + rewrite bool_decide_eq_false_2 by done.
      destruct (String.eqb_spec (EventType_value (event_type e)) (EventType_value t))
        as [Heq|_]; [by apply EventType_value_inj in Heq|done].
  - destruct (truthy_str src); simpl; [|done].
    by destruct (source e =? default "" src)%string.
Qed.

Lemma get_events_loop_kept et src (evs : list Event) : ∀ acc,
  (∀ e, e ∈ evs →
     json_loads (json_dumps (to_dict e) +:+ String LF "") = Some (to_dict e)) →
  get_events_loop et src acc
    ((fun e => json_dumps (to_dict e) +:+ String LF "") <$> evs)
  = Ok (acc ++ (to_dict <$> filter (fun e => keeps et src e = true) evs)).
Proof.
  induction evs as [|e evs IH]; intros acc Hall; simpl.
  - by rewrite app_nil_r.
  - rewrite get_events_line_logged by (apply Hall; apply elem_of_cons; by left).
    rewrite filter_cons.
    assert (IH' := fun acc => IH acc (fun e' He' =>
      Hall e' (proj2 (elem_of_cons _ _ _) (or_intror He')))).
    destruct (decide (keeps et src e = true)) as [Hk|Hk].
    + rewrite Hk. simpl. rewrite IH'. simpl. by rewrite <- app_assoc.
    + apply not_true_is_false in Hk. rewrite Hk. apply IH'.
Qed.

Lemma readlines_log_text_then (evs : list Event) (tail : string) :
  (∀ e, e ∈ evs → no_newline (json_dumps (to_dict e)) = true) →
  readlines (log_text evs +:+ tail)
    = ((fun e => json_dumps (to_dict e) +:+ String LF "") <$> evs) ++ readlines tail.
Proof.
  unfold readlines. induction evs as [|e evs IH]; intros Hall; [done|].
  change (log_text (e :: evs) +:+ tail)
    with ((json_dumps (to_dict e) +:+ String LF (log_text evs)) +:+ tail).
  rewrite str_app_assoc.
  change (String LF (log_text evs) +:+ tail) with (String LF (log_text evs +:+ tail)).
  rewrite readlines_from_line by (apply Hall; apply elem_of_cons; by left).
  rewrite fmap_cons. simpl. f_equal. apply IH.
  intros e' He'. apply Hall. apply elem_of_cons. by right.
Qed.

(** X5. After the events [evs] were logged into a new file, [get_events] for
    that day returns the records of exactly the events that pass both
    filters, in order: the type filter when one is given, the source filter
    when it is a non-empty string. An empty source string filters nothing. *)
Theorem get_events_filters self :
  (∀ evs day date et src w,
     (∀ e, e ∈ evs →
        no_newline (json_dumps (to_dict e)) = true
        ∧ json_loads (json_dumps (to_dict e) +:+ String LF "") = Some (to_dict e)) →
     (∀ i, i < length evs → dt_ymd (w_now w (w_tick w + i)) = dt_ymd day) →
     w_files w !! log_file self day = None →
     let w' := (for_each evs (log self) w).2 in
     dt_ymd (default (w_now w' (w_tick w')) date) = dt_ymd day →
     (get_events self date et src w').1
       = Ok (to_dict <$> filter (fun e => keeps et src e = true) evs))
  ∧ (∀ et e, keeps et (Some "") e = keeps et None e)
  ∧ (∀ e, keeps None None e = true)
  ∧ (∀ t s e, s ≠ "" →
       keeps (Some t) (Some s) e = true ↔ event_type e = t ∧ source e = s).
Proof.
  split; [|split; [|split]].
  - intros evs day date et src w Hcodec Hday Hnone w' Hdate.
    rewrite get_events_result, (log_file_day self _ day Hdate).
    subst w'. rewrite (log_each_run self day evs w Hday), Hnone.
    destruct evs as [|e evs]; [done|].
    change (default "" None +:+ log_text (e :: evs)) with (log_text (e :: evs)).
    rewrite readlines_log_text by (intros e' He'; by apply Hcodec).
    rewrite get_events_loop_kept by (intros e' He'; by apply Hcodec).
    done.
  - done.
  - done.
  - intros t s e Hs. unfold keeps.
    assert (Ht : truthy_str (Some s) = true) by (by destruct s).
    rewrite Ht. simpl. rewrite andb_true_iff, bool_decide_eq_true, String.eqb_eq.
    done.
Qed.

(** X6. A line that [json.loads] rejects makes [get_events] raise: with the
    lines of the logged events [evs] before it, whatever the filters, the
    call ends in [JSONDecodeError] and returns none of the records read so
    far. *)
Theorem get_events_corrupt_line self (evs : list Event) tail bad more day date et src w :
  (∀ e, e ∈ evs →
     no_newline (json_dumps (to_dict e)) = true
     ∧ json_loads (json_dumps (to_dict e) +:+ String LF "") = Some (to_dict e)) →
  readlines tail = bad :: more →
  json_loads bad = None →
  w_files w !! log_file self day = Some (log_text evs +:+ tail) →
  dt_ymd (default (w_now w (w_tick w)) date) = dt_ymd day →
  (get_events self date et src w).1 = Raise (JSONDecodeError bad).
Proof.
  intros Hcodec Htail Hbad Hfile Hdate.
  rewrite get_events_result, (log_file_day self _ day Hdate), Hfile.
  rewrite readlines_log_text_then by (intros e' He'; by apply Hcodec).
  rewrite get_events_loop_app.
  rewrite get_events_loop_kept by (intros e' He'; by apply Hcodec).
  rewrite Htail. simpl. unfold get_events_line. by rewrite Hbad.
Qed.

Lemma str_length_app (a b : string) :
  String.length (a +:+ b) = String.length a + String.length b.
Proof.
  induction a as [|x a IH]; [done|].
  change (S (String.length (a +:+ b)) = S (String.length a + String.length b)).
  by rewrite IH.
Qed.

Lemma str_app_inj_r (s a b : string) : a +:+ s = b +:+ s → a = b.
Proof.
  revert b. induction a as [|x a IH]; intros [|y b] H.
  - done.
  - apply (f_equal String.length) in H.
    rewrite !str_length_app in H. simpl in H. lia.
  - apply (f_equal String.length) in H.
    rewrite !str_length_app in H. simpl in H. lia.
  - change (String x (a +:+ s) = String y (b +:+ s)) in H.
    injection H as -> H. f_equal. by apply IH.
Qed.

(** Two days have the same log file only if they are the same date. *)
Lemma log_file_inj self a b : log_file self a = log_file self b → dt_ymd a = dt_ymd b.
Proof.
  unfold log_file. intros H.
  apply String.app_inj in H. apply (String.app_inj "/events_") in H.
  by apply str_app_inj_r in H.
Qed.

Lemma log_each_other_files self day (evs : list Event) path : ∀ w,
  (∀ i, i < length evs → dt_ymd (w_now w (w_tick w + i)) = dt_ymd day) →
  path ≠ log_file self day →
  w_files (for_each evs (log self) w).2 !! path = w_files w !! path.
Proof.
  induction evs as [|e evs IH]; intros w Hday Hp; [done|].
  simpl. unfold bind at 1. unfold log at 1. unfold bind at 1, datetime_now at 1.
  unfold file_append, modify. simpl.
  assert (Hf : log_file self (w_now w (w_tick w)) = log_file self day).
  { apply log_file_day. specialize (Hday 0). rewrite Nat.add_0_r in Hday.
    apply Hday. simpl. lia. }
  rewrite Hf.
  match goal with |- context [for_each evs (log self) ?w1] => set (w' := w1) end.
  rewrite (IH w').
  - subst w'. simpl. by rewrite lookup_insert_ne.
  - intros i Hi. subst w'. simpl.
    replace (S (w_tick w + i)) with (w_tick w + S i) by lia.
    apply Hday. simpl. lia.
  - done.
Qed.

(** X7. Events go to the file of the day they are logged on and to no other
    file: what [get_events] returns for any other date is what it returned
    before. *)
Theorem log_keeps_other_days self day (evs : list Event) other et src w :
  (∀ i, i < length evs → dt_ymd (w_now w (w_tick w + i)) = dt_ymd day) →
  dt_ymd other ≠ dt_ymd day →
  (get_events self (Some other) et src (for_each evs (log self) w).2).1
    = (get_events self (Some other) et src w).1.
Proof.
  intros Hday Hne. rewrite !get_events_result. simpl.
  rewrite (log_each_other_files self day evs); [done|done|].
  intros Heq. by apply log_file_inj in Heq.
Qed.

(** X8. A record without the key that a filter reads makes [get_events] raise
    [KeyError] when that filter is given, and is returned when it is not. *)
Theorem get_events_missing_key self line (d : Dict) day date w :
  readlines line = [line] →
  json_loads line = Some (VDict d) →
  dict_get "type" d = None →
  w_files w !! log_file self day = Some line →
  dt_ymd (default (w_now w (w_tick w)) date) = dt_ymd day →
  (get_events self date None None w).1 = Ok [VDict d]
  ∧ ∀ t src, (get_events self date (Some t) src w).1 = Raise (KeyError "type").
Proof.
  intros Hline Hload Hkey Hfile Hdate.
  split; [|intros t src];
    rewrite get_events_result, (log_file_day self _ day Hdate), Hfile, Hline;
    simpl; unfold get_events_line; rewrite Hload; simpl; [done|].
  by rewrite Hkey.
Qed.

(** ** More on Event and emit *)

Lemma Event_init_run event_type source message data level w :
  Event_init event_type source message data level w =
    (Ok (emitted_event event_type source message data level w),
     set_events
       (w_events w ++ [emitted_event event_type source message data level w])
       (set_tick (S (S (w_tick w))) w)).
Proof. reflexivity. Qed.

(** X9. The id of an event names its type and the millisecond it was built in,
    and nothing else: two events get the same id exactly when they have the
    same type and were built in the same millisecond. *)
Theorem event_id_same_iff t1 t2 s1 s2 m1 m2 d1 d2 l1 l2 w1 w2 e1 e2 :
  (Event_init t1 s1 m1 d1 l1 w1).1 = Ok e1 →
  (Event_init t2 s2 m2 d2 l2 w2).1 = Ok e2 →
  event_id e1 = event_id e2
  ↔ t1 = t2 ∧ w_time_ms w1 (S (w_tick w1)) = w_time_ms w2 (S (w_tick w2)).
Proof.
  rewrite !Event_init_run. simpl. intros [= <-] [= <-]. simpl. split.
  - intros H.
    assert (Ht : t1 = t2).
    { destruct t1, t2; try reflexivity;
        cbv [String.append EventType_value] in H; discriminate H. }
    subst t2. split; [done|].
    apply String.app_inj in H. apply (String.app_inj "_") in H.
    by apply pretty_Z_inj in H.
  - by intros [-> ->].
Qed.

Lemma subscribe_each_run cbs : ∀ h w,
  for_each cbs subscribe (h, w) = (Ok tt, (set_subscribers (subscribers h ++ cbs) h, w)).
Proof.
  induction cbs as [|cb cbs IH]; intros h w; simpl.
  - unfold ret. rewrite app_nil_r. by destruct h.
  - unfold bind at 1. unfold subscribe at 1, in_hub, zoom, modify. simpl.
    rewrite IH. simpl. by rewrite <- app_assoc.
Qed.

(** X10. Subscribers are called in the order they subscribed, after those that
    were there before, once per subscription: a callback subscribed twice
    is called twice. *)
Theorem subscribers_called_in_order (cbs : list Subscriber)
    event_type source message data level notify_slack h w :
  notify_slack && slack_enabled h = false →
  let event := emitted_event event_type source message data level w in
  let r := (for_each cbs subscribe ;;
            emit event_type source message data level notify_slack) (h, w) in
  r.1 = Ok event
  ∧ w_callbacks r.2.2
    = w_callbacks w ++ map (fun cb => (sub_id cb, event)) (subscribers h ++ cbs).
Proof.
  intros Hb. simpl. unfold bind. rewrite subscribe_each_run.
  destruct (emit_calls_every_subscriber event_type source message data level
              notify_slack (set_subscribers (subscribers h ++ cbs) h) w Hb)
    as (Hr & Hc & _).
  split; [exact Hr|exact Hc].
Qed.

(** X11. What [emit] writes. With the file sink on it appends one line, the
    record of the event, to one file: the log of the day that the clock
    shows when the line is written (the third reading, not the timestamp
    of the event); with the sink off no file changes. With the console sink
    on it prints the line of the event, and after it one line per
    subscriber that raised. The sinks have run when the slack step raises. *)
Theorem emit_writes_one_line event_type source message data level notify_slack h w :
  let event := emitted_event event_type source message data level w in
  let r := emit event_type source message data level notify_slack (h, w) in
  let path := log_file (logger h) (w_now w (S (S (w_tick w)))) in
  w_files r.2.2 =
    (if file_enabled h
     then <[path := default "" (w_files w !! path)
                      +:+ json_dumps (to_dict event) +:+ String LF ""]> (w_files w)
     else w_files w)
  ∧ w_console r.2.2 =
      w_console w
      ++ (if console_enabled h
          then ["[" +:+ dt_hms (timestamp event) +:+ "] " +:+ level_icon level
                +:+ " [" +:+ source +:+ "] " +:+ message]
          else [])
      ++ (if notify_slack && slack_enabled h then []
          else subscriber_errors event (subscribers h)).
Proof.
  simpl. rewrite emit_run.
  destruct (notify_slack && slack_enabled h); simpl; unfold after_sinks;
    destruct (console_enabled h), (file_enabled h); simpl;
    (split; [reflexivity|]);
    by rewrite ?app_nil_r, ?app_nil_l, <- ?app_assoc.
Qed.

(** ** More on the lifecycle methods *)

Lemma started_hubs name context directive h w :
  (directive_started name context (h, w)).2.1
    = set_active_directives (<[name := w_now w (w_tick w)]> (_active_directives h)) h
  ∧ (script_started name directive (h, w)).2.1
    = set_active_scripts (<[name := w_now w (w_tick w)]> (_active_scripts h)) h.
Proof.
  unfold directive_started, script_started. split.
  - unfold bind at 1. unfold in_world at 1, zoom at 1, datetime_now at 1. simpl.
    unfold bind at 1. unfold in_hub at 1, zoom at 1, modify at 1. simpl.
    by rewrite emit_then_hub.
  - unfold bind at 1. unfold in_world at 1, zoom at 1, datetime_now at 1. simpl.
    unfold bind at 1. unfold in_hub at 1, zoom at 1, modify at 1. simpl.
    by rewrite emit_then_hub.
Qed.

(** X12. The two maps of units in flight change as follows, whether the [emit]
    of the method returns or raises: a start writes the entry of its name,
    over any earlier one; a completion or a failure removes it; no method
    touches another name, and the directive methods leave the scripts
    alone, as the script methods leave the directives. *)
Theorem lifecycle_entries name context directive result ms error h w :
  _lock (metrics h) = false →
  let now := w_now w (w_tick w) in
  let after m := (m (h, w)).2.1 in
  _active_directives (after (directive_started name context))
    = <[name := now]> (_active_directives h)
  ∧ _active_directives (after (directive_completed name result))
    = delete name (_active_directives h)
  ∧ _active_directives (after (directive_failed name error))
    = delete name (_active_directives h)
  ∧ _active_scripts (after (script_started name directive))
    = <[name := now]> (_active_scripts h)
  ∧ _active_scripts (after (script_completed name ms))
    = delete name (_active_scripts h)
  ∧ _active_scripts (after (script_failed name error))
    = delete name (_active_scripts h)
  ∧ (∀ m, m ∈ [directive_started name context; directive_completed name result;
               directive_failed name error] →
       _active_scripts (after m) = _active_scripts h)
  ∧ (∀ m, m ∈ [script_started name directive; script_completed name ms;
               script_failed name error] →
       _active_directives (after m) = _active_directives h).
Proof.
  intros Hl. simpl.
  destruct (started_hubs name context directive h w) as [Hds Hss].
  assert (Hdc : (directive_completed name result (h, w)).2.1
                = set_active_directives (delete name (_active_directives h)) h).
  { by rewrite directive_completed_run, emit_then_hub. }
  assert (Hdf : (directive_failed name error (h, w)).2.1
                = set_active_directives (delete name (_active_directives h)) h).
  { by rewrite directive_failed_run, emit_then_hub. }
  assert (Hsc : ∃ c, (script_completed name ms (h, w)).2.1
                = set_hub_metrics c
                    (set_active_scripts (delete name (_active_scripts h)) h)).
  { destruct (script_completed_hub name ms h w Hl) as (c & -> & _). by exists c. }
  assert (Hsf : ∃ c, (script_failed name error (h, w)).2.1
                = set_hub_metrics c
                    (set_active_scripts (delete name (_active_scripts h)) h)).
  { unfold script_failed.
    hub_step pop_script_run. hub_step in_world_get_duration.
    unfold bind at 1. rewrite in_metrics_increment_run by done.
    unfold bind at 1. rewrite in_metrics_increment_run by done.
    rewrite emit_then_hub. eexists. reflexivity. }
  destruct Hsc as (c1 & Hsc). destruct Hsf as (c2 & Hsf).
  rewrite Hds, Hdc, Hdf, Hss, Hsc, Hsf. simpl.
  repeat split; try done.
  - intros m Hm.
    repeat (apply elem_of_cons in Hm as [->|Hm]); [| | |by apply elem_of_nil in Hm].
    + by rewrite Hds.
    + by rewrite Hdc.
    + by rewrite Hdf.
  - intros m Hm.
    repeat (apply elem_of_cons in Hm as [->|Hm]); [| | |by apply elem_of_nil in Hm].
    + by rewrite Hss.
    + by rewrite Hsc.
    + by rewrite Hsf.
Qed.

(** X13. A unit of work can be completed once with its duration: whatever the
    first completion or failure did, a second one for the same name finds
    no start time and reports "unknown". *)
Theorem completed_twice_unknown name result error h w :
  ∀ first, first ∈ [directive_completed name result; directive_failed name error] →
  ∃ event,
    w_events (directive_completed name None (first (h, w)).2).2.2
      = w_events (first (h, w)).2.2 ++ [event]
    ∧ data event = [("duration", VStr "unknown")].
Proof.
  intros first Hfirst.
  assert (Hgone : _active_directives (first (h, w)).2.1 !! name = None).
  { repeat (apply elem_of_cons in Hfirst as [->|Hfirst]);
      [| |by apply elem_of_nil in Hfirst].
    - rewrite directive_completed_run, emit_then_hub. simpl. apply lookup_delete_eq.
    - rewrite directive_failed_run, emit_then_hub. simpl. apply lookup_delete_eq. }
  destruct (first (h, w)) as [r [h1 w1]]. simpl in *.
  rewrite directive_completed_run, Hgone. simpl.
  eexists. split; [by rewrite emit_then_events|done].
Qed.

(** ** What the script methods leave in the metrics *)

(** X14. [script_completed(name, metrics)] records the numeric entries of
    [metrics] and nothing else, in the order of the dict and as far as its
    loop gets: an entry [k: v] with [v] an int, a float or a bool, before
    which [float] rejected no number, appends [float(v)] to the series
    "{name}.{k}"; every series that is not named so by a numeric entry, and
    every counter, is as before. This holds whether the call returns or
    raises. When [float] rejects a number, the call raises [OverflowError]
    and no event is built. *)
Theorem script_completed_metrics name (ms : option Dict) h w :
  _lock (metrics h) = false →
  let c' := metrics (script_completed name ms (h, w)).2.1 in
  _counters c' = _counters (metrics h)
  ∧ (∀ n, (∀ k v, (k, v) ∈ default [] ms → is_int_or_float v = true →
             n ≠ name +:+ "." +:+ k) →
          _metrics c' !! n = _metrics (metrics h) !! n)
  ∧ (NoDup (default [] ms).*1 →
     ∀ before k v after x,
       default [] ms = before ++ (k, v) :: after →
       all_convert before = true →
       is_int_or_float v = true →
       to_float v = Ok x →
       _metrics c' !! (name +:+ "." +:+ k)
       = Some (default [] (_metrics (metrics h) !! (name +:+ "." +:+ k)) ++ [x]))
  ∧ (all_convert (default [] ms) = false →
     (script_completed name ms (h, w)).1
     = Raise (OverflowError "int too large to convert to float")
     ∧ w_events (script_completed name ms (h, w)).2.2 = w_events w).
Proof.
  intros Hl. cbv zeta.
  split; [|split; [|split]].
  - destruct (script_completed_hub name ms h w Hl) as (c & -> & Hk & _). done.
  - destruct (script_completed_hub name ms h w Hl) as (c & -> & _ & _ & Ho).
    intros n Hn. by apply Ho.
  - destruct (script_completed_hub name ms h w Hl) as (c & -> & _ & Hm & _).
    intros Hnd before k v after x Hms Hall Hv Hx. specialize (Hm k).
    rewrite Hms in Hm, Hnd.
    rewrite (recorded_for_at k v x before after Hnd Hall Hv Hx) in Hm. simpl.
    destruct (_metrics c !! (name +:+ "." +:+ k)) as [l|] eqn:E; simpl in Hm.
    + by rewrite Hm.
    + by apply app_cons_not_nil in Hm.
  - intros Hc. by apply script_completed_rejects.
Qed.

(** X15. [script_failed(name, error)] adds one to the counter "errors.total" and
    one to "errors.{name}", and changes no other counter and no series;
    for the script named "total" the two are one counter, which grows by
    two. This holds whether the [emit] that follows returns or raises. *)
Theorem script_failed_counts name error h w :
  _lock (metrics h) = false →
  let c' := metrics (script_failed name error (h, w)).2.1 in
  _metrics c' = _metrics (metrics h)
  ∧ ∀ k, default 0%Z (_counters c' !! k)
         = (default 0 (_counters (metrics h) !! k)
            + (if bool_decide (k = "errors.total") then 1 else 0)
            + (if bool_decide (k = "errors." +:+ name) then 1 else 0))%Z.
Proof.
  intros Hl. simpl.
  remember (script_failed name error (h, w)) as r eqn:Hr.
  unfold script_failed in Hr. revert Hr.
  hub_step pop_script_run. hub_step in_world_get_duration.
  unfold bind at 1. rewrite in_metrics_increment_run by done.
  unfold bind at 1. rewrite in_metrics_increment_run by done.
  intros ->. rewrite emit_then_hub. simpl. split; [done|].
  intros k.
  repeat case_bool_decide; subst;
    rewrite ?lookup_insert_eq, ?lookup_insert_ne by done; simpl;
    rewrite ?lookup_insert_eq, ?lookup_insert_ne by done; simpl; try lia.
  match goal with H : _ = "errors." +:+ name |- _ => rewrite <- H end.
  rewrite !lookup_insert_eq. simpl. lia.
Qed.

(** ** The context managers *)

Lemma emit_off_run event_type source message data level notify_slack h w :
  slack_enabled h = false →
  let event := emitted_event event_type source message data level w in
  (emit event_type source message data level notify_slack ;; ret tt) (h, w)
  = (Ok tt, (h, after_subscribers event (subscribers h) (after_sinks h event w))).
Proof.
  intros Hs. simpl. unfold bind. rewrite emit_run, Hs, andb_false_r. reflexivity.
Qed.

Lemma emit_off_events event subs h w :
  w_events (after_subscribers event subs (after_sinks h event w)) = w_events w ++ [event].
Proof.
  destruct (after_sinks_frame h event w) as (_ & _ & _ & He).
  destruct (after_subscribers_frame event subs (after_sinks h event w)) as (_ & _ & _ & ->).
  done.
Qed.

Lemma started_off name context directive h w :
  slack_enabled h = false →
  (directive_started name context (h, w)).1 = Ok tt
  ∧ (script_started name directive (h, w)).1 = Ok tt.
Proof.
  intros Hs. unfold directive_started, script_started. split.
  - unfold bind at 1. unfold in_world at 1, zoom at 1, datetime_now at 1. simpl.
    unfold bind at 1. unfold in_hub at 1, zoom at 1, modify at 1. simpl.
    by rewrite emit_off_run.
  - unfold bind at 1. unfold in_world at 1, zoom at 1, datetime_now at 1. simpl.
    unfold bind at 1. unfold in_hub at 1, zoom at 1, modify at 1. simpl.
    by rewrite emit_off_run.
Qed.

Lemma started_on name context directive h w :
  slack_enabled h = true →
  (directive_started name context (h, w)).1 = Raise (AttributeError "Event" "type")
  ∧ (script_started name directive (h, w)).1 = Raise (AttributeError "Event" "type").
Proof.
  intros Hs. unfold directive_started, script_started. split.
  - unfold bind at 1. unfold in_world at 1, zoom at 1, datetime_now at 1. simpl.
    unfold bind at 1. unfold in_hub at 1, zoom at 1, modify at 1. simpl.
    by apply emit_then_raises.
  - unfold bind at 1. unfold in_world at 1, zoom at 1, datetime_now at 1. simpl.
    unfold bind at 1. unfold in_hub at 1, zoom at 1, modify at 1. simpl.
    by apply emit_then_raises.
Qed.

(** X16. On a hub whose slack sink is disabled, [with observe_directive(name)]
    is transparent: the block ends as its body ends. A body that returns
    is followed by one DIRECTIVE_COMPLETED event; a body that raises is
    followed by one DIRECTIVE_FAILED event that carries the text and the
    class name of the exception, and the same exception propagates. In
    both cases the name is no longer in flight. *)
Theorem observe_directive_reports name context (body : HubM unit) h w r h1 w1 :
  slack_enabled h = false →
  body (directive_started name context (h, w)).2 = (r, (h1, w1)) →
  slack_enabled h1 = false →
  let out := observe_directive name context body (h, w) in
  let start := _active_directives h1 !! name in
  let w2 := after_duration start w1 in
  out.1 = r
  ∧ match r with
    | Ok _ =>
        _active_directives out.2.1 = delete name (_active_directives h1)
        ∧ w_events out.2.2
          = w_events w1
            ++ [emitted_event DIRECTIVE_COMPLETED name ("Completed directive: " +:+ name)
                  (Some [("duration", VStr (duration_of start w1))]) SUCCESS w2]
    | Raise e =>
        _active_directives out.2.1 = delete name (_active_directives h1)
        ∧ w_events out.2.2
          = w_events w1
            ++ [emitted_event DIRECTIVE_FAILED name
                  ("Failed directive: " +:+ name +:+ " - " +:+ exn_str e)
                  (Some [("duration", VStr (duration_of start w1));
                         ("error", VStr (exn_str e));
                         ("error_type", VStr (exn_name e))]) ERROR w2]
    | Hang => out.2 = (h1, w1)
    end.
Proof.
  intros Hs Hbody Hs1. simpl.
  remember (observe_directive name context body (h, w)) as out eqn:Hout.
  unfold observe_directive in Hout. unfold bind at 1 in Hout.
  destruct (started_off name context None h w Hs) as [Hok _].
  destruct (directive_started name context (h, w)) as [r0 s0]. simpl in Hok, Hbody.
  subst r0. unfold try_except in Hout. unfold bind at 1 in Hout.
  rewrite Hbody in Hout.
  destruct r as [[]|e|].
  - rewrite directive_completed_run in Hout. cbn [truthy_dict] in Hout.
    rewrite emit_off_run in Hout by done. subst out.
    split; [done|]. split; [done|]. cbn [fst snd]. by rewrite emit_off_events, after_duration_events.
  - unfold bind at 1 in Hout.
    rewrite directive_failed_run in Hout.
    rewrite emit_off_run in Hout by done.
    cbv beta iota in Hout. unfold raise in Hout. subst out.
    split; [done|]. split; [done|]. cbn [fst snd]. by rewrite emit_off_events, after_duration_events.
  - by subst out.
Qed.

Lemma script_completed_none_run name h w :
  let start := _active_scripts h !! name in
  script_completed name None (h, w)
  = (emit SCRIPT_COMPLETED name ("Completed script: " +:+ name)
       (Some [("duration", VStr (duration_of start w))]) SUCCESS true ;; ret tt)
      (set_active_scripts (delete name (_active_scripts h)) h, after_duration start w).
Proof.
  simpl. unfold script_completed.
  hub_step pop_script_run. hub_step in_world_get_duration.
  reflexivity.
Qed.

Lemma script_failed_hub name error h w :
  _lock (metrics h) = false →
  (script_failed name error (h, w)).2.1
  = set_hub_metrics
      (set_counters
         (<["errors." +:+ name :=
              (default 0 (<["errors.total" :=
                              (default 0 (_counters (metrics h) !! "errors.total") + 1)%Z]>
                            (_counters (metrics h)) !! ("errors." +:+ name)) + 1)%Z]>
            (<["errors.total" :=
                 (default 0 (_counters (metrics h) !! "errors.total") + 1)%Z]>
               (_counters (metrics h))))
         (metrics h))
      (set_active_scripts (delete name (_active_scripts h)) h).
Proof.
  intros Hl. unfold script_failed.
  hub_step pop_script_run. hub_step in_world_get_duration.
  unfold bind at 1. rewrite in_metrics_increment_run by done.
  unfold bind at 1. rewrite in_metrics_increment_run by done.
  by rewrite emit_then_hub.
Qed.

Lemma counted_twice (name k : string) (m : gmap string Z) :
  default 0%Z
    (<["errors." +:+ name :=
         (default 0 (<["errors.total" := (default 0 (m !! "errors.total") + 1)%Z]> m
                       !! ("errors." +:+ name)) + 1)%Z]>
       (<["errors.total" := (default 0 (m !! "errors.total") + 1)%Z]> m) !! k)
  = (default 0 (m !! k)
     + (if bool_decide (k = "errors.total") then 1 else 0)
     + (if bool_decide (k = "errors." +:+ name) then 1 else 0))%Z.
Proof.
  repeat case_bool_decide; subst;
    rewrite ?lookup_insert_eq, ?lookup_insert_ne by done; simpl;
    rewrite ?lookup_insert_eq, ?lookup_insert_ne by done; simpl; try lia.
  match goal with H : _ = "errors." +:+ name |- _ => rewrite <- H end.
  rewrite !lookup_insert_eq. simpl. lia.
Qed.

(** X17. On a hub whose slack sink is disabled, [with observe_script(name)] is
    transparent as well, and a body that raises is counted: the exception
    propagates unchanged, one SCRIPT_FAILED event is emitted, and the
    counters "errors.total" and "errors.{name}" grow by one; a body that
    returns changes no counter. *)
Theorem observe_script_reports name directive (body : HubM unit) h w r h1 w1 :
  slack_enabled h = false →
  body (script_started name directive (h, w)).2 = (r, (h1, w1)) →
  slack_enabled h1 = false →
  _lock (metrics h1) = false →
  let out := observe_script name directive body (h, w) in
  let start := _active_scripts h1 !! name in
  let w2 := after_duration start w1 in
  out.1 = r
  ∧ match r with
    | Ok _ =>
        _active_scripts out.2.1 = delete name (_active_scripts h1)
        ∧ metrics out.2.1 = metrics h1
        ∧ w_events out.2.2
          = w_events w1
            ++ [emitted_event SCRIPT_COMPLETED name ("Completed script: " +:+ name)
                  (Some [("duration", VStr (duration_of start w1))]) SUCCESS w2]
    | Raise e =>
        _active_scripts out.2.1 = delete name (_active_scripts h1)
        ∧ (∀ k, default 0%Z (_counters (metrics out.2.1) !! k)
                = (default 0 (_counters (metrics h1) !! k)
                   + (if bool_decide (k = "errors.total") then 1 else 0)
                   + (if bool_decide (k = "errors." +:+ name) then 1 else 0))%Z)
        ∧ w_events out.2.2
          = w_events w1
            ++ [emitted_event SCRIPT_FAILED name
                  ("Script failed: " +:+ name +:+ " - " +:+ exn_str e)
                  (Some [("duration", VStr (duration_of start w1));
                         ("error", VStr (exn_str e))]) ERROR w2]
    | Hang => out.2 = (h1, w1)
    end.
Proof.
  intros Hs Hbody Hs1 Hl1. simpl.
  remember (observe_script name directive body (h, w)) as out eqn:Hout.
  unfold observe_script in Hout. unfold bind at 1 in Hout.
  destruct (started_off name None directive h w Hs) as [_ Hok].
  destruct (script_started name directive (h, w)) as [r0 s0]. simpl in Hok, Hbody.
  subst r0. unfold try_except in Hout. unfold bind at 1 in Hout.
  rewrite Hbody in Hout.
  destruct r as [[]|e|].
  - rewrite script_completed_none_run in Hout.
    rewrite emit_off_run in Hout by done. subst out.
    split; [done|]. split; [done|]. split; [by destruct h1|].
    cbn [fst snd]. by rewrite emit_off_events, after_duration_events.
  - unfold bind at 1 in Hout.
    pose proof (script_failed_hub name (as_error e) h1 w1 Hl1) as Hhub.
    destruct (script_failed_run name (as_error e) h1 w1 Hl1) as (h' & Hrun & Hs').
    simpl in Hrun. rewrite Hrun in Hout, Hhub.
    rewrite emit_off_run in Hout, Hhub by (by rewrite Hs'). cbn [fst snd] in Hhub.
    cbv beta iota in Hout. unfold raise in Hout.
    subst out h'. cbn [fst snd].
    split; [done|]. split; [done|].
    split; [intros k; apply (counted_twice name k)|].
    by rewrite emit_off_events, after_duration_events.
  - by subst out.
Qed.

(** X18. On a hub whose slack sink is enabled, the body of a
    [with observe_directive(...)] or [with observe_script(...)] block never
    runs: the start method raises [AttributeError] before the [yield], the
    block ends as that call ends whatever the body is, and the name stays
    registered as in flight. *)
Theorem observe_never_enters name context directive h w :
  slack_enabled h = true →
  ∀ body : HubM unit,
    observe_directive name context body (h, w) = directive_started name context (h, w)
    ∧ observe_script name directive body (h, w) = script_started name directive (h, w)
    ∧ (observe_directive name context body (h, w)).1
      = Raise (AttributeError "Event" "type")
    ∧ (observe_script name directive body (h, w)).1
      = Raise (AttributeError "Event" "type")
    ∧ _active_directives (observe_directive name context body (h, w)).2.1 !! name
      = Some (w_now w (w_tick w))
    ∧ _active_scripts (observe_script name directive body (h, w)).2.1 !! name
      = Some (w_now w (w_tick w)).
Proof.
  intros Hs body.
  destruct (started_on name context directive h w Hs) as [Hd Hsc].
  destruct (started_hubs name context directive h w) as [Hhd Hhs].
  assert (Ed : observe_directive name context body (h, w)
               = directive_started name context (h, w)).
  { unfold observe_directive, bind at 1.
    destruct (directive_started name context (h, w)) as [r0 s0]. simpl in Hd.
    by subst r0. }
  assert (Es : observe_script name directive body (h, w)
               = script_started name directive (h, w)).
  { unfold observe_script, bind at 1.
    destruct (script_started name directive (h, w)) as [r0 s0]. simpl in Hsc.
    by subst r0. }
  rewrite Ed, Es, Hhd, Hhs. simpl. rewrite !lookup_insert_eq. done.
Qed.

(** ** More on SlackNotifier.send *)

Lemma send_run self message level title fields context w :
  let w1 := set_sends (w_sends w ++ [mkSendCall message level title fields context]) w in
  send self message level title fields context w =
    if _is_configured self then
      (let* payload := _build_payload self message level title fields context in
       _send_payload self payload) w1
    else (Ok false,
          set_console (w_console w ++ ["[SLACK] Not configured - would send: " +:+ message]) w1).
Proof.
  simpl. unfold send. unfold bind at 1, modify at 1.
  by destruct (_is_configured self).
Qed.

(** X19. [send] never raises. It returns [True] exactly when the notifier is
    configured and the webhook answers with status 200. It prints at most
    one line: the diagnostic when it is not configured, the failure when a
    request fails, nothing when a response comes back, whatever its status.
    It reads the clock once when configured and not at all otherwise. *)
Theorem send_returns self message level title fields context w :
  let r := send self message level title fields context w in
  let answer := w_urlopen w (length (w_requests w)) in
  r.1 = Ok (_is_configured self
            && match answer with
               | Response status => bool_decide (status = 200%Z)
               | _ => false
               end)
  ∧ w_sends r.2 = w_sends w ++ [mkSendCall message level title fields context]
  ∧ w_console r.2
    = w_console w
      ++ (if _is_configured self then
            match answer with
            | Response _ => []
            | URLError e => ["[SLACK] Failed to send notification: " +:+ e]
            | OtherError e => ["[SLACK] Unexpected error: " +:+ e]
            end
          else ["[SLACK] Not configured - would send: " +:+ message])
  ∧ w_tick r.2 = (if _is_configured self then S (w_tick w) else w_tick w)
  ∧ w_files r.2 = w_files w
  ∧ w_events r.2 = w_events w.
Proof.
  simpl. rewrite send_run.
  destruct (_is_configured self); [|done].
  unfold bind, _build_payload, _send_payload, bind, datetime_now, urlopen, ret, print,
    modify. simpl.
  destruct (w_urlopen w (length (w_requests w))) as [status|e|e]; simpl.
  - by rewrite app_nil_r.
  - done.
  - done.
Qed.

(** X20. The request that a configured [send] makes: one attachment with the
    colour of the level and the message as text, stamped with the clock
    reading; a title, a field list, a footer text or a channel that is
    absent or empty is left out (the footer falls back to its default);
    the fields come one per entry, in order, and a field is short when its
    value has fewer than 40 characters. *)
Theorem send_payload self message level title fields context w :
  _is_configured self = true →
  ∃ att,
    w_requests (send self message level title fields context w).2
    = w_requests w
      ++ [mkRequest (default "" (webhook_url self))
            (mkPayload (default_username self) (default_icon self) [att]
               (if truthy_str (channel self) then channel self else None)) 10]
    ∧ att_color att = NotificationLevel_value level
    ∧ att_text att = message
    ∧ att_ts att = w_now w (w_tick w)
    ∧ att_title att = (if truthy_str title then title else None)
    ∧ att_footer att = (if truthy_str context then default "" context
                        else "Agent Workflow Observability")
    ∧ (att_fields att = None ↔ fields = None ∨ fields = Some [])
    ∧ ∀ fs, att_fields att = Some fs →
        fs = map (fun kv => mkField kv.1 kv.2 (bool_decide (py_len kv.2 < 40)))
               (default [] fields).
Proof.
  intros Hc. rewrite send_run, Hc.
  unfold bind, _build_payload, _send_payload, bind, datetime_now, urlopen, ret, print,
    modify. simpl.
  eexists.
  split.
  { destruct (w_urlopen w (length (w_requests w))); simpl; reflexivity. }
  simpl. repeat split; try done.
  - destruct fields as [[|kv kvs]|]; [by right|done|by left].
  - intros [->| ->]; done.
  - intros fs. destruct fields as [[|kv kvs]|]; [done| |done].
    by intros [= <-].
Qed.

(** ** Text slices *)

Lemma py_len_prefix (s : string) : ∀ n,
  py_len (py_prefix n s) = Nat.min n (py_len s).
Proof.
  induction s as [|c r IH]; intros n; simpl.
  - by rewrite Nat.min_0_r.
  - destruct (is_continuation c) eqn:E; simpl; rewrite ?E; simpl.
    + apply IH.
    + destruct n as [|k]; simpl; [done|]. rewrite E. simpl. f_equal. apply IH.
Qed.

Lemma py_prefix_drop (s : string) : ∀ n, py_prefix n s +:+ py_drop n s = s.
Proof.
  induction s as [|c r IH]; intros n; simpl; [done|].
  destruct (is_continuation c).
  - change (String c (py_prefix n r +:+ py_drop n r) = String c r). by rewrite IH.
  - destruct n as [|k]; [done|].
    change (String c (py_prefix k r +:+ py_drop k r) = String c r). by rewrite IH.
Qed.

Lemma py_len_drop (s : string) : ∀ n, py_len (py_drop n s) = py_len s - n.
Proof.
  induction s as [|c r IH]; intros n; simpl; [done|].
  destruct (is_continuation c) eqn:E; simpl.
  - apply IH.
  - destruct n as [|k]; simpl; [rewrite E; simpl; lia|]. apply IH.
Qed.

Lemma py_len_suffix (n : nat) (s : string) :
  py_len (py_suffix n s) = Nat.min n (py_len s).
Proof. unfold py_suffix. rewrite py_len_drop. lia. Qed.

(** ** AgentObserver *)

Lemma dict_set_elem {V} k (v : V) k' v' : ∀ d,
  (k', v') ∈ dict_set k v d → (k', v') ∈ d ∨ (k', v') = (k, v).
Proof.
  induction d as [|[k0 v0] d IH]; simpl; intros Hin.
  - apply elem_of_cons in Hin as [?|Hin]; [by right|by apply elem_of_nil in Hin].
  - destruct (String.eqb k k0).
    + apply elem_of_cons in Hin as [?|Hin]; [by right|].
      left. apply elem_of_cons. by right.
    + apply elem_of_cons in Hin as [?|Hin]; [left; apply elem_of_cons; by left|].
      destruct (IH Hin) as [?|?]; [left; apply elem_of_cons; by right|by right].
Qed.

Lemma add_fields_elem clip items k v : ∀ fields,
  (k, v) ∈ add_fields clip items fields →
  (k, v) ∈ fields ∨ ∃ v0, (k, v0) ∈ default [] items ∧ v = clip (py_str v0).
Proof.
  unfold add_fields. destruct (truthy_dict items); [|by left].
  generalize (default [] items). clear items.
  intros items. induction items as [|[k0 v0] items IH]; simpl; intros fields Hin.
  - by left.
  - destruct (IH _ Hin) as [Hf|(v1 & Hv1 & ->)].
    + apply dict_set_elem in Hf as [?|[= -> ->]]; [by left|].
      right. exists v0. split; [apply elem_of_cons; by left|done].
    + right. exists v1. split; [apply elem_of_cons; by right|done].
Qed.

Lemma send_ok self message level title fields context w :
  ∃ b, (send self message level title fields context w).1 = Ok b.
Proof.
  rewrite send_run. destruct (_is_configured self); [|by eexists].
  unfold bind, _build_payload, _send_payload, bind, datetime_now, urlopen, ret, print,
    modify. simpl.
  destruct (w_urlopen w (length (w_requests w))); simpl; by eexists.
Qed.

Lemma send_sends self message level title fields context w :
  w_sends (send self message level title fields context w).2
  = w_sends w ++ [mkSendCall message level title fields context].
Proof.
  rewrite send_run. destruct (_is_configured self); [|done].
  unfold bind, _build_payload, _send_payload, bind, datetime_now, urlopen, ret, print,
    modify. simpl.
  destruct (w_urlopen w (length (w_requests w))); simpl; done.
Qed.

Lemma send_requests self message level title fields context w :
  ∃ reqs, w_requests (send self message level title fields context w).2
          = w_requests w ++ reqs ∧ length reqs ≤ 1.
Proof.
  destruct (_is_configured self) eqn:E.
  - destruct (send_configured self message level title fields context w E)
      as (req & Hreq & _).
    exists [req]. split; [done|simpl; lia].
  - rewrite send_not_configured by done. exists []. simpl.
    split; [by rewrite app_nil_r|lia].
Qed.

Lemma notify_fields_run message level title fields o w :
  notify_fields message level title fields (o, w)
  = (Ok tt, (o, (send (notifier o) message level (Some title) (Some fields) None w).2)).
Proof.
  unfold notify_fields. unfold bind at 1, get at 1.
  unfold bind at 1. unfold obs_world, zoom. simpl.
  destruct (send_ok (notifier o) message level (Some title) (Some fields) None w)
    as (b & Hb).
  destruct (send _ _ _ _ _ _ w) as [r w']. simpl in Hb. subst r. reflexivity.
Qed.

Lemma AgentObserver_get_duration_run o w :
  AgentObserver_get_duration (o, w)
  = (Ok (observer_duration o w), (o, after_duration (start_time o) w)).
Proof.
  unfold AgentObserver_get_duration, observer_duration, duration_text, after_duration.
  unfold bind at 1, get at 1. simpl.
  destruct (start_time o) as [t0|]; [|done].
  unfold bind, obs_world, zoom, datetime_now, ret. simpl.
  destruct (_ <? 60)%float; [done|]. by destruct (_ <? 3600)%float.
Qed.

Lemma AgentObserver_script_started_run context o w :
  AgentObserver_script_started context (o, w)
  = (Ok tt,
     (set_start_time (Some (w_now w (w_tick w))) o,
      (send (notifier o) ("Started execution of `" +:+ script_name o +:+ "`") INFO
         (Some "🚀 Script Started")
         (Some (add_fields (py_prefix 100) context
                  (add_directive o [("Script", script_name o)])))
         None (set_tick (S (w_tick w)) w)).2)).
Proof.
  unfold AgentObserver_script_started.
  unfold bind at 1. unfold obs_world at 1, zoom at 1, datetime_now at 1. simpl.
  unfold bind at 1, modify at 1. simpl.
  unfold bind at 1, get at 1. simpl.
  by rewrite notify_fields_run.
Qed.

Lemma AgentObserver_script_completed_run result ms o w :
  AgentObserver_script_completed result ms (o, w)
  = (Ok tt,
     ((if truthy_dict ms
       then set_ao_metrics (dict_update (ao_metrics o) (default [] ms)) o else o),
      (send (notifier o) ("Successfully completed `" +:+ script_name o +:+ "`") SUCCESS
         (Some "✅ Script Completed")
         (Some (add_fields (py_prefix 100) result
                  (add_fields id ms
                     [("Script", script_name o);
                      ("Duration", observer_duration o w)])))
         None (after_duration (start_time o) w)).2)).
Proof.
  unfold AgentObserver_script_completed.
  hub_step AgentObserver_get_duration_run.
  unfold bind at 1, get at 1. simpl.
  unfold bind at 1.
  destruct (truthy_dict ms); simpl; by rewrite notify_fields_run.
Qed.

Lemma AgentObserver_script_failed_run error stack context o w :
  AgentObserver_script_failed error stack context (o, w)
  = (Ok tt,
     (o,
      (send (notifier o)
         ("Failed execution of `" +:+ script_name o +:+ "`"
          +:+ String LF ("```" +:+ py_suffix 500 stack +:+ "```")) ERROR
         (Some "❌ Script Failed")
         (Some (add_fields (py_prefix 100) context
                  (add_directive o
                     [("Script", script_name o);
                      ("Duration", observer_duration o w);
                      ("Error Type", err_type error);
                      ("Error", py_prefix 200 (err_str error))])))
         None (after_duration (start_time o) w)).2)).
Proof.
  unfold AgentObserver_script_failed.
  hub_step AgentObserver_get_duration_run.
  unfold bind at 1, get at 1. simpl.
  by rewrite notify_fields_run.
Qed.

Lemma log_progress_run message progress details o w :
  log_progress message progress details (o, w)
  = (Ok tt,
     (o,
      (send (notifier o) message INFO (Some "📊 Progress Update")
         (Some (add_fields (py_prefix 100) details
                  (match progress with
                   | Some p => [("Script", script_name o); ("Progress", format_pct 1 p)]
                   | None => [("Script", script_name o)]
                   end)))
         None w).2)).
Proof.
  unfold log_progress. unfold bind at 1, get at 1. simpl.
  rewrite notify_fields_run. by destruct progress.
Qed.

Lemma log_warning_run message details o w :
  log_warning message details (o, w)
  = (Ok tt,
     (o,
      (send (notifier o) message WARNING (Some "⚠️ Warning")
         (Some (add_fields (py_prefix 100) details [("Script", script_name o)]))
         None w).2)).
Proof.
  unfold log_warning. unfold bind at 1, get at 1. simpl.
  by rewrite notify_fields_run.
Qed.

Lemma log_learning_run learning directive_updated o w :
  log_learning learning directive_updated (o, w)
  = (Ok tt,
     (o,
      (send (notifier o) learning INFO (Some "🧠 Learning Captured")
         (Some (add_directive o
                  [("Script", script_name o);
                   ("Directive Updated", if directive_updated then "Yes" else "No")]))
         None w).2)).
Proof.
  unfold log_learning. unfold bind at 1, get at 1. simpl.
  by rewrite notify_fields_run.
Qed.

Lemma after_duration_sends start w :
  w_sends (after_duration start w) = w_sends w
  ∧ w_requests (after_duration start w) = w_requests w.
Proof. by destruct start. Qed.

Lemma sent_fields_last w call :
  sent_fields (set_sends (w_sends w ++ [call]) w) = default [] (sc_fields call).
Proof. unfold sent_fields. simpl. by rewrite last_snoc. Qed.

Lemma sent_fields_send self message level title fields context w :
  sent_fields (send self message level title fields context w).2 = default [] fields.
Proof. unfold sent_fields. by rewrite send_sends, last_snoc. Qed.

Lemma sent_fields_some self message level title fields context w :
  sent_fields (send self message level title (Some fields) context w).2 = fields.
Proof. by rewrite sent_fields_send. Qed.

Lemma add_fields_get_other clip items k fields :
  dict_get k (default [] items) = None →
  dict_get k (add_fields clip items fields) = dict_get k fields.
Proof.
  unfold add_fields. destruct (truthy_dict items); [|done].
  generalize (default [] items). clear items. intros items. revert fields.
  induction items as [|[k0 v0] items IH]; intros fields Hk; [done|].
  simpl in *. destruct (String.eqb_spec k k0) as [->|Hne]; [done|].
  rewrite IH by done. by apply dict_get_set_ne.
Qed.

Lemma add_directive_get_other o k fields :
  k ≠ "Directive" → dict_get k (add_directive o fields) = dict_get k fields.
Proof.
  intros Hk. unfold add_directive. destruct (truthy_str (ao_directive o)); [|done].
  by apply dict_get_set_ne.
Qed.

Lemma add_directive_elem o k v fields :
  (k, v) ∈ add_directive o fields → (k, v) ∈ fields ∨ k = "Directive".
Proof.
  unfold add_directive. destruct (truthy_str (ao_directive o)); [|by left].
  intros Hin. apply dict_set_elem in Hin as [?|[= -> _]]; [by left|by right].
Qed.

(** X21. Every reporting method of the observer returns, and calls [send]
    exactly once, with the title and the level of the method, a field
    list and no footer; at most one request leaves. None of them changes
    the script name, the directive or the notifier of the observer. *)
Theorem observer_notifies_once context result ms error stack message progress details
    learning directive_updated o w :
  ∀ m title level,
    (m, title, level)
      ∈ [(AgentObserver_script_started context, "🚀 Script Started", INFO);
         (AgentObserver_script_completed result ms, "✅ Script Completed", SUCCESS);
         (AgentObserver_script_failed error stack context, "❌ Script Failed", ERROR);
         (log_progress message progress details, "📊 Progress Update", INFO);
         (log_warning message details, "⚠️ Warning", WARNING);
         (log_learning learning directive_updated, "🧠 Learning Captured", INFO)] →
    (m (o, w)).1 = Ok tt
    ∧ (∃ text fields,
         w_sends (m (o, w)).2.2
         = w_sends w ++ [mkSendCall text level (Some title) (Some fields) None])
    ∧ (∃ reqs, w_requests (m (o, w)).2.2 = w_requests w ++ reqs ∧ length reqs ≤ 1)
    ∧ script_name (m (o, w)).2.1 = script_name o
    ∧ ao_directive (m (o, w)).2.1 = ao_directive o
    ∧ notifier (m (o, w)).2.1 = notifier o.
Proof.
  intros m title level Hm.
  repeat (apply elem_of_cons in Hm as [[= -> -> ->]|Hm]);
    [| | | | | |by apply elem_of_nil in Hm].
  - rewrite AgentObserver_script_started_run. cbn [fst snd].
    split; [done|]. split; [do 2 eexists; by rewrite send_sends|].
    split; [exact (send_requests _ _ _ _ _ _ _)|done].
  - rewrite AgentObserver_script_completed_run. cbn [fst snd].
    destruct (after_duration_sends (start_time o) w) as [Hs Hr].
    split; [done|]. split; [do 2 eexists; by rewrite send_sends, Hs|].
    split; [rewrite <- Hr; apply send_requests|by destruct (truthy_dict ms)].
  - rewrite AgentObserver_script_failed_run. cbn [fst snd].
    destruct (after_duration_sends (start_time o) w) as [Hs Hr].
    split; [done|]. split; [do 2 eexists; by rewrite send_sends, Hs|].
    split; [rewrite <- Hr; apply send_requests|done].
  - rewrite log_progress_run. cbn [fst snd].
    split; [done|]. split; [do 2 eexists; by rewrite send_sends|].
    split; [exact (send_requests _ _ _ _ _ _ _)|done].
  - rewrite log_warning_run. cbn [fst snd].
    split; [done|]. split; [do 2 eexists; by rewrite send_sends|].
    split; [exact (send_requests _ _ _ _ _ _ _)|done].
  - rewrite log_learning_run. cbn [fst snd].
    split; [done|]. split; [do 2 eexists; by rewrite send_sends|].
    split; [exact (send_requests _ _ _ _ _ _ _)|done].
Qed.

(** X22. What the observer puts into a notification is cut to size: a field
    taken from [context], [details] or [result] has at most 100
    characters, so every longer field is one of the method's own; the
    "Error" field of [script_failed] has at most 200; and the message of
    [script_failed] quotes the last 500 characters of the traceback, all
    of it when it is shorter. *)
Theorem observer_truncates context error stack message progress o w :
  (∀ m own,
     (m, own)
       ∈ [(AgentObserver_script_started context, ["Script"; "Directive"]);
          (AgentObserver_script_completed context None, ["Script"; "Duration"]);
          (AgentObserver_script_failed error stack context,
           ["Script"; "Duration"; "Error Type"; "Error"; "Directive"]);
          (log_progress message progress context, ["Script"; "Progress"]);
          (log_warning message context, ["Script"])] →
     ∀ k v, (k, v) ∈ sent_fields (m (o, w)).2.2 → k ∈ own ∨ py_len v ≤ 100)
  ∧ (∀ v, ("Error", v)
            ∈ sent_fields (AgentObserver_script_failed error stack context (o, w)).2.2 →
          py_len v ≤ 200)
  ∧ ∃ lead tail call,
      last (w_sends (AgentObserver_script_failed error stack context (o, w)).2.2)
      = Some call
      ∧ sc_message call
        = "Failed execution of `" +:+ script_name o +:+ "`"
          +:+ String LF ("```" +:+ tail +:+ "```")
      ∧ stack = lead +:+ tail
      ∧ py_len tail = Nat.min 500 (py_len stack).
Proof.
  assert (Hclip : ∀ items k v fields (own : list string),
            (∀ k' v', (k', v') ∈ fields → k' ∈ own) →
            (k, v) ∈ add_fields (py_prefix 100) items fields →
            k ∈ own ∨ py_len v ≤ 100).
  { intros items k v fields own Hown Hin.
    apply add_fields_elem in Hin as [Hin|(v0 & _ & ->)].
    - left. by apply (Hown k v).
    - right. rewrite py_len_prefix. lia. }
  split; [|split].
  - intros m own Hm k v.
    repeat (apply elem_of_cons in Hm as [[= -> ->]|Hm]);
      [| | | | |by apply elem_of_nil in Hm].
    + rewrite AgentObserver_script_started_run. cbn [fst snd].
      rewrite sent_fields_some. apply Hclip.
      intros k' v' Hin. apply add_directive_elem in Hin as [Hin| ->].
      * apply elem_of_cons in Hin as [[= -> _]|Hin]; [in_list|].
        by apply elem_of_nil in Hin.
      * in_list.
    + rewrite AgentObserver_script_completed_run. cbn [fst snd].
      rewrite sent_fields_some. apply Hclip.
      intros k' v' Hin. unfold add_fields in Hin. cbn [truthy_dict] in Hin.
      repeat (apply elem_of_cons in Hin as [[= -> _]|Hin]); [in_list|in_list|].
      by apply elem_of_nil in Hin.
    + rewrite AgentObserver_script_failed_run. cbn [fst snd].
      rewrite sent_fields_some. apply Hclip.
      intros k' v' Hin. apply add_directive_elem in Hin as [Hin| ->]; [|in_list].
      repeat (apply elem_of_cons in Hin as [[= -> _]|Hin]);
        [in_list|in_list|in_list|in_list|].
      by apply elem_of_nil in Hin.
    + rewrite log_progress_run. cbn [fst snd].
      rewrite sent_fields_some. apply Hclip.
      intros k' v' Hin. destruct progress.
      * repeat (apply elem_of_cons in Hin as [[= -> _]|Hin]); [in_list|in_list|].
        by apply elem_of_nil in Hin.
      * repeat (apply elem_of_cons in Hin as [[= -> _]|Hin]); [in_list|].
        by apply elem_of_nil in Hin.
    + rewrite log_warning_run. cbn [fst snd].
      rewrite sent_fields_some. apply Hclip.
      intros k' v' Hin.
      repeat (apply elem_of_cons in Hin as [[= -> _]|Hin]); [in_list|].
      by apply elem_of_nil in Hin.
  - intros v. rewrite AgentObserver_script_failed_run. cbn [fst snd].
    rewrite sent_fields_some. intros Hin.
    apply add_fields_elem in Hin as [Hin|(v0 & _ & ->)].
    + apply add_directive_elem in Hin as [Hin|Hin]; [|done].
      repeat (apply elem_of_cons in Hin as [Hin|Hin]); try done.
      * injection Hin as ->. rewrite py_len_prefix. lia.
      * by apply elem_of_nil in Hin.
    + rewrite py_len_prefix. lia.
  - exists (py_prefix (py_len stack - 500) stack), (py_suffix 500 stack).
    eexists. rewrite AgentObserver_script_failed_run. cbn [fst snd].
    rewrite send_sends, last_snoc.
    split; [reflexivity|]. split; [reflexivity|].
    split; [unfold py_suffix; by rewrite py_prefix_drop|apply py_len_suffix].
Qed.

Lemma not_unknown (a u : string) : u ∈ ["s"; "m"; "h"] → a +:+ u ≠ "Unknown".
Proof.
  intros Hu H.
  assert (Hu' : u = "s" ∨ u = "m" ∨ u = "h").
  { repeat (apply elem_of_cons in Hu as [->|Hu]); auto. by apply elem_of_nil in Hu. }
  clear Hu.
  do 7 (destruct a as [|? a];
        [destruct Hu' as [->|[->| ->]]; discriminate H|injection H as _ H]).
  destruct a; destruct Hu' as [->|[->| ->]]; discriminate H.
Qed.

(** X23. The start time of the observer is set by [script_started] and by
    nothing else: [script_completed] reports under "Duration" the time
    since then, or "Unknown" when the script was never started, and keeps
    the start time, so that a later report measures from the same start.
    The metrics passed to [script_completed] are merged into those of the
    observer. *)
Theorem observer_duration_field context result ms o w :
  dict_get "Duration" (default [] ms) = None →
  dict_get "Duration" (default [] result) = None →
  let out := AgentObserver_script_completed result ms (o, w) in
  dict_get "Duration" (sent_fields out.2.2) = Some (observer_duration o w)
  ∧ (observer_duration o w = "Unknown" ↔ start_time o = None)
  ∧ start_time out.2.1 = start_time o
  ∧ ao_metrics out.2.1 = dict_update (ao_metrics o) (default [] ms)
  ∧ start_time (AgentObserver_script_started context (o, w)).2.1
    = Some (w_now w (w_tick w)).
Proof.
  intros Hms Hres. cbv zeta.
  rewrite AgentObserver_script_completed_run, AgentObserver_script_started_run.
  cbn [fst snd]. rewrite sent_fields_some.
  rewrite !add_fields_get_other by done.
  split; [done|]. split; [|split; [by destruct (truthy_dict ms)|split; [|done]]].
  - unfold observer_duration. destruct (start_time o) as [t0|]; [|done].
    split; [|done]. intros Hd. exfalso. revert Hd. unfold duration_text.
    destruct (_ <? 60)%float; [|destruct (_ <? 3600)%float];
      apply not_unknown; in_list.
  - destruct ms as [[|kv l]|]; done.
Qed.

Lemma observe_run {A} script_name directive notifier (type_name : A → string)
    args kwargs (func : M World A) w :
  let o := AgentObserver_init script_name directive notifier in
  let s0 := (AgentObserver_script_started
               (Some [("args", VStr (py_prefix 100 args));
                      ("kwargs", VStr (py_prefix 100 kwargs))]) (o, w)).2 in
  observe script_name directive notifier type_name args kwargs func w
  = match func s0.2 with
    | (Ok a, w1) =>
        (Ok a,
         (AgentObserver_script_completed
            (Some [("return_type", VStr (type_name a))]) None (s0.1, w1)).2.2)
    | (Raise e, w1) =>
        (Raise e,
         (AgentObserver_script_failed (as_error e) (format_exc e) None (s0.1, w1)).2.2)
    | (Hang, w1) => (Hang, w1)
    end.
Proof.
  cbv zeta. unfold observe. unfold bind at 1.
  rewrite AgentObserver_script_started_run. cbn [fst snd].
  unfold try_except, bind at 1, obs_world at 1, zoom at 1. cbn [fst snd].
  destruct (func _) as [[a|e|] w1]; [| |done].
  - unfold bind at 1. by rewrite AgentObserver_script_completed_run.
  - unfold bind at 1. by rewrite AgentObserver_script_failed_run.
Qed.

(** X24. The wrapper of [@observe] is transparent: it returns what the function
    returns and raises what it raises. It notifies twice, once before the
    call and once after: "Script Completed" with the class name of the
    result, or "Script Failed" with the class name and the text of the
    exception; both carry the time the call took. Arguments and result do
    not reach the notification beyond 100 characters of their text. *)
Theorem observe_wrapper {A} script_name directive notifier (type_name : A → string)
    args kwargs (func : M World A) w r w1 :
  let o := AgentObserver_init script_name directive notifier in
  let w0 := (AgentObserver_script_started
               (Some [("args", VStr (py_prefix 100 args));
                      ("kwargs", VStr (py_prefix 100 kwargs))]) (o, w)).2.2 in
  func w0 = (r, w1) →
  let out := observe script_name directive notifier type_name args kwargs func w in
  let duration :=
    duration_text (total_seconds (w_now w1 (w_tick w1)) (w_now w (w_tick w))) in
  out.1 = r
  ∧ (∃ text fields,
       w_sends w0
       = w_sends w ++ [mkSendCall text INFO (Some "🚀 Script Started") (Some fields) None]
       ∧ dict_get "args" fields = Some (py_prefix 100 (py_prefix 100 args))
       ∧ dict_get "kwargs" fields = Some (py_prefix 100 (py_prefix 100 kwargs)))
  ∧ match r with
    | Ok a =>
        ∃ text,
          w_sends out.2
          = w_sends w1
            ++ [mkSendCall text SUCCESS (Some "✅ Script Completed")
                  (Some [("Script", script_name); ("Duration", duration);
                         ("return_type", py_prefix 100 (type_name a))]) None]
    | Raise e =>
        ∃ text fields,
          w_sends out.2
          = w_sends w1
            ++ [mkSendCall text ERROR (Some "❌ Script Failed") (Some fields) None]
          ∧ dict_get "Duration" fields = Some duration
          ∧ dict_get "Error Type" fields = Some (exn_name e)
          ∧ dict_get "Error" fields = Some (py_prefix 200 (exn_str e))
    | Hang => out.2 = w1
    end.
Proof.
  cbv zeta. intros Hfunc. rewrite observe_run. cbv zeta. rewrite Hfunc.
  revert Hfunc. rewrite AgentObserver_script_started_run. cbn [fst snd]. intros Hfunc.
  split; [by destruct r|]. split.
  - do 2 eexists. rewrite send_sends. split; [reflexivity|].
    unfold add_directive. simpl ao_directive.
    destruct (truthy_str directive); done.
  - destruct r as [a|e|]; [| |done].
    + rewrite AgentObserver_script_completed_run. cbn [fst snd].
      eexists. rewrite send_sends. reflexivity.
    + rewrite AgentObserver_script_failed_run. cbn [fst snd].
      do 2 eexists. rewrite send_sends.
      split; [reflexivity|].
      unfold add_fields. cbn [truthy_dict].
      rewrite !add_directive_get_other by done. done.
Qed.


(** ** learning and progress *)

(** X25. [progress] always returns, on any hub: it emits one TASK_PROGRESS event
    at level INFO whose data hold the percentage as text when one is given,
    0.0 included, and are empty otherwise. [learning] emits with the slack
    sink in use: it returns on a hub whose slack sink is disabled and
    raises on one whose slack sink is enabled; its event is built in both
    cases. *)
Theorem progress_returns_learning_may_raise source message text percent updated h w :
  (progress source message percent (h, w)).1 = Ok tt
  ∧ w_events (progress source message percent (h, w)).2.2
    = w_events w
      ++ [emitted_event TASK_PROGRESS source message
            (Some match percent with
                  | Some p => [("percent", VStr (format_pct 1 p))]
                  | None => []
                  end) INFO w]
  ∧ (learning source text updated (h, w)).1
    = (if slack_enabled h then Raise (AttributeError "Event" "type") else Ok tt)
  ∧ w_events (learning source text updated (h, w)).2.2
    = w_events w
      ++ [emitted_event LEARNING_CAPTURED source text
            (Some [("directive_updated", VBool updated)]) INFO w]
  ∧ (progress source message percent (h, w)).2.1 = h
  ∧ (learning source text updated (h, w)).2.1 = h.
Proof.
  unfold progress, learning.
  rewrite !emit_then_events, !emit_then_hub.
  split; [|split; [done|split; [|done]]].
  - unfold bind. rewrite emit_run. done.
  - unfold bind. rewrite emit_run. simpl. by destruct (slack_enabled h).
Qed.

End Observability.

(** * The theorems on the sample data *)

(** Three records, then the summary. *)
Lemma get_summary_after_records_witness :
  [1.5; 0.5; 2]%float ≠ []
  ∧ ∃ s c,
      (for_each [1.5; 0.5; 2]%float (record "latency") ;; get_summary "latency")
        MetricsCollector_new = (Ok (Some s), c)
      ∧ s_count s = 3
      ∧ s_sum s = 4%float
      ∧ s_avg s = (4 / 3)%float
      ∧ s_min s = 0.5%float
      ∧ s_max s = 2%float.
Proof.
  split; [done|].
  destruct (get_summary_after_records "latency" [1.5; 0.5; 2]%float)
    as (s & c & Hrun & Hn & Hsum & Havg & _); [done|].
  exists s, c. split; [exact Hrun|].
  vm_compute in Hrun. injection Hrun as <- _.
  repeat split; reflexivity.
Defined.

(** The claim C5 as it is written fails on doubles. Two records of 0.1 and
    0.2: the sum of the summary is not the arithmetic sum of the two
    recorded numbers, since the addition rounds. And a record of NaN
    before a record of 1.0: the minimum of the summary is NaN, which is
    not below 1.0. *)
Lemma get_summary_sum_is_rounded :
  (∃ s c q q1 q2,
     (for_each [tenth; fifth] (record "latency") ;; get_summary "latency")
       MetricsCollector_new = (Ok (Some s), c)
     ∧ exact_value (s_sum s) = Some q
     ∧ exact_value tenth = Some q1
     ∧ exact_value fifth = Some q2
     ∧ ¬ (q == Qsum [q1; q2])%Q)
  ∧ (∃ s c,
       (for_each [nan; 1]%float (record "latency") ;; get_summary "latency")
         MetricsCollector_new = (Ok (Some s), c)
       ∧ PrimFloat.is_nan (s_min s) = true
       ∧ (s_min s <=? 1)%float = false).
Proof.
  split.
  - do 5 eexists. split; [vm_compute; reflexivity|].
    split; [vm_compute; reflexivity|].
    split; [vm_compute; reflexivity|].
    split; [vm_compute; reflexivity|].
    intros H. vm_compute in H. discriminate H.
  - do 2 eexists. split; [vm_compute; reflexivity|].
    split; vm_compute; reflexivity.
Qed.

(** One record, then [get_all]. *)
Lemma get_all_blocks_witness :
  (get_all (record "latency" 1.5%float MetricsCollector_new).2).1 = Hang.
Proof.
  apply get_all_blocks; [reflexivity|].
  intros H. apply (f_equal (fun m => m !! "latency")) in H.
  vm_compute in H. discriminate H.
Defined.

(** The notifier of the default hub has no webhook URL. *)
Lemma send_unconfigured_or_once_witness :
  (send (slack default_hub) "Task completed" SUCCESS None None None sample_world).1
    = Ok false
  ∧ w_requests
      (send (slack default_hub) "Task completed" SUCCESS None None None sample_world).2
    = [].
Proof.
  destruct (send_unconfigured_or_once (slack default_hub) "Task completed" SUCCESS
              None None None sample_world) as [H _].
  destruct (H (or_introl eq_refl)) as (Hr & Hq & _).
  split; [exact Hr|exact Hq].
Defined.

(** An event emitted on the default hub. *)
Lemma emit_to_slack_raises_witness :
  slack_enabled default_hub = true
  ∧ (emit sample_repr sample_dumps TASK_CHECKPOINT "etl" "halfway" None INFO true
       (default_hub, sample_world)).1 = Raise (AttributeError "Event" "type").
Proof.
  split; [reflexivity|].
  exact (proj1 (emit_to_slack_raises sample_repr sample_dumps TASK_CHECKPOINT
                  "etl" "halfway" None INFO default_hub sample_world eq_refl)).
Defined.

(** A directive is started, and completed 45 seconds later. *)
Lemma completed_duration_text_witness :
  ∃ event,
    w_events
      (directive_completed sample_repr sample_dumps "deploy" None
         (directive_started sample_repr sample_dumps "deploy" None
            (default_hub, sample_world_45)).2).2.2
    = w_events
        (directive_started sample_repr sample_dumps "deploy" None
           (default_hub, sample_world_45)).2.2 ++ [event]
    ∧ dict_get "duration" (data event) = Some (VStr "45.00s").
Proof.
  destruct (directive_started sample_repr sample_dumps "deploy" None
              (default_hub, sample_world_45)) as [r [h1 w1]] eqn:Hrun.
  assert (Hstart : _active_directives h1 !! "deploy" = Some (sample_time 0)).
  { pose proof (proj1 (started_marks sample_repr sample_dumps "deploy" None None
                         default_hub sample_world_45)) as H.
    by rewrite Hrun in H. }
  assert (Hclock : w_now w1 (w_tick w1) = sample_time 45000000).
  { pose proof (f_equal (fun x => w_now x.2.2 (w_tick x.2.2)) Hrun) as H.
    vm_compute in H. symmetry. exact H. }
  destruct (completed_duration_text sample_repr sample_dumps "deploy"
              (sample_time 0) h1 w1) as (_ & _ & _ & H45 & _ & Hd & _).
  destruct (Hd None Hstart eq_refl) as (event & He & _ & Hdata).
  exists event. split; [exact He|].
  rewrite Hdata, H45; [reflexivity|]. by rewrite Hclock.
Defined.

(** The claim C6 as it is written fails on two inputs. A directive
    completed with a result that has a "duration" entry of its own: the
    event carries that entry, not the text of the elapsed time. And a
    script completed with a metric beyond the doubles: [float] raises at
    it and no event is built. *)
Lemma completed_duration_replaced :
  (∃ event,
     w_events
       (directive_completed sample_repr sample_dumps "deploy"
          (Some [("duration", VStr "mine")])
          (directive_started sample_repr sample_dumps "deploy" None
             (default_hub, sample_world_45)).2).2.2
     = w_events
         (directive_started sample_repr sample_dumps "deploy" None
            (default_hub, sample_world_45)).2.2 ++ [event]
     ∧ event_type event = DIRECTIVE_COMPLETED
     ∧ dict_get "duration" (data event) = Some (VStr "mine"))
  ∧ (script_completed sample_repr sample_dumps "etl" (Some [("rows", VInt (10 ^ 400))])
       (script_started sample_repr sample_dumps "etl" None
          (default_hub, sample_world_45)).2).1
    = Raise (OverflowError "int too large to convert to float")
  ∧ w_events
      (script_completed sample_repr sample_dumps "etl" (Some [("rows", VInt (10 ^ 400))])
         (script_started sample_repr sample_dumps "etl" None
            (default_hub, sample_world_45)).2).2.2
    = w_events
        (script_started sample_repr sample_dumps "etl" None
           (default_hub, sample_world_45)).2.2.
Proof.
  split.
  - destruct (directive_started sample_repr sample_dumps "deploy" None
                (default_hub, sample_world_45)) as [r [h1 w1]].
    cbn [snd]. rewrite directive_completed_run.
    eexists. split; [by rewrite emit_then_events, after_duration_events|].
    split; reflexivity.
  - pose proof (proj2 (started_hubs sample_repr sample_dumps "etl" None None
                         default_hub sample_world_45)) as Hhub.
    destruct (script_started sample_repr sample_dumps "etl" None
                (default_hub, sample_world_45)) as [r [h1 w1]].
    cbn [fst snd] in *. subst h1.
    apply script_completed_rejects; [reflexivity|vm_compute; reflexivity].
Qed.

(** A raising subscriber on the default hub: [emit] raises in its slack
    step and the subscriber is not called. *)
Lemma emit_subscribers_caught_or_not_reached_witness :
  (emit sample_repr sample_dumps TASK_CHECKPOINT "etl" "halfway" None INFO true
     (set_subscribers [mkSubscriber 1 (fun _ => Some "boom")] default_hub,
      sample_world)).1
  = Raise (AttributeError "Event" "type")
  ∧ w_callbacks
      (emit sample_repr sample_dumps TASK_CHECKPOINT "etl" "halfway" None INFO true
         (set_subscribers [mkSubscriber 1 (fun _ => Some "boom")] default_hub,
          sample_world)).2.2
    = [].
Proof.
  destruct (proj2 (emit_subscribers_caught_or_not_reached sample_repr sample_dumps
                     TASK_CHECKPOINT "etl" "halfway" None INFO true
                     (set_subscribers [mkSubscriber 1 (fun _ => Some "boom")] default_hub)
                     sample_world) eq_refl) as (Hr & Hc & _).
  split; [exact Hr|exact Hc].
Defined.

(** A directive completed on the default hub without being started. *)
Lemma completed_without_start_raises_witness :
  (directive_completed sample_repr sample_dumps "deploy" None
     (default_hub, sample_world)).1 = Raise (AttributeError "Event" "type").
Proof.
  exact (proj1 (completed_without_start_raises sample_repr sample_dumps "deploy"
                  None None (mkPyError "ValueError" "bad input")
                  default_hub sample_world eq_refl eq_refl eq_refl eq_refl)).
Defined.

(** Three events of two types are logged; the day is then read back by type. *)
Lemma get_events_missing_or_filtered_witness :
  (get_events sample_loads (logger default_hub) None (Some SCRIPT_STARTED) None
     (for_each sample_events (log sample_dumps (logger default_hub)) sample_world).2).1
  = Ok (to_dict <$> filter (fun e => event_type e = SCRIPT_STARTED) sample_events)
  ∧ to_dict <$> filter (fun e => event_type e = SCRIPT_STARTED) sample_events
    = [to_dict (mkEvent SCRIPT_STARTED "etl" "Started script: etl" [] INFO
                  (sample_time 0) "script_started_1768478400000");
       to_dict (mkEvent SCRIPT_STARTED "load" "Started script: load" [] INFO
                  (sample_time 2000) "script_started_1768478400002")].
Proof.
  split; [|reflexivity].
  apply (proj2 (get_events_missing_or_filtered sample_dumps sample_loads
                  (logger default_hub)) sample_events (sample_time 0)).
  - intros e He. unfold sample_events in He.
    repeat (apply elem_of_cons in He as [->|He]); [by vm_compute ..|].
    by apply elem_of_nil in He.
  - intros i _. reflexivity.
  - reflexivity.
  - reflexivity.
Defined.

(** A script completed with a count, a flag, and a number beyond the
    doubles after them. *)
Lemma script_completed_records_booleans_witness :
  _metrics (metrics (script_completed sample_repr sample_dumps "etl"
                       (Some [("rows", VInt 1000); ("cached", VBool true);
                              ("big", VInt (10 ^ 400))])
                       (default_hub, sample_world)).2.1)
    !! "etl.cached" = Some [1%float].
Proof.
  refine (proj2 (script_completed_records_booleans sample_repr sample_dumps "etl"
                   [("rows", VInt 1000)] [("big", VInt (10 ^ 400))] "cached" true
                   default_hub sample_world eq_refl _ _)).
  - apply (bool_decide_unpack _). vm_compute. exact I.
  - vm_compute. reflexivity.
Defined.

(** The claim C10 as it is written fails when a number beyond the doubles
    comes before the flag: [float] raises at it, the loop ends there, and
    the flag is not recorded. *)
Lemma script_completed_overflow_skips_boolean :
  (script_completed sample_repr sample_dumps "etl"
     (Some [("big", VInt (10 ^ 400)); ("cached", VBool true)])
     (default_hub, sample_world)).1
  = Raise (OverflowError "int too large to convert to float")
  ∧ _metrics (metrics (script_completed sample_repr sample_dumps "etl"
                         (Some [("big", VInt (10 ^ 400)); ("cached", VBool true)])
                         (default_hub, sample_world)).2.1)
      !! "etl.cached" = None.
Proof.
  split; vm_compute; reflexivity.
Qed.

(** Three increments of a counter, one of them negative. *)
Lemma counter_after_increments_witness :
  ∃ c', for_each [1; 4; -2]%Z (increment "errors.total") MetricsCollector_new = (Ok tt, c')
    ∧ (get_counter "errors.total" c').1 = Ok 3%Z.
Proof.
  destruct (counter_after_increments "errors.total" [1; 4; -2]%Z MetricsCollector_new
              eq_refl) as (c' & Hrun & Hget & _).
  exists c'. split; [exact Hrun|exact Hget].
Defined.

(** A record and an increment, then [reset] and [get_all]. *)
Lemma reset_makes_new_witness :
  ((for_each [1.5]%float (record "latency") ;; for_each [1]%Z (increment "runs") ;;
    reset ;; get_all) MetricsCollector_new).1
  = Ok (mkSnapshot ∅ ∅).
Proof.
  exact (f_equal fst (proj1 (reset_makes_new "latency" [1.5]%float "runs" [1]%Z get_all
                               MetricsCollector_new eq_refl))).
Defined.

(** A record under "latency" does not show in the counter "runs". *)
Lemma record_leaves_others_witness :
  ((record "latency" 1.5%float ;; get_counter "runs") MetricsCollector_new).1
  = (get_counter "runs" MetricsCollector_new).1.
Proof.
  exact (proj2 (record_leaves_others "latency" 1.5%float MetricsCollector_new eq_refl)
           "runs").
Defined.

(** Three events are logged; the day is read back by type and source. *)
Lemma get_events_filters_witness :
  (get_events sample_loads (logger default_hub) None (Some SCRIPT_STARTED) (Some "load")
     (for_each sample_events (log sample_dumps (logger default_hub)) sample_world).2).1
  = Ok (to_dict <$>
          filter (fun e => keeps (Some SCRIPT_STARTED) (Some "load") e = true) sample_events)
  ∧ to_dict <$>
      filter (fun e => keeps (Some SCRIPT_STARTED) (Some "load") e = true) sample_events
    = [to_dict (mkEvent SCRIPT_STARTED "load" "Started script: load" [] INFO
                  (sample_time 2000) "script_started_1768478400002")].
Proof.
  split; [|reflexivity].
  apply (proj1 (get_events_filters sample_dumps sample_loads (logger default_hub))
           sample_events (sample_time 0)).
  - intros e He. unfold sample_events in He.
    repeat (apply elem_of_cons in He as [->|He]); [by vm_compute ..|].
    by apply elem_of_nil in He.
  - intros i _. reflexivity.
  - reflexivity.
  - reflexivity.
Defined.

(** A log file whose second line is not a record. *)
Lemma get_events_corrupt_line_witness :
  (get_events sample_loads (logger default_hub) None None None
     (set_files
        {[ log_file (logger default_hub) (sample_time 0) :=
             log_text sample_dumps (take 1 sample_events)
             +:+ "not a record" +:+ String LF "" ]}
        sample_world)).1
  = Raise (JSONDecodeError ("not a record" +:+ String LF "")).
Proof.
  apply (get_events_corrupt_line sample_dumps sample_loads (logger default_hub)
           (take 1 sample_events) ("not a record" +:+ String LF "")
           ("not a record" +:+ String LF "") [] (sample_time 0)).
  - intros e He. simpl in He.
    repeat (apply elem_of_cons in He as [->|He]); [by vm_compute ..|].
    by apply elem_of_nil in He.
  - reflexivity.
  - reflexivity.
  - vm_compute. reflexivity.
  - reflexivity.
Defined.

(** The events of 15 January do not show on 14 January. *)
Lemma log_keeps_other_days_witness :
  (get_events sample_loads (logger default_hub)
     (Some (mkDatetime 0 "2026-01-14" "12:00:00" "2026-01-14T12:00:00")) None None
     (for_each sample_events (log sample_dumps (logger default_hub)) sample_world).2).1
  = Ok [].
Proof.
  rewrite (log_keeps_other_days sample_dumps sample_loads (logger default_hub)
             (sample_time 0) sample_events
             (mkDatetime 0 "2026-01-14" "12:00:00" "2026-01-14T12:00:00")
             None None sample_world).
  - reflexivity.
  - intros i _. reflexivity.
  - intros H. discriminate H.
Defined.

(** A record with one key, "note", read with a filter on the type. *)
Lemma get_events_missing_key_witness :
  (get_events sample_loads_note (logger default_hub) None (Some TASK_PROGRESS) None
     (set_files
        {[ log_file (logger default_hub) (sample_time 0) := "note" +:+ String LF "" ]}
        sample_world)).1
  = Raise (KeyError "type").
Proof.
  refine (proj2 (get_events_missing_key sample_loads_note (logger default_hub)
                   ("note" +:+ String LF "") [("note", VStr ("note" +:+ String LF ""))]
                   (sample_time 0) None
                   (set_files
                      {[ log_file (logger default_hub) (sample_time 0) :=
                           "note" +:+ String LF "" ]}
                      sample_world)
                   eq_refl eq_refl eq_refl _ eq_refl) TASK_PROGRESS None).
  vm_compute. reflexivity.
Defined.

(** Two events of one type built in the same millisecond. *)
Lemma event_id_same_iff_witness :
  event_id (emitted_event TASK_PROGRESS "etl" "halfway" None INFO sample_world)
  = event_id (emitted_event TASK_PROGRESS "load" "done" None INFO sample_world).
Proof.
  apply (proj2 (event_id_same_iff TASK_PROGRESS TASK_PROGRESS "etl" "load"
                  "halfway" "done" None None INFO INFO sample_world sample_world
                  _ _ eq_refl eq_refl)).
  split; reflexivity.
Defined.

(** Two subscribers, the second of which raises. *)
Lemma subscribers_called_in_order_witness :
  map fst
    (w_callbacks
       ((for_each [mkSubscriber 1 (fun _ => None); mkSubscriber 2 (fun _ => Some "boom")]
           subscribe ;;
         emit sample_repr sample_dumps TASK_PROGRESS "etl" "halfway" None INFO false)
          (default_hub, sample_world)).2.2)
  = [1; 2].
Proof.
  rewrite (proj2 (subscribers_called_in_order sample_repr sample_dumps
                    [mkSubscriber 1 (fun _ => None); mkSubscriber 2 (fun _ => Some "boom")]
                    TASK_PROGRESS "etl" "halfway" None INFO false
                    default_hub sample_world eq_refl)).
  reflexivity.
Defined.

(** A directive started on the default hub. *)
Lemma lifecycle_entries_witness :
  _active_directives
    (directive_started sample_repr sample_dumps "deploy" None
       (default_hub, sample_world)).2.1
  = <["deploy" := sample_time 0]> ∅.
Proof.
  exact (proj1 (lifecycle_entries sample_repr sample_dumps "deploy" None None None None
                  (mkPyError "ValueError" "bad input") default_hub sample_world eq_refl)).
Defined.

(** A directive completed twice. *)
Lemma completed_twice_unknown_witness :
  ∃ event,
    w_events
      (directive_completed sample_repr sample_dumps "deploy" None
         (directive_completed sample_repr sample_dumps "deploy" None
            (default_hub, sample_world)).2).2.2
    = w_events
        (directive_completed sample_repr sample_dumps "deploy" None
           (default_hub, sample_world)).2.2 ++ [event]
    ∧ data event = [("duration", VStr "unknown")].
Proof.
  apply (completed_twice_unknown sample_repr sample_dumps "deploy" None
           (mkPyError "ValueError" "bad input") default_hub sample_world).
  apply elem_of_cons. by left.
Defined.

(** A script completed with a count and a note. *)
Lemma script_completed_metrics_witness :
  _metrics (metrics (script_completed sample_repr sample_dumps "etl"
                       (Some [("rows", VInt 1000); ("note", VStr "ok")])
                       (default_hub, sample_world)).2.1)
    !! "etl.note" = None.
Proof.
  refine (proj1 (proj2 (script_completed_metrics sample_repr sample_dumps "etl"
                          (Some [("rows", VInt 1000); ("note", VStr "ok")])
                          default_hub sample_world eq_refl)) "etl.note" _).
  intros k v Hin Hv. simpl in Hin.
  repeat (apply elem_of_cons in Hin as [[= -> ->]|Hin]); [done|done|].
  by apply elem_of_nil in Hin.
Defined.

(** The script named "total" fails once. *)
Lemma script_failed_counts_witness :
  default 0%Z
    (_counters (metrics (script_failed sample_repr sample_dumps "total"
                           (mkPyError "ValueError" "bad input")
                           (default_hub, sample_world)).2.1)
       !! "errors.total")
  = 2%Z.
Proof.
  exact (proj2 (script_failed_counts sample_repr sample_dumps "total"
                  (mkPyError "ValueError" "bad input") default_hub sample_world eq_refl)
           "errors.total").
Defined.

(** A directive whose body raises, on the hub without slack. *)
Lemma observe_directive_reports_witness :
  (observe_directive sample_repr sample_dumps sample_exn_str "deploy" None
     (raise (KeyError "rows")) (quiet_hub, sample_world)).1
  = Raise (KeyError "rows").
Proof.
  refine (proj1 (observe_directive_reports sample_repr sample_dumps sample_exn_str
                   "deploy" None (raise (KeyError "rows")) quiet_hub sample_world
                   (Raise (KeyError "rows"))
                   (directive_started sample_repr sample_dumps "deploy" None
                      (quiet_hub, sample_world)).2.1
                   (directive_started sample_repr sample_dumps "deploy" None
                      (quiet_hub, sample_world)).2.2
                   eq_refl _ _)).
  - by destruct (directive_started sample_repr sample_dumps "deploy" None
                   (quiet_hub, sample_world)) as [r0 [h1 w1]].
  - destruct (started_hubs sample_repr sample_dumps "deploy" None None
                quiet_hub sample_world) as [-> _]. reflexivity.
Defined.

(** A script whose body raises, on the hub without slack. *)
Lemma observe_script_reports_witness :
  (observe_script sample_repr sample_dumps sample_exn_str "etl" None
     (raise (KeyError "rows")) (quiet_hub, sample_world)).1
  = Raise (KeyError "rows").
Proof.
  refine (proj1 (observe_script_reports sample_repr sample_dumps sample_exn_str
                   "etl" None (raise (KeyError "rows")) quiet_hub sample_world
                   (Raise (KeyError "rows"))
                   (script_started sample_repr sample_dumps "etl" None
                      (quiet_hub, sample_world)).2.1
                   (script_started sample_repr sample_dumps "etl" None
                      (quiet_hub, sample_world)).2.2
                   eq_refl _ _ _)).
  - by destruct (script_started sample_repr sample_dumps "etl" None
                   (quiet_hub, sample_world)) as [r0 [h1 w1]].
  - destruct (started_hubs sample_repr sample_dumps "etl" None None
                quiet_hub sample_world) as [_ ->]. reflexivity.
  - destruct (started_hubs sample_repr sample_dumps "etl" None None
                quiet_hub sample_world) as [_ ->]. reflexivity.
Defined.

(** A block on the default hub. *)
Lemma observe_never_enters_witness :
  (observe_directive sample_repr sample_dumps sample_exn_str "deploy" None (ret tt)
     (default_hub, sample_world)).1
  = Raise (AttributeError "Event" "type").
Proof.
  exact (proj1 (proj2 (proj2 (observe_never_enters sample_repr sample_dumps sample_exn_str
                                "deploy" None None default_hub sample_world eq_refl
                                (ret tt))))).
Defined.

(** A message sent with an empty title and no fields. *)
Lemma send_payload_witness :
  ∃ att,
    w_requests (send sample_notifier "Task completed" SUCCESS (Some "") None None
                  sample_world).2
    = [mkRequest "https://hooks.example/T000"
         (mkPayload "Agent Workflow" ":robot_face:" [att] (Some "#ops")) 10]
    ∧ att_title att = None
    ∧ att_fields att = None
    ∧ att_footer att = "Agent Workflow Observability".
Proof.
  destruct (send_payload sample_notifier "Task completed" SUCCESS (Some "") None None
              sample_world eq_refl)
    as (att & Hreq & _ & _ & _ & Ht & Hf & Hn & _).
  exists att. split; [exact Hreq|]. split; [exact Ht|].
  split; [apply Hn; by left|exact Hf].
Defined.

(** A warning of the sample observer. *)
Lemma observer_notifies_once_witness :
  (log_warning sample_repr "disk almost full" None (sample_observer, sample_world)).1
  = Ok tt.
Proof.
  refine (proj1 (observer_notifies_once sample_repr None None None
                   (mkPyError "ValueError" "bad input") "" "disk almost full" None None
                   "" false sample_observer sample_world
                   (log_warning sample_repr "disk almost full" None) _ WARNING _)).
  do 4 (apply elem_of_cons; right). apply elem_of_cons. left. reflexivity.
Defined.

(** A completion reported by an observer that was never started. *)
Lemma observer_duration_field_witness :
  dict_get "Duration"
    (sent_fields
       (AgentObserver_script_completed sample_repr None None
          (sample_observer, sample_world)).2.2)
  = Some "Unknown".
Proof.
  exact (proj1 (observer_duration_field sample_repr None None None sample_observer
                  sample_world eq_refl eq_refl)).
Defined.

(** A function that returns 7, observed. *)
Lemma observe_wrapper_witness :
  (observe sample_repr sample_exn_str sample_format_exc "etl" (Some "nightly")
     sample_notifier (fun _ : Z => "int") "()" "{}" (ret 7%Z) sample_world).1
  = Ok 7%Z.
Proof.
  exact (proj1 (observe_wrapper sample_repr sample_exn_str sample_format_exc
                  "etl" (Some "nightly") sample_notifier (fun _ : Z => "int") "()" "{}"
                  (ret 7%Z) sample_world (Ok 7%Z) _ eq_refl)).
Defined.
